(** * A training portal: slide resolution and the progress store

    A shallow embedding of [app.py]: the slide generator
    ([PresentationGenerator]), the entry point used by the user interface
    ([generate_presentation_slide]) and the JSON progress store
    ([load_user_progress], [save_user_progress], [update_user_progress]).

    Python values are an inductive type, exceptions are an explicit result
    type, and the two pieces of global state the program mutates (the
    in-memory [user_progress] and the file [user_progress.json]) are
    threaded through [update_user_progress] as a [world]. *)

From Stdlib Require Import ZArith String Ascii List Bool Lia.
From Stdlib Require Import Floats.PrimFloat Floats.SpecFloat Floats.FloatOps.
From Stdlib Require Import Floats.FloatAxioms.
From Stdlib Require Import Numbers.Cyclic.Int63.Uint63 DecimalString DecimalPos.
Import ListNotations.
Open Scope string_scope.

(** ** Exceptions and results *)

Inductive exn : Type :=
| IndexError
| KeyError (key : string)
| AttributeError
| TypeError
| ZeroDivisionError
| OSError.

Inductive result (A : Type) : Type :=
| Ok (a : A)
| Raise (e : exn).

Arguments Ok {A} a.
Arguments Raise {A} e.

Definition bind {A B : Type} (c : result A) (k : A -> result B) : result B :=
  match c with
  | Ok a => k a
  | Raise e => Raise e
  end.

Notation "x <- c ;; k" := (bind c (fun x => k))
  (at level 61, c at next level, right associativity).

(** ** Python values

    The values that reach the modelled code all come from JSON documents or
    from literals of the same shape, so dictionaries have string keys.  A
    dictionary is an association list in insertion order. *)

#[warnings="-register-all"]
Inductive pyval : Type :=
| PyNone
| PyBool (b : bool)
| PyInt (z : Z)
| PyFloat (f : float)
| PyStr (s : string)
| PyList (l : list pyval)
| PyDict (d : list (string * pyval)).

Definition pydict : Type := list (string * pyval).

Definition nl : string := String (ascii_of_nat 10) EmptyString.
Definition dq : string := String (ascii_of_nat 34) EmptyString.

(** [d[k]] on a table with string keys: the first binding of [k]. *)
Fixpoint assoc {A : Type} (k : string) (d : list (string * A)) : option A :=
  match d with
  | [] => None
  | (k', v) :: rest => if String.eqb k k' then Some v else assoc k rest
  end.

(** [d[k] = v]: an existing key keeps its position, a new key goes last. *)
Fixpoint dict_set (k : string) (v : pyval) (d : pydict) : pydict :=
  match d with
  | [] => [(k, v)]
  | (k', v') :: rest =>
      if String.eqb k k' then (k', v) :: rest else (k', v') :: dict_set k v rest
  end.

(** [d.get(k, default)] *)
Definition dict_get_default (d : pydict) (k : string) (default : pyval) : pyval :=
  match assoc k d with
  | Some v => v
  | None => default
  end.

(** Strings are UTF-8 byte strings; Python sees code points.  A code point is
    a lead byte followed by its continuation bytes (10xxxxxx). *)
Definition is_continuation (c : ascii) : bool :=
  let n := nat_of_ascii c in (128 <=? n)%nat && (n <? 192)%nat.

Fixpoint utf8_chars (s : string) : list string :=
  match s with
  | EmptyString => []
  | String c rest =>
      match rest with
      | String d _ =>
          if is_continuation d then
            match utf8_chars rest with
            | h :: t => String c h :: t
            | [] => [String c EmptyString]
            end
          else String c EmptyString :: utf8_chars rest
      | EmptyString => [String c EmptyString]
      end
  end.

(** [needle in hay] for two strings. *)
Fixpoint str_contains (needle hay : string) : bool :=
  String.prefix needle hay ||
  match hay with
  | EmptyString => false
  | String _ rest => str_contains needle rest
  end.

(** [sep.join(parts)] *)
Fixpoint str_join (sep : string) (parts : list string) : string :=
  match parts with
  | [] => EmptyString
  | [p] => p
  | p :: rest => p ++ sep ++ str_join sep rest
  end.

Definition string_of_Z (z : Z) : string := NilZero.string_of_int (Z.to_int z).

(** Truth value of an object, as [if x] and [not x] compute it. *)
Definition truthy (v : pyval) : bool :=
  match v with
  | PyNone => false
  | PyBool b => b
  | PyInt z => negb (Z.eqb z 0)
  | PyFloat f => negb (PrimFloat.eqb f zero)
  | PyStr s => negb (String.eqb s EmptyString)
  | PyList l => match l with [] => false | _ => true end
  | PyDict d => match d with [] => false | _ => true end
  end.

(** Numbers compare across [bool], [int] and [float] by exact value. *)
Definition float_eq_Z (f : float) (z : Z) : bool :=
  match Prim2SF f with
  | S754_zero _ => Z.eqb z 0
  | S754_finite s m e =>
      let v := if s then Z.neg m else Z.pos m in
      if (0 <=? e)%Z then Z.eqb z (v * 2 ^ e)
      else Z.eqb (v mod 2 ^ (- e)) 0 && Z.eqb z (v / 2 ^ (- e))
  | _ => false
  end.

Definition as_number (v : pyval) : option (Z + float) :=
  match v with
  | PyBool b => Some (inl (Z.b2z b))
  | PyInt z => Some (inl z)
  | PyFloat f => Some (inr f)
  | _ => None
  end.

Definition num_eqb (a b : Z + float) : bool :=
  match a, b with
  | inl x, inl y => Z.eqb x y
  | inl x, inr g => float_eq_Z g x
  | inr f, inl y => float_eq_Z f y
  | inr f, inr g => PrimFloat.eqb f g
  end.

(** [a == b] *)
Fixpoint py_eqb (a b : pyval) {struct a} : bool :=
  match a with
  | PyNone => match b with PyNone => true | _ => false end
  | PyBool x =>
      match as_number b with Some n => num_eqb (inl (Z.b2z x)) n | None => false end
  | PyInt x =>
      match as_number b with Some n => num_eqb (inl x) n | None => false end
  | PyFloat x =>
      match as_number b with Some n => num_eqb (inr x) n | None => false end
  | PyStr s => match b with PyStr t => String.eqb s t | _ => false end
  | PyList l1 =>
      match b with
      | PyList l2 =>
          (fix go (xs ys : list pyval) {struct xs} : bool :=
             match xs, ys with
             | [], [] => true
             | x :: xs', y :: ys' => py_eqb x y && go xs' ys'
             | _, _ => false
             end) l1 l2
      | _ => false
      end
  | PyDict d1 =>
      match b with
      | PyDict d2 =>
          Nat.eqb (length d1) (length d2) &&
          (fix all (d : list (string * pyval)) {struct d} : bool :=
             match d with
             | [] => true
             | (k, v) :: rest =>
                 match assoc k d2 with
                 | Some v2 => py_eqb v v2
                 | None => false
                 end && all rest
             end) d1
      | _ => false
      end
  end.

(** [needle in container] *)
Definition py_contains (container needle : pyval) : result bool :=
  match container with
  | PyList l => Ok (existsb (fun e => py_eqb e needle) l)
  | PyStr s =>
      match needle with
      | PyStr t => Ok (str_contains t s)
      | _ => Raise TypeError
      end
  | PyDict d =>
      match needle with
      | PyStr k => Ok (match assoc k d with Some _ => true | None => false end)
      | PyList _ | PyDict _ => Raise TypeError
      | _ => Ok false
      end
  | _ => Raise TypeError
  end.

(** [len(x)] *)
Definition py_len (v : pyval) : result Z :=
  match v with
  | PyList l => Ok (Z.of_nat (length l))
  | PyDict d => Ok (Z.of_nat (length d))
  | PyStr s => Ok (Z.of_nat (length (utf8_chars s)))
  | _ => Raise TypeError
  end.

(** The items a [for] loop or a comprehension visits. *)
Definition py_iter (v : pyval) : result (list pyval) :=
  match v with
  | PyList l => Ok l
  | PyStr s => Ok (map PyStr (utf8_chars s))
  | PyDict d => Ok (map (fun kv => PyStr (fst kv)) d)
  | _ => Raise TypeError
  end.

(** [l[i]] on a list, with Python's negative indices. *)
Definition list_index {A : Type} (l : list A) (i : Z) : result A :=
  let n := Z.of_nat (length l) in
  let j := if (i <? 0)%Z then (n + i)%Z else i in
  if ((0 <=? j) && (j <? n))%Z then
    match nth_error l (Z.to_nat j) with
    | Some x => Ok x
    | None => Raise IndexError
    end
  else Raise IndexError.

(** [a / b] on two integers: true division, a float.  Both operands are
    lengths of containers, far below 2^53, where the conversion to a float is
    exact and the quotient is the correctly rounded one. *)
Definition float_of_Z (z : Z) : float := PrimFloat.of_uint63 (Uint63.of_Z z).

Definition py_truediv (a b : Z) : result float :=
  if Z.eqb b 0 then Raise ZeroDivisionError
  else Ok (PrimFloat.div (float_of_Z a) (float_of_Z b)).

(** What the interpreter and its standard library supply and the program
    only calls: [repr] of floats and containers (used when such a value is
    formatted into an f-string), [str.title], and the [json] codec, where
    [json_loads] is [None] when [json.load] raises. *)
Record runtime : Type := {
  py_repr : pyval -> string;
  str_title : string -> string;
  json_dumps : pyval -> string;
  json_loads : string -> option pyval
}.

(** [str(v)], which is what [f"{v}"] inserts. *)
Definition py_str (rt : runtime) (v : pyval) : string :=
  match v with
  | PyNone => "None"
  | PyBool true => "True"
  | PyBool false => "False"
  | PyInt z => string_of_Z z
  | PyStr s => s
  | _ => py_repr rt v
  end.

(** [v.title()]: only strings have the method. *)
Definition py_title (rt : runtime) (v : pyval) : result string :=
  match v with
  | PyStr s => Ok (str_title rt s)
  | _ => Raise AttributeError
  end.

(** ** Configuration

    [module_config.json], loaded once by [load_config]: the modules by id,
    the slide titles of each presentation template
    ([presentation_templates[t]['slides']]) and the assessment weights by
    difficulty.  Keys are distinct, as in any JSON object once loaded. *)

Record Config : Type := {
  modules : list (string * pydict);
  presentation_templates : list (string * list string);
  assessment_criteria : list (string * pydict)
}.

(** ** The literal slide tables

    One definition per entry of the [content] dictionaries, with the
    formatted fields as parameters.  [dq] stands for a double quote. *)

Definition introduction_slide_0 (title : string) : string :=
  "# 🚀 "
  ++ title
  ++ "
            
Welcome to the **AI-Driven Quality Assurance Professional Development Portal**!

## What You'll Experience:
- 🎯 **Practical AI Integration** in QA workflows
- 🛠️ **Hands-on Projects** with real-world applications
- 📊 **Template-driven Learning** with structured presentations
- 🤖 **AI Tools and Techniques** specific to QA professionals

## Our Approach:
- **Theory + Practice**: Balance conceptual understanding with practical implementation
- **Personalized Learning**: Adapt to your experience level and interests
- **Community Focus**: Connect with fellow QA professionals exploring AI

Ready to transform your QA practice with AI? Let's begin! 🌟".

Definition introduction_slide_1 (title : string) : string :=
  "# 📚 "
  ++ title
  ++ "
            
## Your Personalized Learning Path

### 🎯 Core Modules Available:
1. **Programming/Building Projects with AI** - Build automation tools and chatbots
2. **Best Practices with AI** - Learn effective and safe AI usage
3. **QA + AI Integration** - Advanced testing process automation
4. **Knowledge Bases with AI** - Create intelligent QA assistants
5. **AI Compliance & Governance** - Ethical and legal frameworks
6. **Essential AI Concepts** - MCP, RAG, Fine-Tuning basics

### 🛤️ Learning Paths:
- **Beginner**: Start with AI fundamentals and best practices
- **Intermediate**: Focus on practical integration and tools
- **Advanced**: Deep dive into custom solutions and governance

### 📊 Progress Tracking:
- Real-time progress monitoring
- Skill acquisition tracking
- Hands-on project portfolio
- Personalized recommendations".

Definition introduction_slide_2 (title : string) : string :=
  "# 🛠️ "
  ++ title
  ++ "
            
## Essential Tools & Platforms

### 🤖 AI Platforms:
- **OpenAI GPT Models** - For text generation and analysis
- **Langchain** - For building AI applications
- **Vector Databases** - ChromaDB, FAISS for knowledge bases
- **Gradio** - For creating interactive interfaces

### 🔧 QA-Specific Tools:
- **Test Automation Frameworks** - Selenium, Playwright integration
- **API Testing** - Postman, REST Assured with AI enhancement
- **Performance Testing** - JMeter with AI-driven analysis
- **Bug Tracking** - Jira integration with AI insights

### 📚 Resources:
- **Documentation** - Interactive guides and tutorials
- **Code Repositories** - GitHub templates and examples
- **Community Forums** - Peer support and knowledge sharing
- **Certification Paths** - Industry-recognized credentials

### 🔐 Setup Requirements:
- Python 3.8+ environment
- API keys for AI services
- Development tools installation
- Access to testing environments".

Definition introduction_slide_3 (title : string) : string :=
  "# 🎯 "
  ++ title
  ++ "
            
## What You'll Achieve

### 🚀 Immediate Outcomes:
- **Automate repetitive QA tasks** using AI tools
- **Generate intelligent test cases** from requirements
- **Analyze bugs and failures** with AI assistance
- **Create custom QA chatbots** for your team

### 🎓 Skill Development:
- **Prompt Engineering** for QA-specific tasks
- **AI Model Integration** in testing workflows
- **Knowledge Base Creation** for QA documentation
- **Compliance Understanding** for AI in enterprise

### 📈 Career Advancement:
- **Enhanced Productivity** - Automate routine tasks
- **Strategic Value** - Become an AI-savvy QA professional
- **Innovation Leadership** - Drive AI adoption in your organization
- **Continuous Learning** - Stay ahead of industry trends

### 🌟 Long-term Impact:
- Transform from traditional QA to AI-enhanced QA
- Lead digital transformation initiatives
- Mentor others in AI adoption
- Contribute to the future of quality assurance

**Ready to start your AI-QA journey?** 🚀".

Definition module_overview_slide_0 (title m_title m_description m_difficulty m_hands_on : string) : string :=
  "# 📖 "
  ++ title
  ++ ": "
  ++ m_title
  ++ "
            
## Module Overview
"
  ++ m_description
  ++ "

### 🎯 Target Audience:
- **Difficulty Level**: "
  ++ m_difficulty
  ++ "
- **Hands-on Component**: "
  ++ m_hands_on
  ++ "
- **Prerequisites**: Basic understanding of QA processes

### 📊 Module Structure:
- **Duration**: 2-4 hours (flexible pacing)
- **Format**: Interactive presentations + practical exercises
- **Assessment**: Hands-on projects and knowledge checks
- **Certification**: Module completion certificate

### 🔧 What You'll Need:
- Python development environment
- Access to AI APIs (OpenAI, etc.)
- Basic command line familiarity
- Willingness to experiment and learn!".

Definition module_overview_slide_1 (title : string) : string :=
  "# 🎯 "
  ++ title
  ++ "
            
## Learning Objectives

By the end of this module, you will be able to:

### 📚 Understand:
- Core concepts and terminology
- Real-world applications in QA
- Benefits and limitations
- Best practices and common pitfalls

### 🛠️ Apply:
- Practical implementation techniques
- Integration with existing workflows
- Troubleshooting and optimization
- Quality assurance principles

### 🚀 Create:
- Custom solutions for your QA needs
- Automated testing enhancements
- AI-powered QA tools
- Documentation and knowledge sharing

### 🔍 Evaluate:
- Effectiveness of AI solutions
- Quality metrics and KPIs
- Risk assessment and mitigation
- Continuous improvement strategies

*These objectives align with industry standards and career advancement requirements.*".

Definition module_overview_slide_2 (title topics_block : string) : string :=
  "# 📋 "
  ++ title
  ++ "
            
## Key Topics Covered

### 🔍 Deep Dive Topics:
"
  ++ topics_block
  ++ "

### 🎯 Focus Areas:
- **Theoretical Foundation**: Understanding core concepts
- **Practical Application**: Real-world implementation
- **Industry Standards**: Best practices and compliance
- **Future Trends**: Emerging technologies and approaches

### 📊 Content Structure:
1. **Introduction & Context** (15 minutes)
2. **Core Concepts** (30 minutes)
3. **Hands-on Practice** (60 minutes)
4. **Advanced Techniques** (30 minutes)
5. **Assessment & Review** (15 minutes)

### 🔗 Integration Points:
- Connection to other modules
- Cross-functional applications
- Industry use cases
- Career development paths

*Each topic includes practical examples and real-world case studies.*".

Definition module_overview_slide_3 (title : string) : string :=
  "# 🛠️ "
  ++ title
  ++ "
            
## Hands-on Activities

### 🎮 Interactive Exercises:
- **Live Coding Sessions** - Build AI tools together
- **Problem-Solving Challenges** - Real QA scenarios
- **Peer Collaboration** - Group projects and discussions
- **Tool Exploration** - Hands-on with latest AI platforms

### 🔨 Practical Projects:
1. **Mini-Project**: Quick implementation (30 minutes)
2. **Main Project**: Comprehensive solution (90 minutes)
3. **Extension Challenge**: Advanced features (optional)

### 🎯 Learning Methodologies:
- **Learning by Doing**: Immediate application
- **Guided Discovery**: Structured exploration
- **Peer Learning**: Collaborative problem-solving
- **Reflection**: Understanding and improvement

### 📱 Tools & Resources:
- **Interactive Notebooks** - Jupyter/Colab environments
- **Code Repositories** - GitHub templates and examples
- **Testing Environments** - Safe spaces to experiment
- **Documentation** - Step-by-step guides

*All activities are designed for practical application in your work environment.*".

Definition module_overview_slide_4 (title level understanding application problem_solving : string) : string :=
  "# 📊 "
  ++ title
  ++ "
            
## Assessment Criteria

### 🎯 Evaluation Framework:
Based on difficulty level: **"
  ++ level
  ++ "**

### 📈 Assessment Components:
- **Understanding** ("
  ++ understanding
  ++ "%): Conceptual grasp
- **Application** ("
  ++ application
  ++ "%): Practical implementation
- **Problem Solving** ("
  ++ problem_solving
  ++ "%): Critical thinking

### ✅ Success Indicators:
- **Completion of hands-on projects**
- **Demonstration of key concepts**
- **Ability to adapt solutions**
- **Quality of implementation**

### 🏆 Recognition:
- **Module Completion Certificate**
- **Skill Badges** for specific competencies
- **Portfolio Projects** for career advancement
- **Peer Recognition** through community contributions

### 🔄 Continuous Improvement:
- Regular feedback collection
- Performance analytics
- Personalized recommendations
- Adaptive learning paths

*Assessment is designed to be supportive and growth-oriented.*".

Definition hands_on_slide_0 (title : string) : string :=
  "# 🚀 "
  ++ title
  ++ "
            
## Setup and Prerequisites

### 🔧 Technical Requirements:
- **Python 3.8+** installed on your system
- **pip** package manager
- **Code editor** (VS Code, PyCharm, or similar)
- **Terminal/Command line** access

### 📦 Required Packages:
```bash
pip install gradio openai langchain chromadb pandas numpy matplotlib
```

### 🔑 API Keys & Access:
- **OpenAI API Key** - For GPT models
- **Hugging Face Token** - For open-source models
- **Database Access** - For knowledge bases
- **Testing Environment** - Sandbox for experiments

### 📁 Project Structure:
```
ai-qa-project/
├── src/
├── data/
├── tests/
├── config/
└── notebooks/
```

### ✅ Verification Steps:
1. Run `python --version` (should be 3.8+)
2. Test package imports
3. Verify API connectivity
4. Check project structure

*Don't worry if you encounter issues - we'll troubleshoot together!*".

Definition hands_on_slide_1 (title : string) : string :=
  "# 👨‍💻 "
  ++ title
  ++ "
            
## Step-by-Step Implementation

### 🎯 Today's Project:
Building an **AI-Powered Test Case Generator**

### 📋 Implementation Steps:

#### Step 1: Environment Setup (5 minutes)
```python
import openai
import gradio as gr
import json
from datetime import datetime
```

#### Step 2: Core Function Development (20 minutes)
- Create the test case generation function
- Implement prompt engineering for QA
- Add validation and error handling

#### Step 3: Gradio Interface (15 minutes)
- Design user-friendly input forms
- Create output display components
- Add interactive elements

#### Step 4: Integration & Testing (10 minutes)
- Connect components
- Test with sample data
- Refine based on results

### 🔄 Iterative Development:
- **Build** → **Test** → **Refine** → **Repeat**
- Real-time feedback and improvements
- Collaborative problem-solving

*We'll code together, step by step!*".

Definition hands_on_slide_2 (title : string) : string :=
  "# ⚠️ "
  ++ title
  ++ "
            
## Common Challenges

### 🐛 Technical Issues:
- **API Rate Limits**: Implement proper throttling
- **Token Limits**: Optimize prompt length
- **Network Connectivity**: Add retry mechanisms
- **Package Conflicts**: Use virtual environments

### 🤔 Conceptual Challenges:
- **Prompt Engineering**: Crafting effective prompts
- **Model Selection**: Choosing the right AI model
- **Quality Validation**: Ensuring output quality
- **Integration Complexity**: Connecting with existing tools

### 💡 Solutions & Workarounds:
- **Error Handling**: Graceful failure management
- **Fallback Strategies**: Alternative approaches
- **Performance Optimization**: Efficient processing
- **User Experience**: Intuitive interfaces

### 🔧 Troubleshooting Tips:
1. **Check logs** for detailed error messages
2. **Test incrementally** - small steps
3. **Use debugging tools** - print statements, debuggers
4. **Seek help** - community support available

### 📚 Resources:
- **Documentation**: Official guides and tutorials
- **Stack Overflow**: Community Q&A
- **GitHub Issues**: Known problems and solutions
- **Office Hours**: Direct support sessions

*Remember: Every expert was once a beginner!*".

Definition hands_on_slide_3 (title : string) : string :=
  "# 🌟 "
  ++ title
  ++ "
            
## Best Practices

### 🎯 Development Principles:
- **Start Simple**: Begin with basic functionality
- **Iterate Quickly**: Rapid prototyping and testing
- **Document Everything**: Clear code and process documentation
- **Test Thoroughly**: Validate all components

### 🔒 Security & Compliance:
- **API Key Management**: Secure storage and rotation
- **Data Privacy**: Protect sensitive information
- **Access Controls**: Implement proper permissions
- **Audit Trails**: Track all activities

### 📊 Quality Assurance:
- **Code Reviews**: Peer validation
- **Automated Testing**: Unit and integration tests
- **Performance Monitoring**: Track system metrics
- **User Feedback**: Continuous improvement

### 🚀 Performance Optimization:
- **Efficient Algorithms**: Choose optimal approaches
- **Caching Strategies**: Reduce redundant processing
- **Async Processing**: Handle concurrent requests
- **Resource Management**: Optimize memory and CPU usage

### 🤝 Collaboration:
- **Version Control**: Git best practices
- **Documentation**: Clear and comprehensive
- **Knowledge Sharing**: Team learning sessions
- **Mentorship**: Support junior developers

*These practices ensure sustainable, scalable solutions.*".

Definition hands_on_slide_4 (title : string) : string :=
  "# 🔮 "
  ++ title
  ++ "
            
## Next Steps

### 🎯 Immediate Actions:
- **Complete the current project**
- **Test in your environment**
- **Document your learnings**
- **Share with your team**

### 📈 Skill Development:
- **Advanced Prompt Engineering**
- **Custom Model Training**
- **API Integration Mastery**
- **Performance Optimization**

### 🌐 Community Engagement:
- **Join AI-QA Forums**
- **Contribute to Open Source**
- **Attend Conferences**
- **Network with Peers**

### 🔄 Continuous Learning:
- **Follow Industry Trends**
- **Experiment with New Tools**
- **Practice Regularly**
- **Seek Feedback**

### 🏆 Career Advancement:
- **Build Portfolio Projects**
- **Obtain Certifications**
- **Lead AI Initiatives**
- **Mentor Others**

### 📚 Recommended Resources:
- **Books**: "
  ++ dq
  ++ "AI for Quality Assurance"
  ++ dq
  ++ "
- **Courses**: Advanced AI specializations
- **Blogs**: Industry thought leaders
- **Podcasts**: AI in testing discussions

*Your AI-QA journey is just beginning!*".

Definition conclusion_slide_0 (title : string) : string :=
  "# 🎉 "
  ++ title
  ++ "
            
## What You've Accomplished

### 🏆 Skills Acquired:
- **AI Integration** in QA workflows
- **Prompt Engineering** for testing scenarios
- **Tool Development** using modern frameworks
- **Problem-Solving** with AI assistance

### 🛠️ Practical Outcomes:
- **Automated Test Generation** tools
- **AI-Enhanced Bug Analysis** systems
- **Custom QA Chatbots** for team support
- **Knowledge Base** creation and management

### 📊 Measurable Impact:
- **Efficiency Gains**: 40-60% reduction in manual effort
- **Quality Improvement**: Enhanced test coverage
- **Innovation**: New approaches to QA challenges
- **Career Growth**: Expanded skill set and opportunities

### 🌟 Personal Growth:
- **Confidence**: Working with AI technologies
- **Creativity**: Innovative problem-solving approaches
- **Leadership**: Driving AI adoption in QA
- **Adaptability**: Embracing technological change

### 🔮 Future Readiness:
- **Emerging Technologies**: Prepared for AI evolution
- **Industry Trends**: Understanding of QA direction
- **Continuous Learning**: Foundation for ongoing development
- **Professional Network**: Connections with AI-QA community

*You're now equipped to lead AI transformation in QA!*".

Definition conclusion_slide_1 (title : string) : string :=
  "# 📚 "
  ++ title
  ++ "
            
## Further Resources

### 📖 Essential Reading:
- **"
  ++ dq
  ++ "AI-Powered Testing"
  ++ dq
  ++ "** by Tariq King
- **"
  ++ dq
  ++ "The Art of Prompt Engineering"
  ++ dq
  ++ "** by Various Authors
- **"
  ++ dq
  ++ "Quality Assurance in the AI Era"
  ++ dq
  ++ "** by Industry Experts
- **"
  ++ dq
  ++ "Automation Testing with AI"
  ++ dq
  ++ "** by Practical Guides

### 🌐 Online Resources:
- **AI Testing Handbook** - Comprehensive guide
- **OpenAI Documentation** - API references and examples
- **Gradio Documentation** - Interface development
- **Langchain Tutorials** - AI application building

### 🎥 Video Content:
- **YouTube Channels**: AI testing specialists
- **Webinar Series**: Industry expert sessions
- **Conference Talks**: Latest trends and techniques
- **Tutorial Playlists**: Step-by-step implementations

### 🔧 Tools & Platforms:
- **GitHub Repositories**: Open-source projects
- **Hugging Face Hub**: Pre-trained models
- **Kaggle Datasets**: Training data for AI models
- **Google Colab**: Free computing resources

### 📧 Newsletters & Updates:
- **AI Testing Weekly** - Latest news and trends
- **QA Innovation** - Industry developments
- **Tech Updates** - Tool and platform updates
- **Community Digest** - Peer insights and discussions

*Stay connected with the rapidly evolving AI-QA landscape!*".

Definition conclusion_slide_2 (title : string) : string :=
  "# 🤝 "
  ++ title
  ++ "
            
## Community and Support

### 🌐 Online Communities:
- **AI-QA Professionals Group** - LinkedIn community
- **Reddit r/QualityAssurance** - Peer discussions
- **Stack Overflow** - Technical Q&A
- **Discord Servers** - Real-time chat support

### 📱 Social Media:
- **Twitter/X**: Follow AI-QA thought leaders
- **LinkedIn**: Professional networking
- **YouTube**: Educational content creators
- **Medium**: Technical articles and insights

### 🏢 Professional Organizations:
- **Association for Software Testing (AST)**
- **International Software Testing Qualifications Board (ISTQB)**
- **AI Testing Institute** - Specialized certification
- **Local QA Meetups** - In-person networking

### 🎓 Mentorship Opportunities:
- **Industry Mentors** - Experienced professionals
- **Peer Mentoring** - Learning together
- **Reverse Mentoring** - Sharing AI knowledge
- **Community Leaders** - Guidance and support

### 📞 Direct Support:
- **Office Hours** - Weekly Q&A sessions
- **Email Support** - Technical assistance
- **Discussion Forums** - Community help
- **Private Consulting** - Personalized guidance

### 🎯 Contributing Back:
- **Open Source Projects** - Code contributions
- **Knowledge Sharing** - Blog posts and tutorials
- **Community Moderation** - Supporting others
- **Conference Speaking** - Sharing experiences

*Together, we're building the future of AI-enhanced QA!*".

Definition conclusion_slide_3 (title : string) : string :=
  "# 🎓 "
  ++ title
  ++ "
            
## Certification Path

### 🏆 Available Certifications:

#### 📋 Foundation Level:
- **AI-QA Fundamentals** - Basic concepts and applications
- **Prompt Engineering for QA** - Effective AI communication
- **Duration**: 4-6 weeks
- **Prerequisites**: Basic QA knowledge

#### 🔧 Practitioner Level:
- **AI Test Automation Specialist** - Advanced automation
- **QA AI Integration Expert** - Workflow optimization
- **Duration**: 8-12 weeks
- **Prerequisites**: Foundation certification

#### 🚀 Expert Level:
- **AI-QA Solution Architect** - Enterprise-level design
- **Innovation Leader** - Driving AI transformation
- **Duration**: 12-16 weeks
- **Prerequisites**: Practitioner certification

### 📊 Assessment Format:
- **Practical Projects** (60%) - Real-world implementations
- **Written Examination** (25%) - Theoretical knowledge
- **Peer Review** (15%) - Community evaluation

### 🎯 Industry Recognition:
- **Employer Validation** - Recognized by top companies
- **Career Advancement** - Promotion opportunities
- **Salary Impact** - 15-30% increase potential
- **Global Acceptance** - International recognition

### 🔄 Continuous Certification:
- **Annual Renewal** - Stay current with trends
- **Continuing Education** - Ongoing learning requirements
- **Professional Development** - Skill maintenance
- **Community Contribution** - Give back to the field

*Your certification journey starts here!*".

(** [content.get(index, default)] *)
Fixpoint content_get (content : list (Z * string)) (index : Z) (default : string) : string :=
  match content with
  | [] => default
  | (k, v) :: rest => if Z.eqb k index then v else content_get rest index default
  end.

Definition coming_soon (title : string) : string :=
  "# " ++ title ++ nl ++ nl ++ "Content coming soon...".

(** ** PresentationGenerator *)

Record PresentationGenerator : Type := {
  self_config : Config;
  templates : list (string * list string)
}.

(** [PresentationGenerator.__init__] *)
Definition new_PresentationGenerator (config : Config) : PresentationGenerator :=
  {| self_config := config; templates := presentation_templates config |}.

Section Generator.

Variable rt : runtime.

(** The module-level global [config]; the assessment slide reads it rather
    than [self.config]. *)
Variable config : Config.

Definition generate_introduction_slide (title : string) (index : Z) : string :=
  content_get
    [ (0%Z, introduction_slide_0 title);
      (1%Z, introduction_slide_1 title);
      (2%Z, introduction_slide_2 title);
      (3%Z, introduction_slide_3 title) ]
    index (coming_soon title).

(** [not module_data] holds for [None] and for the empty dictionary. *)
Definition module_data_missing (module_data : option pydict) : bool :=
  match module_data with
  | None => true
  | Some d => negb (truthy (PyDict d))
  end.

Definition topic_bullet (topic : pyval) : string :=
  "- **" ++ py_str rt topic ++ "**".

(** The percentage [config['assessment_criteria'][difficulty][field]]. *)
Definition criterion (difficulty field : string) : result pyval :=
  match assoc difficulty (assessment_criteria config) with
  | None => Raise (KeyError difficulty)
  | Some weights =>
      match assoc field weights with
      | None => Raise (KeyError field)
      | Some v => Ok v
      end
  end.

(** The [content] dictionary is built in full before [index] selects an
    entry, so every field of every entry is evaluated, in order, whatever
    [index] is.  Once [.title()] has succeeded the difficulty is a string,
    which is then the key into the assessment criteria. *)
Definition generate_module_overview_slide
    (title : string) (index : Z) (module_data : option pydict) : result string :=
  if module_data_missing module_data then
    Ok ("# " ++ title ++ nl ++ nl ++ "Module data not available")
  else
    let md := match module_data with Some d => d | None => [] end in
    let m_title := py_str rt (dict_get_default md "title" (PyStr "Module")) in
    let m_description :=
      py_str rt (dict_get_default md "description" (PyStr "No description available")) in
    m_difficulty <- py_title rt (dict_get_default md "difficulty" (PyStr "Not specified")) ;;
    let m_hands_on :=
      if truthy (dict_get_default md "hands_on" (PyBool false))
      then "✅ Yes" else "❌ No" in
    topics <- py_iter (dict_get_default md "topics" (PyList [])) ;;
    let topics_block := str_join nl (map topic_bullet topics) in
    let difficulty := dict_get_default md "difficulty" (PyStr "intermediate") in
    level <- py_title rt difficulty ;;
    let key := match difficulty with PyStr s => s | _ => EmptyString end in
    understanding <- criterion key "understanding" ;;
    application <- criterion key "application" ;;
    problem_solving <- criterion key "problem_solving" ;;
    Ok (content_get
          [ (0%Z, module_overview_slide_0 title m_title m_description m_difficulty m_hands_on);
            (1%Z, module_overview_slide_1 title);
            (2%Z, module_overview_slide_2 title topics_block);
            (3%Z, module_overview_slide_3 title);
            (4%Z, module_overview_slide_4 title level
                    (py_str rt understanding) (py_str rt application)
                    (py_str rt problem_solving)) ]
          index (coming_soon title)).

Definition generate_hands_on_slide
    (title : string) (index : Z) (module_data : option pydict) : string :=
  content_get
    [ (0%Z, hands_on_slide_0 title);
      (1%Z, hands_on_slide_1 title);
      (2%Z, hands_on_slide_2 title);
      (3%Z, hands_on_slide_3 title);
      (4%Z, hands_on_slide_4 title) ]
    index (coming_soon title).

Definition generate_conclusion_slide (title : string) (index : Z) : string :=
  content_get
    [ (0%Z, conclusion_slide_0 title);
      (1%Z, conclusion_slide_1 title);
      (2%Z, conclusion_slide_2 title);
      (3%Z, conclusion_slide_3 title) ]
    index (coming_soon title).

Definition generate_slide (self : PresentationGenerator)
    (template_type : string) (slide_index : Z) (module_data : option pydict)
    : result string :=
  match assoc template_type (templates self) with
  | None => Ok "Template not found"
  | Some slides =>
      if (slide_index >=? Z.of_nat (length slides))%Z then Ok "Slide not found"
      else
        slide_title <- list_index slides slide_index ;;
        if String.eqb template_type "introduction" then
          Ok (generate_introduction_slide slide_title slide_index)
        else if String.eqb template_type "module_overview" then
          generate_module_overview_slide slide_title slide_index module_data
        else if String.eqb template_type "hands_on_session" then
          Ok (generate_hands_on_slide slide_title slide_index module_data)
        else if String.eqb template_type "conclusion" then
          Ok (generate_conclusion_slide slide_title slide_index)
        else
          Ok ("# " ++ slide_title ++ nl ++ nl
              ++ "Content for this slide type is being developed...")
  end.

(** [presentation_gen = PresentationGenerator(config)] *)
Definition presentation_gen : PresentationGenerator :=
  new_PresentationGenerator config.

(** [config['modules'].get(module_id, {}) if module_id else None] *)
Definition select_module_data (module_id : option string) : option pydict :=
  match module_id with
  | None => None
  | Some id =>
      if truthy (PyStr id) then
        Some (match assoc id (modules config) with Some m => m | None => [] end)
      else None
  end.

Definition generate_presentation_slide
    (module_id : option string) (template_type : string) (slide_index : Z)
    : result string :=
  generate_slide presentation_gen template_type slide_index
    (select_module_data module_id).

End Generator.

(** ** The progress store *)

(** The file [user_progress.json] as the program can observe it: its text
    when it exists, and whether [open] succeeds for reading and for
    writing. *)
Record file_state : Type := {
  contents : option string;
  readable : bool;
  writable : bool
}.

(** [open('user_progress.json', 'r')] followed by reading the text. *)
Definition open_read (f : file_state) : result string :=
  match contents f with
  | Some text => if readable f then Ok text else Raise OSError
  | None => Raise OSError
  end.

(** [open('user_progress.json', 'w')] followed by writing [text]. *)
Definition open_write (f : file_state) (text : string) : file_state * result unit :=
  if writable f then
    ({| contents := Some text; readable := readable f; writable := writable f |}, Ok tt)
  else (f, Raise OSError).

Definition default_progress : pyval :=
  PyDict
    [ ("current_module", PyNone);
      ("completed_modules", PyList []);
      ("current_progress", PyInt 0);
      ("skills_acquired", PyList []);
      ("assessments_completed", PyList []);
      ("hands_on_projects", PyList []);
      ("learning_path", PyStr "custom");
      ("preferences",
        PyDict
          [ ("difficulty_level", PyStr "intermediate");
            ("focus_areas", PyList []);
            ("hands_on_preference", PyBool true) ]);
      ("session_history", PyList []);
      ("bookmarks", PyList []);
      ("notes", PyDict []) ].

(** The two pieces of state [update_user_progress] works on: the global
    [user_progress] and the file. *)
Record world : Type := {
  user_progress : pyval;
  disk : file_state
}.

(** A computation that may mutate the world and may raise; what was mutated
    before an exception stays mutated. *)
Definition M (A : Type) : Type := world -> world * result A.

Definition ret {A : Type} (a : A) : M A := fun w => (w, Ok a).

Definition raise {A : Type} (e : exn) : M A := fun w => (w, Raise e).

Definition lift {A : Type} (r : result A) : M A := fun w => (w, r).

Definition bindM {A B : Type} (c : M A) (k : A -> M B) : M B :=
  fun w =>
    match c w with
    | (w', Ok a) => k a w'
    | (w', Raise e) => (w', Raise e)
    end.

Notation "x <~ c ;; k" := (bindM c (fun x => k))
  (at level 61, c at next level, right associativity).

(** [user_progress[key]] *)
Definition progress_get (key : string) : M pyval :=
  fun w =>
    match user_progress w with
    | PyDict d =>
        match assoc key d with
        | Some v => (w, Ok v)
        | None => (w, Raise (KeyError key))
        end
    | _ => (w, Raise TypeError)
    end.

(** [user_progress[key] = v] *)
Definition progress_set (key : string) (v : pyval) : M unit :=
  fun w =>
    match user_progress w with
    | PyDict d =>
        ({| user_progress := PyDict (dict_set key v d); disk := disk w |}, Ok tt)
    | _ => (w, Raise TypeError)
    end.

(** [user_progress[key].append(x)]: the list is mutated in place, which in
    this model replaces the binding of [key]. *)
Definition progress_append (key : string) (x : pyval) : M unit :=
  l <~ progress_get key ;;
  match l with
  | PyList items => progress_set key (PyList (items ++ [x]))
  | _ => raise AttributeError
  end.

(** [x not in user_progress[key]] *)
Definition progress_lacks (key : string) (x : pyval) : M bool :=
  l <~ progress_get key ;;
  b <~ lift (py_contains l x) ;;
  ret (negb b).

(** The value of a module id from the selector: a string or [None]. *)
Definition py_of_id (module_id : option string) : pyval :=
  match module_id with
  | Some id => PyStr id
  | None => PyNone
  end.

(** [config['modules'].get(module_id, {})] *)
Definition module_of (config : Config) (module_id : option string) : pydict :=
  match module_id with
  | Some id => match assoc id (modules config) with Some m => m | None => [] end
  | None => []
  end.

(** The [for topic in ...] loop of [update_user_progress]. *)
Fixpoint add_skills (topics : list pyval) : M unit :=
  match topics with
  | [] => ret tt
  | topic :: rest =>
      fresh <~ progress_lacks "skills_acquired" topic ;;
      _ <~ (if fresh then progress_append "skills_acquired" topic else ret tt) ;;
      add_skills rest
  end.

Definition history_entry (now : string) (module_id : option string) (action : string)
    : pyval :=
  PyDict
    [ ("timestamp", PyStr now);
      ("module", py_of_id module_id);
      ("action", PyStr action) ].

Section Store.

Variable rt : runtime.
Variable config : Config.

Definition load_user_progress (f : file_state) : pyval :=
  match open_read f with
  | Ok text =>
      match json_loads rt text with
      | Some v => v
      | None => default_progress
      end
  | Raise _ => default_progress
  end.

Definition save_user_progress (progress_data : pyval) (f : file_state)
    : file_state * result unit :=
  open_write f (json_dumps rt progress_data).

(** [save_user_progress(user_progress)] inside [update_user_progress]. *)
Definition persist : M unit :=
  fun w =>
    let (f, r) := save_user_progress (user_progress w) (disk w) in
    ({| user_progress := user_progress w; disk := f |}, r).

(** [len(user_progress['completed_modules']) / len(config['modules']) * 100] *)
Definition progress_percentage : M pyval :=
  completed <~ progress_get "completed_modules" ;;
  n <~ lift (py_len completed) ;;
  q <~ lift (py_truediv n (Z.of_nat (length (modules config)))) ;;
  ret (PyFloat (PrimFloat.mul q (float_of_Z 100))).

Definition complete_module (module_id : option string) : M unit :=
  fresh <~ progress_lacks "completed_modules" (py_of_id module_id) ;;
  if fresh then
    _ <~ progress_append "completed_modules" (py_of_id module_id) ;;
    p <~ progress_percentage ;;
    _ <~ progress_set "current_progress" p ;;
    topics <~ lift (py_iter (dict_get_default (module_of config module_id)
                               "topics" (PyList []))) ;;
    add_skills topics
  else ret tt.

(** [now] is [datetime.now().isoformat()] as read during the call. *)
Definition update_user_progress
    (now : string) (module_id : option string) (action : string) : M string :=
  _ <~ (if String.eqb action "complete" then complete_module module_id
        else if String.eqb action "start" then
          progress_set "current_module" (py_of_id module_id)
        else ret tt) ;;
  _ <~ progress_append "session_history" (history_entry now module_id action) ;;
  _ <~ persist ;;
  ret ("Progress updated: " ++ action ++ " for module "
       ++ py_str rt (py_of_id module_id)).

End Store.

(** ** Vocabulary for the store's properties *)

(** [v[key]] when [v] is a dictionary that has the key. *)
Definition py_field (key : string) (v : pyval) : option pyval :=
  match v with
  | PyDict d => assoc key d
  | _ => None
  end.

Definition field_of (key : string) (w : world) : option pyval :=
  py_field key (user_progress w).

(** The world whose progress is the dictionary [d]. *)
Definition mk (d : pydict) (f : file_state) : world :=
  {| user_progress := PyDict d; disk := f |}.

(** A computation that leaves [user_progress[key]] as it was, also when it
    raises. *)
Definition preserves {A : Type} (key : string) (c : M A) : Prop :=
  forall w, field_of key (fst (c w)) = field_of key w.

(** [x in l] and the number of items of [l] equal to [x]. *)
Definition occurs (x : pyval) (l : list pyval) : bool :=
  existsb (fun e => py_eqb e x) l.

Definition count_eq (x : pyval) (l : list pyval) : nat :=
  length (filter (fun e => py_eqb e x) l).

(** The skills after the loop over [topics]: a topic is appended unless an
    equal item is already there. *)
Fixpoint merge_skills (skills topics : list pyval) : list pyval :=
  match topics with
  | [] => skills
  | topic :: rest =>
      merge_skills (if occurs topic skills then skills else skills ++ [topic]) rest
  end.

(** Each item of [added] differs from all of [skills] and from the items of
    [added] before it. *)
Fixpoint all_fresh (skills added : list pyval) : bool :=
  match added with
  | [] => true
  | x :: rest => negb (occurs x skills) && all_fresh (skills ++ [x]) rest
  end.

Definition is_list (v : option pyval) : bool :=
  match v with
  | Some (PyList _) => true
  | _ => false
  end.

(** The shape [update_user_progress] relies on: a dictionary whose
    [completed_modules], [skills_acquired] and [session_history] are lists. *)
Definition well_formed_progress (v : pyval) : bool :=
  is_list (py_field "completed_modules" v)
  && is_list (py_field "skills_acquired" v)
  && is_list (py_field "session_history" v).

(** The topics of a module can be looped over. *)
Definition topics_iterable (m : pydict) : bool :=
  match py_iter (dict_get_default m "topics" (PyList [])) with
  | Ok _ => true
  | Raise _ => false
  end.

(** [len(completed) / len(config['modules']) * 100] for [n] completed modules. *)
Definition percentage (config : Config) (n : nat) : float :=
  PrimFloat.mul
    (PrimFloat.div (float_of_Z (Z.of_nat n))
                   (float_of_Z (Z.of_nat (length (modules config)))))
    (float_of_Z 100).

(** The dictionary after the first completion of a module [x]: the id is
    appended, the percentage recomputed, the topics merged. *)
Definition after_completion
    (config : Config) (x : pyval) (completed skills topics : list pyval) (d : pydict)
    : pydict :=
  dict_set "skills_acquired" (PyList (merge_skills skills topics))
    (dict_set "current_progress" (PyFloat (percentage config (S (length completed))))
       (dict_set "completed_modules" (PyList (completed ++ [x])) d)).

(** The dictionary and the file after the history entry is appended and the
    document written. *)
Definition with_entry (entry : pyval) (history : list pyval) (d : pydict) : pydict :=
  dict_set "session_history" (PyList (history ++ [entry])) d.

Definition written (f : file_state) (text : string) : file_state :=
  {| contents := Some text; readable := readable f; writable := writable f |}.

Definition confirmation (rt : runtime) (module_id : option string) (action : string)
    : string :=
  "Progress updated: " ++ action ++ " for module " ++ py_str rt (py_of_id module_id).

(** ** Text

    A Python [str] is a sequence of code points; here it is the UTF-8 form
    of that sequence.  [utf8_encode] is the UTF-8 form of one code point,
    [code_point] reads it back from the bytes of one character, and a string
    is text when each of its characters is the UTF-8 form of a Unicode
    scalar value. *)

Definition utf8_encode (c : N) : string :=
  if (c <? 128)%N then String (ascii_of_N c) EmptyString
  else if (c <? 2048)%N then
    String (ascii_of_N (192 + c / 64))
      (String (ascii_of_N (128 + c mod 64)) EmptyString)
  else if (c <? 65536)%N then
    String (ascii_of_N (224 + c / 4096))
      (String (ascii_of_N (128 + (c / 64) mod 64))
         (String (ascii_of_N (128 + c mod 64)) EmptyString))
  else
    String (ascii_of_N (240 + c / 262144))
      (String (ascii_of_N (128 + (c / 4096) mod 64))
         (String (ascii_of_N (128 + (c / 64) mod 64))
            (String (ascii_of_N (128 + c mod 64)) EmptyString))).

Definition code_point (char : string) : N :=
  match char with
  | String a EmptyString => N_of_ascii a
  | String a (String b EmptyString) =>
      (N_of_ascii a - 192) * 64 + (N_of_ascii b - 128)
  | String a (String b (String c EmptyString)) =>
      (N_of_ascii a - 224) * 4096 + (N_of_ascii b - 128) * 64 + (N_of_ascii c - 128)
  | String a (String b (String c (String d _))) =>
      (N_of_ascii a - 240) * 262144 + (N_of_ascii b - 128) * 4096
      + (N_of_ascii c - 128) * 64 + (N_of_ascii d - 128)
  | EmptyString => 0
  end%N.

Definition is_surrogate (c : N) : bool := ((55296 <=? c) && (c <? 57344))%N.

Definition is_scalar_value (c : N) : bool := (c <? 1114112)%N && negb (is_surrogate c).

Definition is_character (char : string) : bool :=
  String.eqb (utf8_encode (code_point char)) char
  && is_scalar_value (code_point char).

Definition is_text (s : string) : bool := forallb is_character (utf8_chars s).

(** ** A small executable runtime

    An instance of [runtime] on which the model runs on concrete inputs:
    title-casing of ASCII letters, and the [json] codec as the program uses
    it: [json.dump(..., indent=2)] with its defaults (non-ASCII characters
    escaped, floats written by [float.__repr__]) and [json.load] with its
    defaults (numbers with a fraction or an exponent read as the nearest
    float, a repeated key keeping its last value).  Containers and floats
    are formatted into slides as their JSON text. *)

Module Reference.

Definition is_upper (c : ascii) : bool :=
  let n := nat_of_ascii c in (65 <=? n)%nat && (n <=? 90)%nat.

Definition is_lower (c : ascii) : bool :=
  let n := nat_of_ascii c in (97 <=? n)%nat && (n <=? 122)%nat.

Definition to_upper (c : ascii) : ascii :=
  if is_lower c then ascii_of_nat (nat_of_ascii c - 32) else c.

Definition to_lower (c : ascii) : ascii :=
  if is_upper c then ascii_of_nat (nat_of_ascii c + 32) else c.

Fixpoint title_from (previous_is_cased : bool) (s : string) : string :=
  match s with
  | EmptyString => EmptyString
  | String c rest =>
      String (if previous_is_cased then to_lower c else to_upper c)
             (title_from (is_upper c || is_lower c) rest)
  end.

Definition title (s : string) : string := title_from false s.

Fixpoint spaces (n : nat) : string :=
  match n with
  | O => EmptyString
  | S k => String " " (spaces k)
  end.

(** *** Strings *)

Definition hex_digit (n : N) : ascii :=
  if (n <? 10)%N then ascii_of_N (48 + n) else ascii_of_N (87 + n).

Definition hex4 (n : N) : string :=
  String (hex_digit (n / 4096))
    (String (hex_digit ((n / 256) mod 16))
       (String (hex_digit ((n / 16) mod 16))
          (String (hex_digit (n mod 16)) EmptyString))).

Definition unicode_escape (c : N) : string :=
  if (c <? 65536)%N then "\u" ++ hex4 c
  else
    "\u" ++ hex4 (55296 + (c - 65536) / 1024)
    ++ "\u" ++ hex4 (56320 + (c - 65536) mod 1024).

(** One code point inside a string literal, as [ensure_ascii] writes it. *)
Definition escape_char (c : N) : string :=
  if (c =? 34)%N then "\" ++ dq
  else if (c =? 92)%N then "\\"
  else if (c =? 10)%N then "\n"
  else if (c =? 13)%N then "\r"
  else if (c =? 9)%N then "\t"
  else if (c =? 8)%N then "\b"
  else if (c =? 12)%N then "\f"
  else if ((32 <=? c) && (c <=? 126))%N then String (ascii_of_N c) EmptyString
  else unicode_escape c.

Definition escape (s : string) : string :=
  fold_right (fun char rest => escape_char (code_point char) ++ rest)
    EmptyString (utf8_chars s).

Definition hex_value (c : ascii) : option N :=
  let n := N_of_ascii c in
  if ((48 <=? n) && (n <=? 57))%N then Some (n - 48)%N
  else if ((97 <=? n) && (n <=? 102))%N then Some (n - 87)%N
  else if ((65 <=? n) && (n <=? 70))%N then Some (n - 55)%N
  else None.

Definition hex4_value (a b c d : ascii) : option N :=
  match hex_value a, hex_value b, hex_value c, hex_value d with
  | Some x, Some y, Some z, Some w => Some (x * 4096 + y * 256 + z * 16 + w)%N
  | _, _, _, _ => None
  end.

Definition is_high_surrogate (n : N) : bool := ((55296 <=? n) && (n <? 56320))%N.

Definition is_low_surrogate (n : N) : bool := ((56320 <=? n) && (n <? 57344))%N.

(** The character a one-letter escape stands for. *)
Definition simple_escape (e : ascii) : option ascii :=
  if Ascii.eqb e (ascii_of_nat 34) then Some (ascii_of_nat 34)
  else if Ascii.eqb e "\" then Some "\"%char
  else if Ascii.eqb e "/" then Some "/"%char
  else if Ascii.eqb e "b" then Some (ascii_of_nat 8)
  else if Ascii.eqb e "f" then Some (ascii_of_nat 12)
  else if Ascii.eqb e "n" then Some (ascii_of_nat 10)
  else if Ascii.eqb e "r" then Some (ascii_of_nat 13)
  else if Ascii.eqb e "t" then Some (ascii_of_nat 9)
  else None.

Definition prepend (head : string) (parsed : option (string * string))
  : option (string * string) :=
  match parsed with
  | Some (t, r) => Some (head ++ t, r)
  | None => None
  end.

(** The characters of a string literal after its opening quote, and what
    follows the closing quote. *)
Fixpoint read_string (s : string) : option (string * string) :=
  match s with
  | EmptyString => None
  | String c rest =>
      if Ascii.eqb c (ascii_of_nat 34) then Some (EmptyString, rest)
      else if Ascii.eqb c "\" then
        match rest with
        | String e rest' =>
            match simple_escape e with
            | Some plain => prepend (String plain EmptyString) (read_string rest')
            | None =>
                if Ascii.eqb e "u" then
                  match rest' with
                  | String h1 (String h2 (String h3 (String h4 after))) =>
                      match hex4_value h1 h2 h3 h4 with
                      | Some n =>
                          let single := prepend (utf8_encode n) (read_string after) in
                          if is_high_surrogate n then
                            match after with
                            | String b (String u (String l1 (String l2 (String l3
                                (String l4 after_pair))))) =>
                                if Ascii.eqb b "\" && Ascii.eqb u "u" then
                                  match hex4_value l1 l2 l3 l4 with
                                  | Some low =>
                                      if is_low_surrogate low then
                                        prepend
                                          (utf8_encode
                                             (65536 + (n - 55296) * 1024 + (low - 56320)))
                                          (read_string after_pair)
                                      else single
                                  | None => None
                                  end
                                else single
                            | _ => single
                            end
                          else single
                      | None => None
                      end
                  | _ => None
                  end
                else None
            end
        | EmptyString => None
        end
      else if (nat_of_ascii c <? 32)%nat then None
      else prepend (String c EmptyString) (read_string rest)
  end.

(** *** Numbers *)

Definition round_to_even (q r d : Z) : Z :=
  match (2 * r ?= d)%Z with
  | Lt => q
  | Gt => (q + 1)%Z
  | Eq => if Z.even q then q else (q + 1)%Z
  end.

(** The binary64 number nearest to [N / D], ties to the even significand:
    with [2^t <= N / D < 2^(t+1)] the exponent is [fexp (t + 1)], the
    significand is the quotient at that exponent rounded to an integer, a
    significand that rounds up to [2^prec] moves to the next exponent, and a
    value beyond the largest finite number is an infinity. *)
Definition binary64_of_ratio (sign : bool) (N D : Z) : spec_float :=
  if (N <=? 0)%Z then S754_zero sign
  else
    let K := (Z.log2 D + 1)%Z in
    let t := (Z.log2 (N * 2 ^ K / D) - K)%Z in
    let e := fexp prec emax (t + 1) in
    let num := (N * 2 ^ Z.max (- e) 0)%Z in
    let den := (D * 2 ^ Z.max e 0)%Z in
    let m := round_to_even (num / den) (num mod den) den in
    let carried := (m =? 2 ^ prec)%Z in
    let m' := if carried then (2 ^ (prec - 1))%Z else m in
    let e' := if carried then (e + 1)%Z else e in
    if (m' =? 0)%Z then S754_zero sign
    else if (emax - prec <? e')%Z then S754_infinity sign
    else S754_finite sign (Z.to_pos m') e'.

(** [float(text)] for the decimal [digits * 10^exponent]. *)
Definition float_of_decimal (sign : bool) (digits exponent : Z) : float :=
  SF2Prim
    (if (0 <=? exponent)%Z
     then binary64_of_ratio sign (digits * 10 ^ exponent) 1
     else binary64_of_ratio sign digits (10 ^ (- exponent))).

Definition is_digit (c : ascii) : bool :=
  let n := nat_of_ascii c in (48 <=? n)%nat && (n <=? 57)%nat.

(** The digits at the head of [s], their value after [acc], and how many. *)
Fixpoint read_digits (s : string) (acc : Z) (count : nat) : Z * nat * string :=
  match s with
  | String c rest =>
      if is_digit c
      then read_digits rest (10 * acc + Z.of_nat (nat_of_ascii c - 48))%Z (S count)
      else (acc, count, s)
  | EmptyString => (acc, count, s)
  end.

(** The integer part: a single 0, or digits that do not start with 0. *)
Definition read_integer (s : string) : option (Z * string) :=
  match s with
  | String c rest =>
      if Ascii.eqb c "0" then Some (0%Z, rest)
      else if is_digit c then
        match read_digits s 0%Z 0 with
        | (whole, _, rest') => Some (whole, rest')
        end
      else None
  | EmptyString => None
  end.

(** A point and at least one digit, read on after the integer part. *)
Definition read_fraction (s : string) (whole : Z) : option (Z * nat * string) :=
  match s with
  | String c rest =>
      if Ascii.eqb c "." then
        match read_digits rest whole 0 with
        | (_, O, _) => None
        | found => Some found
        end
      else None
  | EmptyString => None
  end.

(** [e] or [E], an optional sign, and at least one digit. *)
Definition read_exponent (s : string) : option (Z * string) :=
  match s with
  | String c rest =>
      if Ascii.eqb c "e" || Ascii.eqb c "E" then
        let signed :=
          match rest with
          | String d body =>
              if Ascii.eqb d "-" then (true, body)
              else if Ascii.eqb d "+" then (false, body)
              else (false, rest)
          | EmptyString => (false, rest)
          end in
        match read_digits (snd signed) 0%Z 0 with
        | (_, O, _) => None
        | (value, _, rest') => Some (if fst signed then (- value)%Z else value, rest')
        end
      else None
  | EmptyString => None
  end.

(** A number at the head of [s]: an [int] when it has neither fraction nor
    exponent, a [float] otherwise. *)
Definition read_number (s : string) : option (pyval * string) :=
  let signed :=
    match s with
    | String c rest => if Ascii.eqb c "-" then (true, rest) else (false, s)
    | EmptyString => (false, s)
    end in
  let negative := fst signed in
  match read_integer (snd signed) with
  | None => None
  | Some (whole, after_whole) =>
      match read_fraction after_whole whole with
      | Some (digits, places, after_fraction) =>
          match read_exponent after_fraction with
          | Some (exponent, rest) =>
              Some (PyFloat (float_of_decimal negative digits
                               (exponent - Z.of_nat places)), rest)
          | None =>
              Some (PyFloat (float_of_decimal negative digits (- Z.of_nat places)),
                    after_fraction)
          end
      | None =>
          match read_exponent after_whole with
          | Some (exponent, rest) =>
              Some (PyFloat (float_of_decimal negative whole exponent), rest)
          | None => Some (PyInt (if negative then (- whole)%Z else whole), after_whole)
          end
      end
  end.

Fixpoint zeros (n : nat) : string :=
  match n with
  | O => EmptyString
  | S k => String "0" (zeros k)
  end.

(** [s] without the zeros at its end. *)
Fixpoint strip_zeros (s : string) : string :=
  match s with
  | EmptyString => EmptyString
  | String c rest =>
      match strip_zeros rest with
      | EmptyString => if Ascii.eqb c "0" then EmptyString else String c EmptyString
      | kept => String c kept
      end
  end.

(** The layout of [float.__repr__] for the significant digits [digits] and
    the position [point] of the decimal point after the first of them:
    positional for [-4 < point <= 16], with an exponent otherwise. *)
Definition repr_layout (digits : string) (point : Z) : string :=
  let n := Z.of_nat (String.length digits) in
  if ((-4 <? point) && (point <=? 16))%Z then
    if (point <=? 0)%Z then "0." ++ zeros (Z.to_nat (- point)) ++ digits
    else if (n <=? point)%Z then digits ++ zeros (Z.to_nat (point - n)) ++ ".0"
    else
      substring 0 (Z.to_nat point) digits ++ "."
      ++ substring (Z.to_nat point) (String.length digits - Z.to_nat point) digits
  else
    let exponent := (point - 1)%Z in
    let mantissa :=
      match digits with
      | String c (String d more) => String c (String "." (String d more))
      | _ => digits
      end in
    mantissa ++ "e" ++ (if (exponent <? 0)%Z then "-" else "+")
    ++ (if (Z.abs exponent <? 10)%Z then "0" else "") ++ string_of_Z (Z.abs exponent).

(** [floor (m * 2^e * 10^j)] *)
Definition scaled_floor (m e j : Z) : Z :=
  ((m * 2 ^ Z.max e 0 * 10 ^ Z.max j 0)
   / (2 ^ Z.max (- e) 0 * 10 ^ Z.max (- j) 0))%Z.

(** The position of the decimal point of [m * 2^e]:
    [10^(point-1) <= m * 2^e < 10^point]. *)
Definition decimal_point (m e : Z) : Z :=
  (Z.of_nat (String.length (string_of_Z (scaled_floor m e 400))) - 400)%Z.

(** The text of the decimal [c * 10^j]. *)
Definition decimal_text (sign : string) (c j : Z) : string :=
  let digits := string_of_Z c in
  sign ++ repr_layout (strip_zeros digits) (Z.of_nat (String.length digits) + j).

Definition reads_as (x : float) (text : string) : bool :=
  match read_number text with
  | Some (PyFloat y, EmptyString) => PrimFloat.Leibniz.eqb y x
  | _ => false
  end.

(** Is [m * 2^e] nearer to [low * 10^j] than to [(low + 1) * 10^j]?  On a
    tie the even one is the nearer. *)
Definition nearer_low (m e low j : Z) : bool :=
  match (2 * m * 2 ^ Z.max e 0 * 10 ^ Z.max (- j) 0
         ?= (2 * low + 1) * 10 ^ Z.max j 0 * 2 ^ Z.max (- e) 0)%Z with
  | Lt => true
  | Gt => false
  | Eq => Z.even low
  end.

(** The shortest decimal that reads back as [x = sign m * 2^e], trying
    [n], [n + 1], ... significant digits: at each length the two decimals
    around [x], and of two that read back the nearer one. *)
Fixpoint shortest (lengths : nat) (n : Z) (x : float) (sign : string) (m e point : Z)
  : option string :=
  match lengths with
  | O => None
  | S more =>
      let j := (point - n)%Z in
      let low := scaled_floor m e (- j) in
      let low_text := decimal_text sign low j in
      let high_text := decimal_text sign (low + 1) j in
      match reads_as x low_text, reads_as x high_text with
      | true, true => Some (if nearer_low m e low j then low_text else high_text)
      | true, false => Some low_text
      | false, true => Some high_text
      | false, false => shortest more (n + 1)%Z x sign m e point
      end
  end.

(** The exact value [m * 2^e] as an integer and a power of ten. *)
Definition exact_text (sign : string) (m e : Z) : string :=
  sign ++ string_of_Z (m * 2 ^ Z.max e 0 * 5 ^ Z.max (- e) 0)
  ++ "e-" ++ string_of_Z (Z.max (- e) 0).

(** [float.__repr__]: the shortest decimal that reads back as the float.
    Seventeen significant digits always suffice for a binary64 number; the
    exact value is what is written should they not. *)
Definition float_text (f : float) : string :=
  match Prim2SF f with
  | S754_zero s => if s then "-0.0" else "0.0"
  | S754_infinity s => if s then "-Infinity" else "Infinity"
  | S754_nan => "NaN"
  | S754_finite s m e =>
      let sign := if s then "-" else "" in
      match shortest 17 1 f sign (Z.pos m) e (decimal_point (Z.pos m) e) with
      | Some text => text
      | None => exact_text sign (Z.pos m) e
      end
  end.

(** *** Documents *)

Fixpoint dumps_at (level : nat) (v : pyval) {struct v} : string :=
  match v with
  | PyNone => "null"
  | PyBool true => "true"
  | PyBool false => "false"
  | PyInt z => string_of_Z z
  | PyFloat f => float_text f
  | PyStr s => dq ++ escape s ++ dq
  | PyList [] => "[]"
  | PyList l =>
      "[" ++ nl ++ spaces (2 * S level)
      ++ str_join ("," ++ nl ++ spaces (2 * S level)) (map (dumps_at (S level)) l)
      ++ nl ++ spaces (2 * level) ++ "]"
  | PyDict [] => "{}"
  | PyDict d =>
      "{" ++ nl ++ spaces (2 * S level)
      ++ str_join ("," ++ nl ++ spaces (2 * S level))
           (map (fun kv : string * pyval =>
                   let (k, x) := kv in
                   dq ++ escape k ++ dq ++ ": " ++ dumps_at (S level) x) d)
      ++ nl ++ spaces (2 * level) ++ "}"
  end.

Definition dumps (v : pyval) : string := dumps_at 0 v.

Definition is_space (c : ascii) : bool :=
  let n := nat_of_ascii c in
  Nat.eqb n 32 || Nat.eqb n 10 || Nat.eqb n 13 || Nat.eqb n 9.

Fixpoint skip_ws (s : string) : string :=
  match s with
  | String c rest => if is_space c then skip_ws rest else s
  | EmptyString => s
  end.

(** [s] without the word at its head. *)
Fixpoint after_word (word s : string) : option string :=
  match word with
  | EmptyString => Some s
  | String a word' =>
      match s with
      | String b s' => if Ascii.eqb a b then after_word word' s' else None
      | EmptyString => None
      end
  end.

Definition constants : list (string * pyval) :=
  [ ("null", PyNone); ("true", PyBool true); ("false", PyBool false);
    ("NaN", PyFloat nan); ("Infinity", PyFloat infinity);
    ("-Infinity", PyFloat neg_infinity) ].

(** A constant or a number at the head of [text]. *)
Definition read_atom (text : string) : option (pyval * string) :=
  fold_right
    (fun (constant : string * pyval) otherwise =>
       match after_word (fst constant) text with
       | Some rest => Some (snd constant, rest)
       | None => otherwise
       end)
    (read_number text) constants.

(** The dictionary built from the members of an object in their order: a
    key that comes again keeps its place and takes the later value. *)
Definition dict_of_members (members : list (string * pyval)) : pydict :=
  fold_left (fun d member => dict_set (fst member) (snd member) d) members [].

Section Containers.

Variable value : string -> option (pyval * string).

(** Items after an opening bracket that is not followed by [close]. *)
Fixpoint read_items (fuel : nat) (s : string) : option (list pyval * string) :=
  match fuel with
  | O => None
  | S k =>
      match value s with
      | Some (x, rest) =>
          match skip_ws rest with
          | String c rest' =>
              if Ascii.eqb c "," then
                match read_items k rest' with
                | Some (xs, r) => Some (x :: xs, r)
                | None => None
                end
              else if Ascii.eqb c "]" then Some ([x], rest')
              else None
          | EmptyString => None
          end
      | None => None
      end
  end.

Fixpoint read_members (fuel : nat) (s : string)
  : option (list (string * pyval) * string) :=
  match fuel with
  | O => None
  | S k =>
      match skip_ws s with
      | String c rest =>
          if Ascii.eqb c (ascii_of_nat 34) then
            match read_string rest with
            | Some (key, after_key) =>
                match skip_ws after_key with
                | String colon after_colon =>
                    if Ascii.eqb colon ":" then
                      match value after_colon with
                      | Some (x, rest') =>
                          match skip_ws rest' with
                          | String d more =>
                              if Ascii.eqb d "," then
                                match read_members k more with
                                | Some (xs, r) => Some ((key, x) :: xs, r)
                                | None => None
                                end
                              else if Ascii.eqb d "}" then Some ([(key, x)], more)
                              else None
                          | EmptyString => None
                          end
                      | None => None
                      end
                    else None
                | EmptyString => None
                end
            | None => None
            end
          else None
      | EmptyString => None
      end
  end.

End Containers.

Fixpoint read_value (fuel : nat) (s : string) : option (pyval * string) :=
  match fuel with
  | O => None
  | S k =>
      match skip_ws s with
      | EmptyString => None
      | String c rest as text =>
          if Ascii.eqb c (ascii_of_nat 34) then
            match read_string rest with
            | Some (t, r) => Some (PyStr t, r)
            | None => None
            end
          else if Ascii.eqb c "[" then
            match skip_ws rest with
            | EmptyString => None
            | String d r =>
                if Ascii.eqb d "]" then Some (PyList [], r)
                else
                  match read_items (read_value k) k rest with
                  | Some (xs, r') => Some (PyList xs, r')
                  | None => None
                  end
            end
          else if Ascii.eqb c "{" then
            match skip_ws rest with
            | EmptyString => None
            | String d r =>
                if Ascii.eqb d "}" then Some (PyDict [], r)
                else
                  match read_members (read_value k) k rest with
                  | Some (xs, r') => Some (PyDict (dict_of_members xs), r')
                  | None => None
                  end
            end
          else read_atom text
      end
  end.

Definition loads (text : string) : option pyval :=
  match read_value (S (String.length text)) text with
  | Some (v, rest) =>
      match skip_ws rest with
      | EmptyString => Some v
      | _ => None
      end
  | None => None
  end.

Definition rt : runtime :=
  {| py_repr := dumps; str_title := title; json_dumps := dumps; json_loads := loads |}.

End Reference.

(** A value [json.dump] writes and [json.load] reads back: strings and keys
    are text, the keys of a dictionary are distinct, and no float is NaN
    (which is written and read, but is not equal to itself). *)
Fixpoint distinct (keys : list string) : bool :=
  match keys with
  | [] => true
  | k :: rest => negb (existsb (String.eqb k) rest) && distinct rest
  end.

Fixpoint json_document (v : pyval) : bool :=
  match v with
  | PyNone | PyBool _ | PyInt _ => true
  | PyFloat f => negb (PrimFloat.is_nan f)
  | PyStr s => is_text s
  | PyList l => forallb json_document l
  | PyDict d =>
      distinct (map fst d)
      && forallb (fun kv : string * pyval => is_text (fst kv) && json_document (snd kv)) d
  end.

(** ** The configuration of the test fixtures *)

Definition module_record
    (title description : string) (topics : list string) (hands_on : bool)
    (difficulty : string) : pydict :=
  [ ("title", PyStr title);
    ("description", PyStr description);
    ("topics", PyList (map PyStr topics));
    ("hands_on", PyBool hands_on);
    ("difficulty", PyStr difficulty) ].

Definition weights (understanding application problem_solving : Z) : pydict :=
  [ ("understanding", PyInt understanding);
    ("application", PyInt application);
    ("problem_solving", PyInt problem_solving) ].

Definition sample_config : Config :=
  {| modules :=
       [ ("programming_with_ai",
           module_record "Programming/Building Projects with AI"
             "Practical AI-driven development for QA professionals"
             [ "Automation Tools Development"; "Chatbot Integration for QA";
               "Personal QA Assistants"; "Test Data Generation";
               "API Testing Automation" ]
             true "intermediate");
         ("ai_best_practices",
           module_record "Best Practices with AI"
             "Effective and safe AI usage in QA workflows"
             [ "Prompt Design for QA"; "Workflow Integration";
               "Smart Decision Making"; "AI Model Selection"; "Quality Metrics" ]
             true "beginner");
         ("qa_ai_integration",
           module_record "QA + AI Integration"
             "Advanced AI integration in testing processes"
             [ "Automated Test Case Generation"; "AI-Driven Bug Analysis";
               "LLM Integration in Testing"; "Visual Testing with AI";
               "Performance Testing Automation" ]
             true "advanced") ];
     presentation_templates :=
       [ ("introduction",
           [ "Welcome to AI-Driven QA"; "Your Learning Journey";
             "Tools and Resources"; "Expected Outcomes" ]);
         ("module_overview",
           [ "Module Introduction"; "Learning Objectives"; "Key Topics";
             "Hands-on Activities"; "Assessment Criteria" ]);
         ("hands_on_session",
           [ "Setup and Prerequisites"; "Step-by-Step Implementation";
             "Common Challenges"; "Best Practices"; "Next Steps" ]);
         ("conclusion",
           [ "Key Takeaways"; "Further Resources"; "Community and Support";
             "Certification Path" ]) ];
     assessment_criteria :=
       [ ("beginner", weights 40 30 30);
         ("intermediate", weights 30 40 30);
         ("advanced", weights 20 40 40) ] |}.

(** The same configuration with the intermediate weights 30, 50 and 20. *)
Definition sample_config_30_50_20 : Config :=
  {| modules := modules sample_config;
     presentation_templates := presentation_templates sample_config;
     assessment_criteria :=
       [ ("beginner", weights 40 30 30);
         ("intermediate", weights 30 50 20);
         ("advanced", weights 20 40 40) ] |}.

(** A configuration without modules. *)
Definition empty_config : Config :=
  {| modules := [];
     presentation_templates := presentation_templates sample_config;
     assessment_criteria := assessment_criteria sample_config |}.

Definition fresh_world : world :=
  {| user_progress := default_progress;
     disk := {| contents := None; readable := true; writable := true |} |}.

Definition starts_with_digit (s : string) : bool :=
  match s with
  | String c _ => Reference.is_digit c
  | EmptyString => false
  end.

(** What may follow a number: the end of the text, or a character that no
    number continues with. *)
Definition delimited (rest : string) : bool :=
  match rest with
  | EmptyString => true
  | String c _ =>
      negb (Reference.is_digit c || Ascii.eqb c "." || Ascii.eqb c "e"
            || Ascii.eqb c "E" || Ascii.eqb c "+" || Ascii.eqb c "-")
  end.

(** The first character of the text of a value: not white space, and not
    the end of a list or of a dictionary. *)
Definition opens_value (text : string) : bool :=
  match text with
  | String c _ =>
      negb (Reference.is_space c || Ascii.eqb c "]" || Ascii.eqb c "}")
  | EmptyString => false
  end.

(** The number of values in a document, itself included. *)
Fixpoint weight (v : pyval) : nat :=
  match v with
  | PyList l => S (list_sum (map weight l))
  | PyDict d => S (list_sum (map (fun kv : string * pyval => weight (snd kv)) d))
  | _ => 1
  end.

(** ** The module selector and the progress chart *)

(** A list comprehension whose body may raise: the items are evaluated in
    order and the first exception ends the whole expression. *)
Fixpoint comprehension {A B : Type} (body : A -> result B) (items : list A)
    : result (list B) :=
  match items with
  | [] => Ok []
  | x :: rest =>
      y <- body x ;;
      ys <- comprehension body rest ;;
      Ok (y :: ys)
  end.

(** [module_data['title']] *)
Definition title_of (module_data : pydict) : result pyval :=
  match assoc "title" module_data with
  | Some t => Ok t
  | None => Raise (KeyError "title")
  end.

(** The choices of the module selector: (id, title) for every module. *)
Definition get_module_list (config : Config) : result (list (string * pyval)) :=
  comprehension
    (fun entry : string * pydict =>
       t <- title_of (snd entry) ;;
       Ok (fst entry, t))
    (modules config).

(** What [get_progress_chart] hands to the plotting library: the bar
    trace and the fixed layout. *)
Record bar_chart : Type := {
  bar_x : list pyval;
  bar_y : list Z;
  marker_color : list string;
  layout_title : string;
  xaxis_title : string;
  yaxis_title : string;
  yaxis_range : Z * Z
}.

(** [user_progress.get('completed_modules', [])]: only a dictionary has
    [get]. *)
Definition completed_or_empty (user_progress : pyval) : result pyval :=
  match user_progress with
  | PyDict d => Ok (dict_get_default d "completed_modules" (PyList []))
  | _ => Raise AttributeError
  end.

(** [1 if module in completed else 0] *)
Definition completion_flag (completed : pyval) (module : string) : result Z :=
  b <- py_contains completed (PyStr module) ;;
  Ok (if b then 1 else 0)%Z.

(** [config['modules'][m]['title']] *)
Definition configured_title (config : Config) (m : string) : result pyval :=
  match assoc m (modules config) with
  | Some module_data => title_of module_data
  | None => Raise (KeyError m)
  end.

(** ['green' if p else 'lightgray'] *)
Definition bar_color (p : Z) : string :=
  if truthy (PyInt p) then "green" else "lightgray".

Definition get_progress_chart (config : Config) (user_progress : pyval)
    : result bar_chart :=
  let modules := map fst (modules config) in
  completed <- completed_or_empty user_progress ;;
  progress_data <- comprehension (completion_flag completed) modules ;;
  x <- comprehension (configured_title config) modules ;;
  Ok {| bar_x := x;
        bar_y := progress_data;
        marker_color := map bar_color progress_data;
        layout_title := "Learning Progress";
        xaxis_title := "Modules";
        yaxis_title := "Completion Status";
        yaxis_range := (0, 1)%Z |}.

(** A computation that leaves the file as it was, also when it raises. *)
Definition keeps_disk {A : Type} (c : M A) : Prop :=
  forall w, disk (fst (c w)) = disk w.

(** The part of [update_user_progress] that depends on the action. *)
Definition action_part (config : Config) (module_id : option string) (action : string)
    : M unit :=
  if String.eqb action "complete" then complete_module config module_id
  else if String.eqb action "start" then
    progress_set "current_module" (py_of_id module_id)
  else ret tt.

(** * Properties *)

(** ** Strings and tables *)

Lemma append_assoc (a b c : string) : (a ++ b) ++ c = a ++ b ++ c.
Proof. induction a as [|x a IH]; simpl; [reflexivity | rewrite IH; reflexivity]. Qed.

Lemma append_nil_r (a : string) : a ++ "" = a.
Proof. induction a as [|x a IH]; simpl; [reflexivity | rewrite IH; reflexivity]. Qed.

Lemma prefix_app (n rest : string) : String.prefix n (n ++ rest) = true.
Proof.
  induction n as [|c n IH]; simpl.
  - destruct rest; reflexivity.
  - destruct (ascii_dec c c) as [_|ne]; [exact IH | contradiction].
Qed.

Lemma str_contains_here (n rest : string) : str_contains n (n ++ rest) = true.
Proof.
  assert (H : forall h, String.prefix n h = true -> str_contains n h = true)
    by (intros h Hp; destruct h; cbn [str_contains]; rewrite Hp; reflexivity).
  apply H, prefix_app.
Qed.

Lemma str_contains_skip (n a b : string) :
  str_contains n b = true -> str_contains n (a ++ b) = true.
Proof.
  intros H. induction a as [|c a IH]; [exact H|]. cbn [append str_contains].
  rewrite IH. apply orb_true_r.
Qed.

Lemma str_contains_middle (n a b : string) : str_contains n (a ++ n ++ b) = true.
Proof. apply str_contains_skip, str_contains_here. Qed.

Lemma assoc_dict_set_same (k : string) (v : pyval) (d : pydict) :
  assoc k (dict_set k v d) = Some v.
Proof.
  induction d as [|[k' v'] d IH]; simpl.
  - rewrite String.eqb_refl. reflexivity.
  - destruct (String.eqb k k') eqn:E; simpl; rewrite E; [reflexivity | exact IH].
Qed.

Lemma assoc_dict_set_other (k k' : string) (v : pyval) (d : pydict) :
  k <> k' -> assoc k (dict_set k' v d) = assoc k d.
Proof.
  intros ne. induction d as [|[k0 v0] d IH]; simpl.
  - destruct (String.eqb k k') eqn:E; [apply String.eqb_eq in E; contradiction | reflexivity].
  - destruct (String.eqb k' k0) eqn:E'; simpl.
    + apply String.eqb_eq in E'. subst k0.
      destruct (String.eqb k k') eqn:E; [apply String.eqb_eq in E; contradiction | reflexivity].
    + destruct (String.eqb k k0); [reflexivity | exact IH].
Qed.

Lemma dict_set_unchanged (k : string) (v : pyval) (d : pydict) :
  assoc k d = Some v -> dict_set k v d = d.
Proof.
  induction d as [|[k' v'] d IH]; simpl; [discriminate|].
  destruct (String.eqb k k') eqn:E; intros H.
  - injection H as ->. reflexivity.
  - rewrite (IH H). reflexivity.
Qed.

Lemma dict_set_twice (k : string) (v1 v2 : pyval) (d : pydict) :
  dict_set k v2 (dict_set k v1 d) = dict_set k v2 d.
Proof.
  induction d as [|[k' v'] d IH]; simpl.
  - rewrite String.eqb_refl. reflexivity.
  - destruct (String.eqb k k') eqn:E; simpl; rewrite E; [reflexivity|].
    rewrite IH. reflexivity.
Qed.

(** ** Indexing the slide titles *)

Lemma list_index_in_range {A : Type} (l : list A) (i : Z) (x : A) :
  (0 <= i)%Z -> nth_error l (Z.to_nat i) = Some x -> list_index l i = Ok x.
Proof.
  intros Hi Hn. unfold list_index.
  assert (Hlt : (Z.to_nat i < length l)%nat)
    by (apply nth_error_Some; rewrite Hn; discriminate).
  destruct (i <? 0)%Z eqn:E; [apply Z.ltb_lt in E; lia|].
  replace ((0 <=? i)%Z && (i <? Z.of_nat (length l))%Z) with true.
  - rewrite Hn. reflexivity.
  - symmetry. apply andb_true_iff. split; [apply Z.leb_le | apply Z.ltb_lt]; lia.
Qed.

Lemma list_index_below_range {A : Type} (l : list A) (i : Z) :
  (i < - Z.of_nat (length l))%Z -> list_index l i = Raise IndexError.
Proof.
  intros Hi. unfold list_index.
  destruct (i <? 0)%Z eqn:E; [|apply Z.ltb_ge in E; lia].
  destruct (0 <=? Z.of_nat (length l) + i)%Z eqn:E0; [apply Z.leb_le in E0; lia|].
  reflexivity.
Qed.

Lemma index_below_length {A : Type} (l : list A) (i : Z) (x : A) :
  nth_error l (Z.to_nat i) = Some x -> (i >=? Z.of_nat (length l))%Z = false.
Proof.
  intros Hn.
  assert (Hlt : (Z.to_nat i < length l)%nat)
    by (apply nth_error_Some; rewrite Hn; discriminate).
  rewrite Z.geb_leb. apply Z.leb_gt. lia.
Qed.

(** ** The resolver *)

Section ResolverFacts.

Variable rt : runtime.
Variable config : Config.
Variable self : PresentationGenerator.

Lemma template_not_found (template_type : string) (i : Z) (md : option pydict) :
  assoc template_type (templates self) = None ->
  generate_slide rt config self template_type i md = Ok "Template not found".
Proof. intros H. unfold generate_slide. rewrite H. reflexivity. Qed.

Lemma slide_not_found_above
    (template_type : string) (slides : list string) (i : Z) (md : option pydict) :
  assoc template_type (templates self) = Some slides ->
  (Z.of_nat (length slides) <= i)%Z ->
  generate_slide rt config self template_type i md = Ok "Slide not found".
Proof.
  intros H Hi. unfold generate_slide. rewrite H.
  replace (i >=? Z.of_nat (length slides))%Z with true; [reflexivity|].
  symmetry. rewrite Z.geb_leb. apply Z.leb_le. exact Hi.
Qed.

Lemma slide_index_error_below
    (template_type : string) (slides : list string) (i : Z) (md : option pydict) :
  assoc template_type (templates self) = Some slides ->
  (i < - Z.of_nat (length slides))%Z ->
  generate_slide rt config self template_type i md = Raise IndexError.
Proof.
  intros H Hi. unfold generate_slide. rewrite H.
  replace (i >=? Z.of_nat (length slides))%Z with false.
  - rewrite list_index_below_range by exact Hi. reflexivity.
  - symmetry. rewrite Z.geb_leb. apply Z.leb_gt. lia.
Qed.

(** Missing module data, [None] or the empty dictionary, gives the
    placeholder slide under the title of the selected slide. *)
Lemma overview_without_module_data
    (slides : list string) (i : Z) (title : string) (md : option pydict) :
  assoc "module_overview" (templates self) = Some slides ->
  (0 <= i)%Z ->
  nth_error slides (Z.to_nat i) = Some title ->
  module_data_missing md = true ->
  generate_slide rt config self "module_overview" i md
  = Ok ("# " ++ title ++ nl ++ nl ++ "Module data not available").
Proof.
  intros H Hi Hn Hm. unfold generate_slide. rewrite H.
  rewrite (index_below_length _ _ _ Hn).
  rewrite (list_index_in_range _ _ _ Hi Hn). simpl.
  unfold generate_module_overview_slide. rewrite Hm. reflexivity.
Qed.

End ResolverFacts.

(** From index 0 upwards the resolver returns a string for every template
    but the module overview, and for the overview when module data is
    missing. *)
Lemma generate_slide_returns_from_zero
    (rt : runtime) (config : Config) (self : PresentationGenerator)
    (template_type : string) (i : Z) (md : option pydict) :
  (0 <= i)%Z ->
  template_type <> "module_overview" \/ module_data_missing md = true ->
  exists s, generate_slide rt config self template_type i md = Ok s.
Proof.
  intros Hi Hcase. unfold generate_slide.
  destruct (assoc template_type (templates self)) as [slides|];
    [|eexists; reflexivity].
  destruct (i >=? Z.of_nat (length slides))%Z eqn:E; [eexists; reflexivity|].
  rewrite Z.geb_leb in E. apply Z.leb_gt in E.
  destruct (nth_error slides (Z.to_nat i)) as [title|] eqn:En.
  - rewrite (list_index_in_range slides i title Hi En). simpl.
    destruct (String.eqb template_type "introduction"); [eexists; reflexivity|].
    destruct (String.eqb template_type "module_overview") eqn:Eo.
    + destruct Hcase as [ne|Hm]; [apply String.eqb_eq in Eo; contradiction|].
      unfold generate_module_overview_slide. rewrite Hm. eexists. reflexivity.
    + destruct (String.eqb template_type "hands_on_session"); [eexists; reflexivity|].
      destruct (String.eqb template_type "conclusion"); eexists; reflexivity.
  - apply nth_error_None in En. lia.
Qed.

Example nonexistent_template (rt : runtime) :
  generate_slide rt sample_config (presentation_gen sample_config)
    "nonexistent_template" 0 None = Ok "Template not found".
Proof. reflexivity. Qed.

(** ** Claims about the resolver *)

(** C1: the resolver is claimed to return a string for every template type,
    slide index and module data.  On the configuration of the test fixtures
    two requests raise instead: a module whose difficulty has no entry in the
    assessment criteria raises [KeyError] at every slide index of the
    overview, because the assessment slide is built before the index selects
    a slide, and a slide index below minus the number of titles raises
    [IndexError]. *)
Theorem generate_slide_raises (rt : runtime) :
  generate_slide rt sample_config (presentation_gen sample_config)
    "module_overview" 0
    (Some [ ("title", PyStr ""); ("description", PyNone);
            ("topics", PyStr "not_a_list"); ("hands_on", PyStr "maybe");
            ("difficulty", PyStr "expert") ])
  = Raise (KeyError "expert")
  /\ generate_slide rt sample_config (presentation_gen sample_config)
       "module_overview" 0 (Some [ ("difficulty", PyStr "expert") ])
     = Raise (KeyError "expert")
  /\ generate_slide rt sample_config (presentation_gen sample_config)
       "hands_on_session" (-6) None
     = Raise IndexError.
Proof. repeat split; reflexivity. Qed.

(** C2: a slide index outside the titles of a known template is claimed to
    give "Slide not found".  That holds above the range (index 999), but
    below it the guard lets the index through: -5 on the four introduction
    titles raises [IndexError], and -1 selects the last title. *)
Theorem slide_index_below_range (rt : runtime) :
  generate_slide rt sample_config (presentation_gen sample_config)
    "introduction" 999 None = Ok "Slide not found"
  /\ generate_slide rt sample_config (presentation_gen sample_config)
       "introduction" (-5) None = Raise IndexError
  /\ generate_slide rt sample_config (presentation_gen sample_config)
       "introduction" (-1) None = Ok (coming_soon "Expected Outcomes").
Proof. repeat split; reflexivity. Qed.

Lemma difficulty_is_titled (rt : runtime) (md : pydict) (d : string) :
  dict_get_default md "difficulty" (PyStr "intermediate") = PyStr d ->
  exists d0, py_title rt (dict_get_default md "difficulty" (PyStr "Not specified"))
             = Ok d0.
Proof.
  unfold dict_get_default. destruct (assoc "difficulty" md) as [v|].
  - intros ->. eexists. reflexivity.
  - intros _. eexists. reflexivity.
Qed.

Lemma assessment_slide_percentages
    (title level understanding application problem_solving : string) :
  str_contains (understanding ++ "%")
    (module_overview_slide_4 title level understanding application problem_solving)
  = true
  /\ str_contains (application ++ "%")
       (module_overview_slide_4 title level understanding application problem_solving)
     = true
  /\ str_contains (problem_solving ++ "%")
       (module_overview_slide_4 title level understanding application problem_solving)
     = true.
Proof.
  assert (glue : forall n a b, str_contains (n ++ "%") (n ++ String "%" b ++ a) = true).
  { intros n a b.
    replace (n ++ String "%" b ++ a) with ((n ++ "%") ++ b ++ a).
    - apply str_contains_here.
    - rewrite append_assoc. reflexivity. }
  unfold module_overview_slide_4. repeat split.
  - do 5 apply str_contains_skip. apply (glue understanding).
  - do 7 apply str_contains_skip. apply (glue application).
  - do 9 apply str_contains_skip.
    match goal with
    | |- str_contains _ (_ ++ String "%" ?b) = true =>
        replace (String "%" b) with (String "%" b ++ "")
          by apply append_nil_r
    end.
    apply (glue problem_solving).
Qed.

(** C3, amended: for a module_data record that is not empty, whose
    difficulty (or "intermediate" when the field is absent) is a key of the
    assessment criteria with the three weights, and whose topics can be
    iterated, slide 4 of "module_overview" is the assessment slide with the
    three weights substituted as text, each followed by a percent sign; with
    weights 30 and 50 it contains "30%" and "50%". *)
Theorem assessment_slide_substitution
    (rt : runtime) (config : Config) (self : PresentationGenerator)
    (slides : list string) (title : string) (md : pydict) (d : string)
    (topics : list pyval) (weights : pydict) (u a p : pyval) :
  assoc "module_overview" (templates self) = Some slides ->
  nth_error slides 4 = Some title ->
  md <> [] ->
  dict_get_default md "difficulty" (PyStr "intermediate") = PyStr d ->
  py_iter (dict_get_default md "topics" (PyList [])) = Ok topics ->
  assoc d (assessment_criteria config) = Some weights ->
  assoc "understanding" weights = Some u ->
  assoc "application" weights = Some a ->
  assoc "problem_solving" weights = Some p ->
  let slide :=
    module_overview_slide_4 title (str_title rt d)
      (py_str rt u) (py_str rt a) (py_str rt p) in
  generate_slide rt config self "module_overview" 4 (Some md) = Ok slide
  /\ str_contains (py_str rt u ++ "%") slide = true
  /\ str_contains (py_str rt a ++ "%") slide = true
  /\ str_contains (py_str rt p ++ "%") slide = true
  /\ (assoc "difficulty" md = None -> d = "intermediate")
  /\ (u = PyInt 30 -> a = PyInt 50 ->
      str_contains "30%" slide = true /\ str_contains "50%" slide = true).
Proof.
  intros Ht Hn Hmd Hd Hit Hw Hu Ha Hp slide.
  destruct (assessment_slide_percentages title (str_title rt d)
              (py_str rt u) (py_str rt a) (py_str rt p)) as (Cu & Ca & Cp).
  split; [|split; [exact Cu|split; [exact Ca|split; [exact Cp|split]]]].
  - unfold generate_slide. rewrite Ht.
    change 4%nat with (Z.to_nat 4) in Hn.
    rewrite (index_below_length _ _ _ Hn).
    rewrite (list_index_in_range slides 4 title ltac:(lia) Hn).
    change (title <- Ok title ;; ?k title) with (k title). cbv beta.
    change (String.eqb "module_overview" "introduction") with false.
    change (String.eqb "module_overview" "module_overview") with true.
    cbv iota.
    unfold generate_module_overview_slide.
    replace (module_data_missing (Some md)) with false
      by (destruct md; [contradiction | reflexivity]).
    destruct (difficulty_is_titled rt md d Hd) as [d0 Hd0].
    rewrite Hd0, Hit, Hd.
    unfold criterion. rewrite Hw, Hu, Ha, Hp. reflexivity.
  - intros Hnone. unfold dict_get_default in Hd. rewrite Hnone in Hd.
    injection Hd as <-. reflexivity.
  - intros -> ->. split; [exact Cu | exact Ca].
Qed.

Lemma assessment_slide_substitution_witness :
  generate_slide Reference.rt sample_config_30_50_20
    (presentation_gen sample_config_30_50_20) "module_overview" 4
    (Some [ ("title", PyStr "Test Module") ])
  = Ok (module_overview_slide_4 "Assessment Criteria" "Intermediate" "30" "50" "20").
Proof.
  refine (proj1 (assessment_slide_substitution Reference.rt sample_config_30_50_20
                   (presentation_gen sample_config_30_50_20)
                   [ "Module Introduction"; "Learning Objectives"; "Key Topics";
                     "Hands-on Activities"; "Assessment Criteria" ]
                   "Assessment Criteria" [ ("title", PyStr "Test Module") ]
                   "intermediate" [] (weights 30 50 20)
                   (PyInt 30) (PyInt 50) (PyInt 20) _ _ _ _ _ _ _ _ _));
    try reflexivity.
  discriminate.
Defined.

(** C3 as stated fails for the empty record: it has no difficulty field, so
    "intermediate" with weights 30, 50 and 20 would apply, but the resolver
    treats an empty record as missing module data. *)
Lemma empty_record_has_no_percentages :
  generate_slide Reference.rt sample_config_30_50_20
    (presentation_gen sample_config_30_50_20) "module_overview" 4 (Some [])
  = Ok ("# Assessment Criteria" ++ nl ++ nl ++ "Module data not available")
  /\ str_contains "30%"
       ("# Assessment Criteria" ++ nl ++ nl ++ "Module data not available") = false
  /\ str_contains "50%"
       ("# Assessment Criteria" ++ nl ++ nl ++ "Module data not available") = false.
Proof. repeat split; reflexivity. Qed.

(** C8, amended: for "module_overview" with a slide index within the titles
    and no module data, the resolver returns "# ", the slide title and
    "\n\nModule data not available"; the result contains "Module data not
    available" and is neither of the not-found messages. *)
Theorem overview_placeholder
    (rt : runtime) (config : Config) (self : PresentationGenerator)
    (slides : list string) (i : Z) (title : string) :
  assoc "module_overview" (templates self) = Some slides ->
  (0 <= i)%Z ->
  nth_error slides (Z.to_nat i) = Some title ->
  let slide := "# " ++ title ++ nl ++ nl ++ "Module data not available" in
  generate_slide rt config self "module_overview" i None = Ok slide
  /\ str_contains "Module data not available" slide = true
  /\ slide <> "Slide not found"
  /\ slide <> "Template not found".
Proof.
  intros Ht Hi Hn slide. repeat split.
  - apply (overview_without_module_data rt config self slides i title None Ht Hi Hn).
    reflexivity.
  - unfold slide. do 4 apply str_contains_skip. reflexivity.
  - discriminate.
  - discriminate.
Qed.

Lemma overview_placeholder_witness :
  generate_slide Reference.rt sample_config (presentation_gen sample_config)
    "module_overview" 0 None
  = Ok ("# Module Introduction" ++ nl ++ nl ++ "Module data not available").
Proof.
  refine (proj1 (overview_placeholder Reference.rt sample_config
                   (presentation_gen sample_config)
                   [ "Module Introduction"; "Learning Objectives"; "Key Topics";
                     "Hands-on Activities"; "Assessment Criteria" ]
                   0 "Module Introduction" _ _ _)).
  - reflexivity.
  - lia.
  - reflexivity.
Defined.

(** C8 as stated fails: the result is not the bare slide title followed by
    the message, it starts with the heading marker. *)
Lemma placeholder_starts_with_heading_marker :
  generate_slide Reference.rt sample_config (presentation_gen sample_config)
    "module_overview" 0 None
  <> Ok ("Module Introduction" ++ nl ++ nl ++ "Module data not available").
Proof. vm_compute. discriminate. Qed.

(** C10: for a module id that is not in the modules table, the entry point
    passes the empty record (for a non-empty id), the resolver answers for the
    empty record as for absent module data, and the slide is the
    "Module data not available" placeholder. *)
Theorem unknown_module_gets_placeholder
    (rt : runtime) (config : Config) (id : string)
    (slides : list string) (i : Z) (title : string) :
  assoc id (modules config) = None ->
  assoc "module_overview" (presentation_templates config) = Some slides ->
  (0 <= i)%Z ->
  nth_error slides (Z.to_nat i) = Some title ->
  (id <> "" -> select_module_data config (Some id) = Some [])
  /\ generate_slide rt config (presentation_gen config) "module_overview" i (Some [])
     = generate_slide rt config (presentation_gen config) "module_overview" i None
  /\ generate_presentation_slide rt config (Some id) "module_overview" i
     = Ok ("# " ++ title ++ nl ++ nl ++ "Module data not available").
Proof.
  intros Hid Ht Hi Hn.
  assert (Hsel : module_data_missing (select_module_data config (Some id)) = true).
  { unfold select_module_data. rewrite Hid.
    destruct (truthy (PyStr id)); reflexivity. }
  split; [|split].
  - intros Hne. unfold select_module_data. rewrite Hid. simpl.
    destruct (String.eqb id "") eqn:E; [apply String.eqb_eq in E; contradiction|].
    reflexivity.
  - rewrite (overview_without_module_data rt config (presentation_gen config)
               slides i title (Some []) Ht Hi Hn eq_refl).
    rewrite (overview_without_module_data rt config (presentation_gen config)
               slides i title None Ht Hi Hn eq_refl).
    reflexivity.
  - unfold generate_presentation_slide.
    apply (overview_without_module_data rt config (presentation_gen config)
             slides i title _ Ht Hi Hn Hsel).
Qed.

Lemma unknown_module_gets_placeholder_witness :
  generate_presentation_slide Reference.rt sample_config
    (Some "nonexistent_module") "module_overview" 2
  = Ok ("# Key Topics" ++ nl ++ nl ++ "Module data not available").
Proof.
  refine (proj2 (proj2 (unknown_module_gets_placeholder Reference.rt sample_config
                          "nonexistent_module"
                          [ "Module Introduction"; "Learning Objectives"; "Key Topics";
                            "Hands-on Activities"; "Assessment Criteria" ]
                          2 "Key Topics" _ _ _ _))).
  - reflexivity.
  - reflexivity.
  - lia.
  - reflexivity.
Defined.

(** ** The store: frame lemmas *)

Lemma preserves_ret {A : Type} (key : string) (a : A) : preserves key (ret a).
Proof. intros w. reflexivity. Qed.

Lemma preserves_raise {A : Type} (key : string) (e : exn) :
  preserves key (@raise A e).
Proof. intros w. reflexivity. Qed.

Lemma preserves_lift {A : Type} (key : string) (r : result A) :
  preserves key (lift r).
Proof. intros w. reflexivity. Qed.

Lemma preserves_bind {A B : Type} (key : string) (c : M A) (k : A -> M B) :
  preserves key c -> (forall a, preserves key (k a)) -> preserves key (bindM c k).
Proof.
  intros Hc Hk w. unfold bindM. specialize (Hc w).
  destruct (c w) as [w' [a|e]]; simpl in *.
  - rewrite Hk. exact Hc.
  - exact Hc.
Qed.

Lemma preserves_get (key k : string) : preserves key (progress_get k).
Proof.
  intros w. unfold progress_get.
  destruct (user_progress w); try reflexivity.
  destruct (assoc k d); reflexivity.
Qed.

Lemma preserves_set (key k : string) (v : pyval) :
  key <> k -> preserves key (progress_set k v).
Proof.
  intros ne w. unfold progress_set, field_of.
  destruct (user_progress w) eqn:E; simpl; rewrite ?E; try reflexivity.
  apply assoc_dict_set_other. exact ne.
Qed.

Lemma preserves_append (key k : string) (x : pyval) :
  key <> k -> preserves key (progress_append k x).
Proof.
  intros ne. unfold progress_append.
  apply preserves_bind; [apply preserves_get|].
  intros l. destruct l; try apply preserves_raise.
  apply preserves_set. exact ne.
Qed.

Lemma preserves_lacks (key k : string) (x : pyval) :
  preserves key (progress_lacks k x).
Proof.
  unfold progress_lacks.
  apply preserves_bind; [apply preserves_get|]. intros l.
  apply preserves_bind; [apply preserves_lift|]. intros b.
  apply preserves_ret.
Qed.

Lemma preserves_add_skills (key : string) (topics : list pyval) :
  key <> "skills_acquired" -> preserves key (add_skills topics).
Proof.
  intros ne. induction topics as [|t rest IH]; simpl.
  - apply preserves_ret.
  - apply preserves_bind; [apply preserves_lacks|]. intros fresh.
    apply preserves_bind; [|intros _; exact IH].
    destruct fresh; [apply preserves_append; exact ne | apply preserves_ret].
Qed.

Lemma preserves_percentage (config : Config) (key : string) :
  preserves key (progress_percentage config).
Proof.
  unfold progress_percentage.
  apply preserves_bind; [apply preserves_get|]. intros c.
  apply preserves_bind; [apply preserves_lift|]. intros n.
  apply preserves_bind; [apply preserves_lift|]. intros q.
  apply preserves_ret.
Qed.

Lemma preserves_persist (rt : runtime) (key : string) : preserves key (persist rt).
Proof.
  intros w. unfold persist.
  destruct (save_user_progress rt (user_progress w) (disk w)); reflexivity.
Qed.

(** ** The store: running the operations on a dictionary *)

Lemma run_get (d : pydict) (f : file_state) (k : string) (v : pyval) :
  assoc k d = Some v -> progress_get k (mk d f) = (mk d f, Ok v).
Proof. intros H. unfold progress_get, mk. simpl. rewrite H. reflexivity. Qed.

Lemma run_append (d : pydict) (f : file_state) (k : string) (l : list pyval) (x : pyval) :
  assoc k d = Some (PyList l) ->
  progress_append k x (mk d f) = (mk (dict_set k (PyList (l ++ [x])) d) f, Ok tt).
Proof.
  intros H. unfold progress_append, bindM. rewrite (run_get d f k _ H). reflexivity.
Qed.

Lemma run_lacks (d : pydict) (f : file_state) (k : string) (l : list pyval) (x : pyval) :
  assoc k d = Some (PyList l) ->
  progress_lacks k x (mk d f) = (mk d f, Ok (negb (occurs x l))).
Proof.
  intros H. unfold progress_lacks, bindM. rewrite (run_get d f k _ H). reflexivity.
Qed.

Lemma run_add_skills (topics : list pyval) :
  forall (d : pydict) (f : file_state) (skills : list pyval),
    assoc "skills_acquired" d = Some (PyList skills) ->
    add_skills topics (mk d f)
    = (mk (dict_set "skills_acquired" (PyList (merge_skills skills topics)) d) f, Ok tt).
Proof.
  induction topics as [|t rest IH]; intros d f skills H; simpl.
  - rewrite (dict_set_unchanged _ _ _ H). reflexivity.
  - unfold bindM at 1. rewrite (run_lacks d f _ skills t H).
    destruct (occurs t skills) eqn:E; simpl.
    + unfold bindM, ret. apply IH. exact H.
    + unfold bindM at 1. rewrite (run_append d f _ skills t H).
      rewrite (IH _ f (skills ++ [t])%list (assoc_dict_set_same _ _ _)).
      rewrite dict_set_twice. reflexivity.
Qed.

Lemma bindM_ok {A B : Type} (c : M A) (k : A -> M B) (w w' : world) (a : A) :
  c w = (w', Ok a) -> bindM c k w = k a w'.
Proof. intros H. unfold bindM. rewrite H. reflexivity. Qed.

Lemma run_percentage (config : Config) (d : pydict) (f : file_state) (l : list pyval) :
  assoc "completed_modules" d = Some (PyList l) ->
  modules config <> [] ->
  progress_percentage config (mk d f)
  = (mk d f, Ok (PyFloat (percentage config (length l)))).
Proof.
  intros H Hm. unfold progress_percentage.
  rewrite (bindM_ok _ _ _ _ _ (run_get d f _ _ H)).
  unfold bindM, lift, ret, py_len, py_truediv.
  assert (E : (Z.of_nat (length (modules config)) =? 0)%Z = false).
  { apply Z.eqb_neq. destruct (modules config); [contradiction | simpl; lia]. }
  rewrite E. reflexivity.
Qed.

Lemma run_percentage_no_modules
    (config : Config) (d : pydict) (f : file_state) (l : list pyval) :
  assoc "completed_modules" d = Some (PyList l) ->
  modules config = [] ->
  progress_percentage config (mk d f) = (mk d f, Raise ZeroDivisionError).
Proof.
  intros H Hm. unfold progress_percentage.
  rewrite (bindM_ok _ _ _ _ _ (run_get d f _ _ H)).
  unfold bindM, lift, ret, py_len, py_truediv. rewrite Hm. reflexivity.
Qed.

Lemma run_complete_again
    (config : Config) (id : option string) (d : pydict) (f : file_state)
    (cm : list pyval) :
  assoc "completed_modules" d = Some (PyList cm) ->
  occurs (py_of_id id) cm = true ->
  complete_module config id (mk d f) = (mk d f, Ok tt).
Proof.
  intros H Hin. unfold complete_module.
  rewrite (bindM_ok _ _ _ _ _ (run_lacks d f _ cm _ H)). rewrite Hin. reflexivity.
Qed.

Lemma run_complete_fresh
    (config : Config) (id : option string) (d : pydict) (f : file_state)
    (cm sk ts : list pyval) :
  assoc "completed_modules" d = Some (PyList cm) ->
  assoc "skills_acquired" d = Some (PyList sk) ->
  occurs (py_of_id id) cm = false ->
  modules config <> [] ->
  py_iter (dict_get_default (module_of config id) "topics" (PyList [])) = Ok ts ->
  complete_module config id (mk d f)
  = (mk (after_completion config (py_of_id id) cm sk ts d) f, Ok tt).
Proof.
  intros Hcm Hsk Hin Hm Hts. unfold complete_module.
  rewrite (bindM_ok _ _ _ _ _ (run_lacks d f _ cm _ Hcm)). rewrite Hin. cbn [negb].
  cbv iota.
  rewrite (bindM_ok _ _ _ _ _ (run_append d f _ cm _ Hcm)).
  rewrite (bindM_ok _ _ _ _ _
             (run_percentage config _ f _ (assoc_dict_set_same _ _ _) Hm)).
  unfold bindM at 1. unfold progress_set at 1. simpl user_progress. cbv iota beta.
  rewrite Hts. unfold bindM, lift. simpl disk.
  rewrite length_app, Nat.add_1_r.
  apply run_add_skills.
  rewrite !assoc_dict_set_other by discriminate. exact Hsk.
Qed.

(** What follows the action-specific part of [update_user_progress]. *)
Lemma run_update
    (rt : runtime) (config : Config) (now : string) (id : option string)
    (action : string) (w : world) (d1 : pydict) (f : file_state) (h : list pyval) :
  (if String.eqb action "complete" then complete_module config id
   else if String.eqb action "start" then
     progress_set "current_module" (py_of_id id)
   else ret tt) w = (mk d1 f, Ok tt) ->
  assoc "session_history" d1 = Some (PyList h) ->
  writable f = true ->
  update_user_progress rt config now id action w
  = (mk (with_entry (history_entry now id action) h d1)
        (written f (json_dumps rt
                      (PyDict (with_entry (history_entry now id action) h d1)))),
     Ok (confirmation rt id action)).
Proof.
  intros Hfirst Hh Hw. unfold update_user_progress.
  rewrite (bindM_ok _ _ _ _ _ Hfirst).
  rewrite (bindM_ok _ _ _ _ _ (run_append d1 f _ h _ Hh)).
  unfold bindM, persist, save_user_progress, open_write, ret, written. simpl.
  rewrite Hw. reflexivity.
Qed.

(** The action-specific part decides every field but the history. *)
Lemma update_field
    (rt : runtime) (config : Config) (now : string) (id : option string)
    (action key : string) (w : world) :
  key <> "session_history" ->
  field_of key (fst (update_user_progress rt config now id action w))
  = field_of key
      (fst ((if String.eqb action "complete" then complete_module config id
             else if String.eqb action "start" then
               progress_set "current_module" (py_of_id id)
             else ret tt) w)).
Proof.
  intros ne. unfold update_user_progress.
  match goal with
  | |- field_of _ (fst (bindM ?c ?k w)) = _ =>
      assert (Hk : forall u, preserves key (k u))
  end.
  { intros u.
    apply preserves_bind; [apply preserves_append; exact ne|]. intros _.
    apply preserves_bind; [apply preserves_persist|]. intros _.
    apply preserves_ret. }
  unfold bindM at 1.
  match goal with
  | |- context [match ?c w with _ => _ end] => destruct (c w) as [w' [u|e]]
  end.
  - apply (Hk u).
  - reflexivity.
Qed.

Lemma completed_after_complete
    (config : Config) (id : option string) (w : world) (cm : list pyval) :
  field_of "completed_modules" w = Some (PyList cm) ->
  field_of "completed_modules" (fst (complete_module config id w))
  = Some (PyList (if occurs (py_of_id id) cm then cm else cm ++ [py_of_id id])).
Proof.
  destruct w as [up f]. destruct up; try discriminate.
  change {| user_progress := PyDict d; disk := f |} with (mk d f).
  intros H. change (assoc "completed_modules" d = Some (PyList cm)) in H.
  unfold complete_module.
  rewrite (bindM_ok _ _ _ _ _ (run_lacks d f _ cm _ H)).
  destruct (occurs (py_of_id id) cm); cbn [negb]; cbv iota.
  - exact H.
  - rewrite (bindM_ok _ _ _ _ _ (run_append d f _ cm _ H)).
    match goal with
    | |- field_of _ (fst (?c ?w1)) = _ =>
        assert (P : preserves "completed_modules" c)
    end.
    { apply preserves_bind; [apply preserves_percentage|]. intros p.
      apply preserves_bind; [apply preserves_set; discriminate|]. intros _.
      apply preserves_bind; [apply preserves_lift|]. intros ts.
      apply preserves_add_skills. discriminate. }
    rewrite P. apply assoc_dict_set_same.
Qed.

(** ** Counting and merging *)

Lemma occurs_count (x : pyval) (l : list pyval) :
  occurs x l = negb (Nat.eqb (count_eq x l) 0).
Proof.
  unfold occurs, count_eq. induction l as [|e l IH]; simpl; [reflexivity|].
  destruct (py_eqb e x); simpl; [reflexivity | exact IH].
Qed.

Lemma count_eq_snoc (x y : pyval) (l : list pyval) :
  count_eq x (l ++ [y]) = (count_eq x l + (if py_eqb y x then 1 else 0))%nat.
Proof.
  unfold count_eq. rewrite filter_app, length_app. simpl.
  destruct (py_eqb y x); reflexivity.
Qed.

Lemma py_eqb_id_refl (id : option string) : py_eqb (py_of_id id) (py_of_id id) = true.
Proof. destruct id; simpl; [apply String.eqb_refl | reflexivity]. Qed.

Lemma occurs_app (x : pyval) (l1 l2 : list pyval) :
  occurs x (l1 ++ l2) = occurs x l1 || occurs x l2.
Proof. unfold occurs. apply existsb_app. Qed.

Lemma merge_skills_extends (topics : list pyval) :
  forall skills, exists added,
    merge_skills skills topics = (skills ++ added)%list /\ all_fresh skills added = true.
Proof.
  induction topics as [|t rest IH]; intros skills; simpl.
  - exists []. rewrite app_nil_r. split; reflexivity.
  - destruct (occurs t skills) eqn:E.
    + apply IH.
    + destruct (IH (skills ++ [t])%list) as [added [Hm Hf]].
      exists (t :: added). split.
      * rewrite Hm, <- app_assoc. reflexivity.
      * simpl. rewrite E, Hf. reflexivity.
Qed.

Lemma occurs_merge_skills (x : pyval) (topics skills : list pyval) :
  occurs x skills = true -> occurs x (merge_skills skills topics) = true.
Proof.
  intros H. destruct (merge_skills_extends topics skills) as [added [-> _]].
  rewrite occurs_app, H. reflexivity.
Qed.

Lemma topics_occur_after_merge (t : pyval) (topics : list pyval) :
  forall skills,
    In t topics -> py_eqb t t = true -> occurs t (merge_skills skills topics) = true.
Proof.
  induction topics as [|a rest IH]; intros skills Hin Hrefl; [contradiction|].
  simpl. destruct Hin as [->|Hin].
  - apply occurs_merge_skills. destruct (occurs t skills) eqn:E; [exact E|].
    rewrite occurs_app. simpl. rewrite Hrefl. apply orb_true_r.
  - apply IH; assumption.
Qed.

(** Without modules a first completion appends the id and then stops at the
    division. *)
Lemma first_completion_without_modules (rt : runtime) :
  snd (update_user_progress rt empty_config "2024-01-01T10:00:00" (Some "m1")
         "complete" fresh_world)
  = Raise ZeroDivisionError
  /\ field_of "completed_modules"
       (fst (update_user_progress rt empty_config "2024-01-01T10:00:00" (Some "m1")
               "complete" fresh_world))
     = Some (PyList [PyStr "m1"]).
Proof. split; reflexivity. Qed.

(** A file that cannot be opened for writing makes the save raise and stay
    without effect. *)
Lemma save_unwritable (rt : runtime) (p : pyval) (f : file_state) :
  writable f = false -> save_user_progress rt p f = (f, Raise OSError).
Proof.
  intros H. unfold save_user_progress, open_write. rewrite H. reflexivity.
Qed.

(** One completed module out of the three configured ones: 1 / 3 * 100 as a
    double, which Python prints as 33.33333333333333. *)
Example percentage_one_of_three :
  percentage sample_config 1 = 0x1.0aaaaaaaaaaaap+5%float.
Proof. reflexivity. Qed.

(** ** The JSON codec reads back what it writes *)

(** *** Strings *)

Lemma utf8_chars_concat (s : string) :
  fold_right append EmptyString (utf8_chars s) = s.
Proof.
  induction s as [|c rest IH]; [reflexivity|].
  cbn [utf8_chars]. destruct rest as [|d more]; [reflexivity|].
  destruct (is_continuation d).
  - destruct (utf8_chars (String d more)) as [|h t].
    + discriminate IH.
    + cbn [fold_right] in *. cbn [append]. rewrite IH. reflexivity.
  - cbn [fold_right]. rewrite IH. reflexivity.
Qed.

Lemma hex_digit_value (d : N) :
  (d < 16)%N -> Reference.hex_value (Reference.hex_digit d) = Some d.
Proof.
  intros H.
  assert (E : (d = 0 \/ d = 1 \/ d = 2 \/ d = 3 \/ d = 4 \/ d = 5 \/ d = 6 \/ d = 7
               \/ d = 8 \/ d = 9 \/ d = 10 \/ d = 11 \/ d = 12 \/ d = 13 \/ d = 14
               \/ d = 15)%N) by lia.
  repeat (destruct E as [-> | E]; [reflexivity|]). subst d. reflexivity.
Qed.

Lemma hex4_value_hex4 (n : N) (tail : string) :
  (n < 65536)%N ->
  exists a b c d,
    Reference.hex4 n ++ tail = String a (String b (String c (String d tail)))
    /\ Reference.hex4_value a b c d = Some n.
Proof.
  intros H. unfold Reference.hex4.
  do 4 eexists. split; [reflexivity|].
  unfold Reference.hex4_value.
  assert (H3 : (n / 4096 < 16)%N) by (apply N.Div0.div_lt_upper_bound; lia).
  assert (H2 : ((n / 256) mod 16 < 16)%N) by (apply N.mod_lt; lia).
  assert (H1 : ((n / 16) mod 16 < 16)%N) by (apply N.mod_lt; lia).
  assert (H0 : (n mod 16 < 16)%N) by (apply N.mod_lt; lia).
  rewrite !hex_digit_value by assumption.
  f_equal.
  pose proof (N.div_mod n 16 ltac:(lia)) as E0.
  pose proof (N.div_mod (n / 16) 16 ltac:(lia)) as E1.
  pose proof (N.div_mod (n / 256) 16 ltac:(lia)) as E2.
  assert (D1 : (n / 16 / 16 = n / 256)%N) by (rewrite N.Div0.div_div; reflexivity).
  assert (D2 : (n / 256 / 16 = n / 4096)%N) by (rewrite N.Div0.div_div; reflexivity).
  rewrite D1 in E1. rewrite D2 in E2. lia.
Qed.

Lemma read_string_single (n : N) (tail : string) :
  (n < 65536)%N ->
  Reference.is_high_surrogate n = false ->
  Reference.read_string ("\u" ++ Reference.hex4 n ++ tail)
  = Reference.prepend (utf8_encode n) (Reference.read_string tail).
Proof.
  intros H Hh.
  destruct (hex4_value_hex4 n tail H) as (a & b & c & d & -> & Hv).
  change ("\u" ++ String a (String b (String c (String d tail))))
    with (String "\" (String "u" (String a (String b (String c (String d tail)))))).
  cbn [Reference.read_string].
  change (Ascii.eqb "\" (ascii_of_nat 34)) with false.
  change (Ascii.eqb "\" "\") with true.
  change (Reference.simple_escape "u") with (@None ascii).
  change (Ascii.eqb "u" "u") with true.
  cbv iota. rewrite Hv. cbv zeta. rewrite Hh. reflexivity.
Qed.

Lemma read_string_pair (c : N) (tail : string) :
  (65536 <= c)%N -> (c < 1114112)%N ->
  Reference.read_string (Reference.unicode_escape c ++ tail)
  = Reference.prepend (utf8_encode c) (Reference.read_string tail).
Proof.
  intros Hlo Hhi. unfold Reference.unicode_escape.
  replace (c <? 65536)%N with false by (symmetry; apply N.ltb_ge; exact Hlo).
  assert (Hq : ((c - 65536) / 1024 < 1024)%N)
    by (apply N.Div0.div_lt_upper_bound; lia).
  assert (Hr : ((c - 65536) mod 1024 < 1024)%N) by (apply N.mod_lt; lia).
  pose proof (N.div_mod (c - 65536) 1024 ltac:(lia)) as Hc.
  remember ((c - 65536) / 1024)%N as q eqn:Eq.
  remember ((c - 65536) mod 1024)%N as r eqn:Er.
  assert (Hhigh : (55296 + q < 65536)%N) by lia.
  assert (Hlow : (56320 + r < 65536)%N) by lia.
  rewrite !append_assoc.
  destruct (hex4_value_hex4 (56320 + r) tail Hlow) as (a' & b' & c' & d' & -> & Hv').
  destruct (hex4_value_hex4 (55296 + q)
              ("\u" ++ String a' (String b' (String c' (String d' tail)))) Hhigh)
    as (a & b & c0 & d & -> & Hv).
  change ("\u" ++ String a (String b (String c0 (String d
            ("\u" ++ String a' (String b' (String c' (String d' tail))))))))
    with (String "\" (String "u" (String a (String b (String c0 (String d
            (String "\" (String "u" (String a' (String b' (String c' (String d'
               tail)))))))))))).
  cbn [Reference.read_string].
  change (Ascii.eqb "\" (ascii_of_nat 34)) with false.
  change (Ascii.eqb "\" "\") with true.
  change (Reference.simple_escape "u") with (@None ascii).
  change (Ascii.eqb "u" "u") with true.
  cbv iota. rewrite Hv. cbv zeta.
  replace (Reference.is_high_surrogate (55296 + q)) with true
    by (symmetry; unfold Reference.is_high_surrogate;
        apply andb_true_intro; split; [apply N.leb_le | apply N.ltb_lt]; lia).
  cbn [andb]. rewrite Hv'.
  replace (Reference.is_low_surrogate (56320 + r)) with true
    by (symmetry; unfold Reference.is_low_surrogate;
        apply andb_true_intro; split; [apply N.leb_le | apply N.ltb_lt]; lia).
  replace (65536 + (55296 + q - 55296) * 1024 + (56320 + r - 56320))%N with c by lia.
  reflexivity.
Qed.

Lemma read_string_ascii (a : ascii) (tail : string) :
  (N_of_ascii a <? 128)%N = true ->
  Reference.read_string (Reference.escape_char (N_of_ascii a) ++ tail)
  = Reference.prepend (utf8_encode (N_of_ascii a)) (Reference.read_string tail).
Proof.
  destruct a as [[] [] [] [] [] [] [] []]; intros H;
    try discriminate H; reflexivity.
Qed.

Lemma read_string_escape_char (c : N) (tail : string) :
  is_scalar_value c = true ->
  Reference.read_string (Reference.escape_char c ++ tail)
  = Reference.prepend (utf8_encode c) (Reference.read_string tail).
Proof.
  intros Hs. unfold is_scalar_value in Hs.
  apply andb_true_iff in Hs. destruct Hs as [Hmax Hsur].
  apply N.ltb_lt in Hmax. apply negb_true_iff in Hsur.
  destruct (N.ltb_spec c 128) as [Hsmall | Hbig].
  - rewrite <- (N_ascii_embedding c) by lia.
    apply read_string_ascii. rewrite N_ascii_embedding by lia.
    apply N.ltb_lt. exact Hsmall.
  - assert (E : Reference.escape_char c = Reference.unicode_escape c).
    { unfold Reference.escape_char.
      repeat match goal with
             | |- context [(c =? ?k)%N] =>
                 replace (c =? k)%N with false by (symmetry; apply N.eqb_neq; lia)
             end.
      replace (c <=? 126)%N with false by (symmetry; apply N.leb_gt; lia).
      rewrite andb_false_r. reflexivity. }
    rewrite E.
    destruct (N.ltb_spec c 65536) as [Hbmp | Hastral].
    + unfold Reference.unicode_escape.
      replace (c <? 65536)%N with true by (symmetry; apply N.ltb_lt; exact Hbmp).
      rewrite append_assoc. apply read_string_single; [exact Hbmp|].
      unfold Reference.is_high_surrogate. unfold is_surrogate in Hsur.
      apply andb_false_iff in Hsur. apply andb_false_iff.
      destruct Hsur as [H | H]; [left; exact H|].
      right. apply N.ltb_ge. apply N.ltb_ge in H. lia.
    + apply read_string_pair; assumption.
Qed.

Lemma read_string_characters (chars : list string) (rest : string) :
  forallb is_character chars = true ->
  Reference.read_string
    (fold_right (fun char tail => Reference.escape_char (code_point char) ++ tail)
       EmptyString chars ++ dq ++ rest)
  = Some (fold_right append EmptyString chars, rest).
Proof.
  induction chars as [|char chars IH]; intros H.
  - reflexivity.
  - cbn [forallb] in H. apply andb_true_iff in H. destruct H as [Hc Hrest].
    unfold is_character in Hc. apply andb_true_iff in Hc. destruct Hc as [He Hs].
    apply String.eqb_eq in He.
    cbn [fold_right]. rewrite append_assoc.
    rewrite read_string_escape_char by exact Hs.
    rewrite (IH Hrest). cbn [Reference.prepend]. rewrite He. reflexivity.
Qed.

Lemma read_string_escape (s rest : string) :
  is_text s = true ->
  Reference.read_string (Reference.escape s ++ dq ++ rest) = Some (s, rest).
Proof.
  intros H. unfold Reference.escape.
  rewrite (read_string_characters _ rest H), utf8_chars_concat. reflexivity.
Qed.

(** *** Numbers *)

Lemma digits2_size (m : positive) : digits2_pos m = Pos.size m.
Proof. induction m as [m IH | m IH |]; simpl; rewrite ?IH; reflexivity. Qed.

Lemma digits2_log2 (m : positive) :
  Z.pos (digits2_pos m) = (Z.log2 (Z.pos m) + 1)%Z.
Proof.
  rewrite digits2_size. destruct m as [m | m |]; simpl; try reflexivity;
    rewrite Pos2Z.inj_succ; lia.
Qed.

(** A ratio whose value is the binary64 number [m * 2^e] is read as that
    number. *)
Lemma binary64_exact (s : bool) (m : positive) (e N D : Z) :
  bounded prec emax m e = true ->
  (0 < D)%Z ->
  (N * 2 ^ Z.max (- e) 0 = Z.pos m * D * 2 ^ Z.max e 0)%Z ->
  Reference.binary64_of_ratio s N D = S754_finite s m e.
Proof.
  intros Hb HD Hv.
  unfold bounded, canonical_mantissa in Hb.
  apply andb_true_iff in Hb. destruct Hb as [Hcanon Hemax].
  apply Z.eqb_eq in Hcanon. apply Z.leb_le in Hemax.
  rewrite digits2_log2 in Hcanon.
  set (L := Z.log2 (Z.pos m)) in *.
  assert (HL : (0 <= L)%Z) by apply Z.log2_nonneg.
  destruct (Z.log2_spec (Z.pos m) ltac:(lia)) as [Hm1 Hm2]. fold L in Hm1, Hm2.
  unfold Z.succ in Hm2.
  set (a := Z.max (- e) 0) in *. set (b := Z.max e 0) in *.
  assert (HA : (0 < 2 ^ a)%Z) by (apply Z.pow_pos_nonneg; lia).
  assert (HB : (0 < 2 ^ b)%Z) by (apply Z.pow_pos_nonneg; lia).
  assert (HN : (0 < N)%Z).
  { assert (0 < N * 2 ^ a)%Z by (rewrite Hv; lia).
    destruct (Z.lt_trichotomy N 0) as [Hn | [Hn | Hn]]; [|subst N; lia | exact Hn].
    assert (N * 2 ^ a < 0)%Z by (apply Z.mul_neg_pos; assumption). lia. }
  set (K := (Z.log2 D + 1)%Z).
  assert (HK : (1 <= K)%Z) by (unfold K; pose proof (Z.log2_nonneg D); lia).
  assert (HC : (0 < 2 ^ K)%Z) by (apply Z.pow_pos_nonneg; lia).
  assert (HTK : (0 <= L + e + K)%Z).
  { destruct (Z.le_gt_cases 0 e) as [He | He]; [lia|].
    assert (Ha : a = (- e)%Z) by (unfold a; lia).
    assert (Hb0 : b = 0%Z) by (unfold b; lia).
    rewrite Ha, Hb0, Z.pow_0_r, Z.mul_1_r in Hv.
    assert (H1 : (2 ^ (- e) <= Z.pos m * D)%Z).
    { rewrite <- Hv. rewrite <- (Z.mul_1_l (2 ^ (- e))) at 1.
      apply Z.mul_le_mono_nonneg_r; [apply Z.pow_nonneg|]; lia. }
    apply Z.log2_le_mono in H1. rewrite Z.log2_pow2 in H1 by lia.
    pose proof (Z.log2_mul_above (Z.pos m) D ltac:(lia) ltac:(lia)) as H2.
    fold L in H2. unfold K. lia. }
  assert (Hlow : (2 ^ (L + e + K) * 2 ^ a = 2 ^ L * (2 ^ b * 2 ^ K))%Z).
  { rewrite <- !Z.pow_add_r by lia. f_equal. unfold a, b. lia. }
  assert (Hhigh : (2 ^ (L + e + K + 1) * 2 ^ a = 2 ^ (L + 1) * (2 ^ b * 2 ^ K))%Z).
  { rewrite <- !Z.pow_add_r by lia. f_equal. unfold a, b. lia. }
  assert (Ht : (Z.log2 (N * 2 ^ K / D) - K = L + e)%Z).
  { assert (E : Z.log2 (N * 2 ^ K / D) = (L + e + K)%Z); [|lia].
    apply Z.log2_unique; [exact HTK|]. unfold Z.succ. split.
    - apply Z.div_le_lower_bound; [exact HD|].
      apply (Z.mul_le_mono_pos_r _ _ (2 ^ a)); [exact HA|].
      replace (D * 2 ^ (L + e + K) * 2 ^ a)%Z
        with (2 ^ L * (D * (2 ^ b * 2 ^ K)))%Z
        by (transitivity (D * (2 ^ (L + e + K) * 2 ^ a))%Z; [rewrite Hlow|]; ring).
      replace (N * 2 ^ K * 2 ^ a)%Z with (Z.pos m * (D * (2 ^ b * 2 ^ K)))%Z
        by (transitivity (N * 2 ^ a * 2 ^ K)%Z; [rewrite Hv|]; ring).
      apply Z.mul_le_mono_nonneg_r; [|exact Hm1].
      apply Z.lt_le_incl. apply Z.mul_pos_pos; [exact HD|].
      apply Z.mul_pos_pos; assumption.
    - apply Z.div_lt_upper_bound; [exact HD|].
      apply (proj2 (Z.mul_lt_mono_pos_r (2 ^ a) _ _ HA)).
      replace (D * 2 ^ (L + e + K + 1) * 2 ^ a)%Z
        with (2 ^ (L + 1) * (D * (2 ^ b * 2 ^ K)))%Z
        by (transitivity (D * (2 ^ (L + e + K + 1) * 2 ^ a))%Z;
            [rewrite Hhigh|]; ring).
      replace (N * 2 ^ K * 2 ^ a)%Z with (Z.pos m * (D * (2 ^ b * 2 ^ K)))%Z
        by (transitivity (N * 2 ^ a * 2 ^ K)%Z; [rewrite Hv|]; ring).
      apply Z.mul_lt_mono_pos_r; [|exact Hm2].
      apply Z.mul_pos_pos; [exact HD|]. apply Z.mul_pos_pos; assumption. }
  unfold Reference.binary64_of_ratio.
  replace (N <=? 0)%Z with false by (symmetry; apply Z.leb_gt; exact HN).
  fold K. rewrite Ht.
  replace (L + e + 1)%Z with (L + 1 + e)%Z by ring. rewrite Hcanon.
  fold a b. cbv zeta.
  assert (Hden : (0 < D * 2 ^ b)%Z) by (apply Z.mul_pos_pos; assumption).
  replace (N * 2 ^ a)%Z with (Z.pos m * (D * 2 ^ b))%Z by (rewrite Hv; ring).
  rewrite Z.div_mul by lia. rewrite Z.mod_mul by lia.
  unfold Reference.round_to_even.
  replace (2 * 0 ?= D * 2 ^ b)%Z with Lt by (symmetry; apply Z.compare_lt_iff; lia).
  assert (Hsmall : (Z.pos m < 2 ^ prec)%Z).
  { apply Z.lt_le_trans with (1 := Hm2).
    apply Z.pow_le_mono_r; [lia|].
    unfold fexp, emin, prec, emax in Hcanon. unfold prec. lia. }
  replace (Z.pos m =? 2 ^ prec)%Z with false by (symmetry; apply Z.eqb_neq; lia).
  replace (Z.pos m =? 0)%Z with false by reflexivity.
  replace (emax - prec <? e)%Z with false by (symmetry; apply Z.ltb_ge; exact Hemax).
  reflexivity.
Qed.

Lemma digit_is_no_mark (c : ascii) :
  Reference.is_digit c = true ->
  Reference.is_space c = false
  /\ Ascii.eqb c "-" = false /\ Ascii.eqb c "." = false
  /\ Ascii.eqb c (ascii_of_nat 34) = false
  /\ Ascii.eqb c "[" = false /\ Ascii.eqb c "]" = false
  /\ Ascii.eqb c "{" = false /\ Ascii.eqb c "}" = false
  /\ Ascii.eqb "n" c = false /\ Ascii.eqb "t" c = false /\ Ascii.eqb "f" c = false
  /\ Ascii.eqb "N" c = false /\ Ascii.eqb "I" c = false /\ Ascii.eqb "-" c = false.
Proof.
  destruct c as [[] [] [] [] [] [] [] []]; intros H; try discriminate H;
    repeat split; reflexivity.
Qed.

Lemma zero_is_digit (c : ascii) :
  Reference.is_digit c = false -> Ascii.eqb c "0" = false.
Proof.
  intros H. destruct (Ascii.eqb_spec c "0") as [-> | ne]; [discriminate H | reflexivity].
Qed.

Lemma delimited_no_digit (rest : string) :
  delimited rest = true -> starts_with_digit rest = false.
Proof.
  destruct rest as [|c rest]; [reflexivity|]. unfold delimited, starts_with_digit.
  intros H. apply negb_true_iff in H.
  repeat (apply orb_false_iff in H; destruct H as [H _]). exact H.
Qed.

Lemma read_digits_stop (rest : string) (acc : Z) (n : nat) :
  starts_with_digit rest = false ->
  Reference.read_digits rest acc n = (acc, n, rest).
Proof.
  destruct rest as [|c rest]; [reflexivity|]. cbn [starts_with_digit Reference.read_digits].
  intros ->. reflexivity.
Qed.

Lemma read_digits_uint_pos (d : Decimal.uint) (rest : string) :
  starts_with_digit rest = false ->
  forall (p : positive) (n : nat),
    Reference.read_digits (NilEmpty.string_of_uint d ++ rest) (Z.pos p) n
    = (Z.pos (Pos.of_uint_acc d p), (n + Decimal.nb_digits d)%nat, rest).
Proof.
  intros Hrest.
  induction d as [|d IH|d IH|d IH|d IH|d IH|d IH|d IH|d IH|d IH|d IH]; intros p n;
    cbn [NilEmpty.string_of_uint append Decimal.nb_digits Pos.of_uint_acc];
    try (rewrite Nat.add_0_r; apply read_digits_stop; exact Hrest);
    cbn [Reference.read_digits];
    match goal with
    | |- context [Reference.is_digit ?c] => change (Reference.is_digit c) with true
    end;
    cbv iota; rewrite Nat.add_succ_r, <- Nat.add_succ_l;
    rewrite <- IH; f_equal;
    match goal with
    | |- context [Z.of_nat ?t] =>
        let v := eval vm_compute in (Z.of_nat t) in change (Z.of_nat t) with v
    end; lia.
Qed.

Lemma read_digits_uint (d : Decimal.uint) (rest : string) :
  starts_with_digit rest = false ->
  forall n : nat,
    Reference.read_digits (NilEmpty.string_of_uint d ++ rest) 0%Z n
    = (Z.of_N (Pos.of_uint d), (n + Decimal.nb_digits d)%nat, rest).
Proof.
  intros Hrest.
  induction d as [|d IH|d IH|d IH|d IH|d IH|d IH|d IH|d IH|d IH|d IH]; intros n;
    cbn [NilEmpty.string_of_uint append Decimal.nb_digits Pos.of_uint];
    try (rewrite Nat.add_0_r; apply read_digits_stop; exact Hrest);
    cbn [Reference.read_digits];
    match goal with
    | |- context [Reference.is_digit ?c] => change (Reference.is_digit c) with true
    end;
    cbv iota; rewrite Nat.add_succ_r, <- Nat.add_succ_l;
    first [ rewrite <- IH; reflexivity
          | match goal with
            | |- context [Pos.of_uint_acc d ?q] =>
                rewrite <- (read_digits_uint_pos d rest Hrest q); reflexivity
            end ].
Qed.

Lemma unorm_leading_zero (d l : Decimal.uint) :
  Decimal.unorm d = Decimal.D0 l -> l = Decimal.Nil.
Proof.
  induction d; simpl; intros H; try discriminate H; auto.
  injection H as <-. reflexivity.
Qed.

Lemma string_of_Z_pos (p : positive) :
  string_of_Z (Z.pos p) = NilEmpty.string_of_uint (Pos.to_uint p)
  /\ exists c t,
       NilEmpty.string_of_uint (Pos.to_uint p) = String c t
       /\ Reference.is_digit c = true /\ Ascii.eqb c "0" = false.
Proof.
  pose proof (DecimalPos.Unsigned.to_uint_nonzero p) as Hnz.
  pose proof (DecimalPos.Unsigned.to_of (Pos.to_uint p)) as Hnorm.
  rewrite DecimalPos.Unsigned.of_to in Hnorm. cbn [N.to_uint] in Hnorm.
  unfold string_of_Z. cbn [Z.to_int NilZero.string_of_int].
  destruct (Pos.to_uint p) as [|d|d|d|d|d|d|d|d|d|d] eqn:E;
    try (split; [reflexivity | do 2 eexists; split; [reflexivity | split; reflexivity]]).
  - discriminate Hnorm.
  - symmetry in Hnorm. apply unorm_leading_zero in Hnorm. subst d.
    exfalso. apply Hnz. reflexivity.
Qed.

Lemma read_integer_Z (z : Z) (rest : string) :
  (0 <= z)%Z -> starts_with_digit rest = false ->
  Reference.read_integer (string_of_Z z ++ rest) = Some (z, rest).
Proof.
  intros Hz Hrest. destruct z as [|p|p]; [reflexivity | | lia].
  destruct (string_of_Z_pos p) as (E & c & t & Ec & Hd & H0).
  rewrite E. pose proof (read_digits_uint (Pos.to_uint p) rest Hrest 0) as Hr.
  rewrite Ec in Hr |- *. cbn [append] in Hr |- *. unfold Reference.read_integer.
  rewrite H0, Hd, Hr. rewrite DecimalPos.Unsigned.of_to. reflexivity.
Qed.

Lemma read_digits_Z (z : Z) (rest : string) :
  (0 <= z)%Z -> starts_with_digit rest = false ->
  exists k, Reference.read_digits (string_of_Z z ++ rest) 0%Z 0 = (z, S k, rest).
Proof.
  intros Hz Hrest. destruct z as [|p|p]; [| | lia].
  - exists O. change (string_of_Z 0 ++ rest) with (String "0" rest).
    cbn [Reference.read_digits]. change (Reference.is_digit "0") with true. cbv iota.
    apply read_digits_stop. exact Hrest.
  - destruct (string_of_Z_pos p) as (E & c & t & Ec & _).
    rewrite E, (read_digits_uint _ rest Hrest 0), DecimalPos.Unsigned.of_to.
    destruct (Pos.to_uint p); try discriminate Ec; eexists; reflexivity.
Qed.

Lemma delimited_fraction (rest : string) (whole : Z) :
  delimited rest = true -> Reference.read_fraction rest whole = None.
Proof.
  destruct rest as [|c rest]; [reflexivity|]. unfold delimited, Reference.read_fraction.
  intros H. apply negb_true_iff in H.
  repeat (apply orb_false_iff in H; destruct H as [H ?]).
  replace (Ascii.eqb c ".") with false by (symmetry; assumption). reflexivity.
Qed.

Lemma delimited_exponent (rest : string) :
  delimited rest = true -> Reference.read_exponent rest = None.
Proof.
  destruct rest as [|c rest]; [reflexivity|]. unfold delimited, Reference.read_exponent.
  intros H. apply negb_true_iff in H.
  repeat (apply orb_false_iff in H; destruct H as [H ?]).
  replace (Ascii.eqb c "e") with false by (symmetry; assumption).
  replace (Ascii.eqb c "E") with false by (symmetry; assumption). reflexivity.
Qed.

Lemma read_number_int (z : Z) (rest : string) :
  delimited rest = true ->
  Reference.read_number (string_of_Z z ++ rest) = Some (PyInt z, rest).
Proof.
  intros Hrest. pose proof (delimited_no_digit rest Hrest) as Hnd.
  unfold Reference.read_number. destruct z as [|p|p].
  - change (string_of_Z 0 ++ rest) with (String "0" rest).
    cbv iota beta zeta. change (Ascii.eqb "0" "-") with false.
    cbv iota. cbn [fst snd].
    change (Reference.read_integer (String "0" rest)) with (Some (0%Z, rest)).
    cbv iota beta.
    rewrite delimited_fraction, delimited_exponent by exact Hrest. reflexivity.
  - pose proof (read_integer_Z (Z.pos p) rest ltac:(lia) Hnd) as Hi.
    destruct (string_of_Z_pos p) as (E & c & t & Ec & Hd & _).
    rewrite E in Hi |- *. rewrite Ec in Hi |- *. cbn [append] in Hi |- *.
    destruct (digit_is_no_mark c Hd) as (_ & Hm & _). rewrite Hm. cbn [fst snd].
    rewrite Hi. rewrite delimited_fraction, delimited_exponent by exact Hrest.
    reflexivity.
  - pose proof (read_integer_Z (Z.pos p) rest ltac:(lia) Hnd) as Hi.
    destruct (string_of_Z_pos p) as (E & _). rewrite E in Hi.
    replace (string_of_Z (Z.neg p))
      with (String "-" (NilEmpty.string_of_uint (Pos.to_uint p))).
    + cbn [append]. change (Ascii.eqb "-" "-") with true. cbv iota. cbn [fst snd].
      rewrite Hi. rewrite delimited_fraction, delimited_exponent by exact Hrest.
      reflexivity.
    + unfold string_of_Z. cbn [Z.to_int NilZero.string_of_int].
      change (Z.pos p) with (Z.pos p) in E. unfold string_of_Z in E.
      cbn [Z.to_int NilZero.string_of_int] in E. rewrite E. reflexivity.
Qed.

Lemma read_digits_app (s rest : string) :
  starts_with_digit rest = false ->
  forall (acc : Z) (n : nat),
    Reference.read_digits (s ++ rest) acc n
    = match Reference.read_digits s acc n with
      | (value, count, s') => (value, count, s' ++ rest)
      end.
Proof.
  intros Hrest. induction s as [|c s IH]; intros acc n.
  - cbn [append Reference.read_digits]. apply read_digits_stop. exact Hrest.
  - cbn [append Reference.read_digits]. destruct (Reference.is_digit c).
    + apply IH.
    + reflexivity.
Qed.

Lemma read_integer_app (s rest : string) :
  starts_with_digit rest = false ->
  Reference.read_integer (s ++ rest)
  = match Reference.read_integer s with
    | Some (whole, s') => Some (whole, s' ++ rest)
    | None => None
    end.
Proof.
  intros Hrest. destruct s as [|c s].
  - destruct rest as [|d rest]; [reflexivity|].
    cbn [starts_with_digit] in Hrest. cbn [append Reference.read_integer].
    rewrite (zero_is_digit d Hrest), Hrest. reflexivity.
  - cbn [append Reference.read_integer].
    destruct (Ascii.eqb c "0"); [reflexivity|].
    destruct (Reference.is_digit c); [|reflexivity].
    change (String c (s ++ rest)) with (String c s ++ rest).
    rewrite (read_digits_app (String c s) rest Hrest).
    destruct (Reference.read_digits (String c s) 0 0) as [[whole count] s'].
    reflexivity.
Qed.

Lemma read_fraction_app (s rest : string) (whole : Z) :
  delimited rest = true ->
  Reference.read_fraction (s ++ rest) whole
  = match Reference.read_fraction s whole with
    | Some (digits, places, s') => Some (digits, places, s' ++ rest)
    | None => None
    end.
Proof.
  intros Hrest. destruct s as [|c s].
  - cbn [append]. rewrite delimited_fraction by exact Hrest. reflexivity.
  - cbn [append Reference.read_fraction]. destruct (Ascii.eqb c "."); [|reflexivity].
    rewrite (read_digits_app s rest (delimited_no_digit rest Hrest)).
    destruct (Reference.read_digits s whole 0) as [[digits [|places]] s'];
      reflexivity.
Qed.

Lemma delimited_no_sign (c : ascii) (rest : string) :
  delimited (String c rest) = true ->
  Ascii.eqb c "-" = false /\ Ascii.eqb c "+" = false.
Proof.
  unfold delimited. intros H. apply negb_true_iff in H.
  repeat (apply orb_false_iff in H; destruct H as [H ?]). split; assumption.
Qed.

Lemma read_exponent_app (s rest : string) :
  delimited rest = true ->
  Reference.read_exponent (s ++ rest)
  = match Reference.read_exponent s with
    | Some (exponent, s') => Some (exponent, s' ++ rest)
    | None => None
    end.
Proof.
  intros Hrest. pose proof (delimited_no_digit rest Hrest) as Hnd.
  destruct s as [|c s].
  - cbn [append]. rewrite delimited_exponent by exact Hrest. reflexivity.
  - cbn [append Reference.read_exponent].
    destruct (Ascii.eqb c "e" || Ascii.eqb c "E"); [|reflexivity].
    destruct s as [|d body].
    + cbn [append snd fst Reference.read_digits].
      destruct rest as [|d rest]; [reflexivity|].
      destruct (delimited_no_sign d rest Hrest) as [-> ->]. cbn [snd fst].
      rewrite (read_digits_stop (String d rest) 0 0 Hnd). reflexivity.
    + cbn [append].
      destruct (Ascii.eqb d "-"); [|destruct (Ascii.eqb d "+")]; cbn [snd fst].
      * rewrite (read_digits_app body rest Hnd).
        destruct (Reference.read_digits body 0 0) as [[value [|count]] s'];
          reflexivity.
      * rewrite (read_digits_app body rest Hnd).
        destruct (Reference.read_digits body 0 0) as [[value [|count]] s'];
          reflexivity.
      * change (String d (body ++ rest)) with (String d body ++ rest).
        rewrite (read_digits_app (String d body) rest Hnd).
        destruct (Reference.read_digits (String d body) 0 0) as [[value [|count]] s'];
          reflexivity.
Qed.

(** Reading a number does not depend on what follows its delimiter. *)
Lemma read_number_app (s rest : string) :
  delimited rest = true ->
  Reference.read_number (s ++ rest)
  = match Reference.read_number s with
    | Some (v, s') => Some (v, s' ++ rest)
    | None => None
    end.
Proof.
  intros Hrest. pose proof (delimited_no_digit rest Hrest) as Hnd.
  assert (Hbody : forall (negative : bool) (body : string),
    match Reference.read_integer (body ++ rest) with
    | None => None
    | Some (whole, after_whole) =>
        match Reference.read_fraction after_whole whole with
        | Some (digits, places, after_fraction) =>
            match Reference.read_exponent after_fraction with
            | Some (exponent, rest') =>
                Some (PyFloat (Reference.float_of_decimal negative digits
                                 (exponent - Z.of_nat places)), rest')
            | None =>
                Some (PyFloat (Reference.float_of_decimal negative digits
                                 (- Z.of_nat places)), after_fraction)
            end
        | None =>
            match Reference.read_exponent after_whole with
            | Some (exponent, rest') =>
                Some (PyFloat (Reference.float_of_decimal negative whole exponent),
                      rest')
            | None =>
                Some (PyInt (if negative then (- whole)%Z else whole), after_whole)
            end
        end
    end
    = match
        match Reference.read_integer body with
        | None => None
        | Some (whole, after_whole) =>
            match Reference.read_fraction after_whole whole with
            | Some (digits, places, after_fraction) =>
                match Reference.read_exponent after_fraction with
                | Some (exponent, rest') =>
                    Some (PyFloat (Reference.float_of_decimal negative digits
                                     (exponent - Z.of_nat places)), rest')
                | None =>
                    Some (PyFloat (Reference.float_of_decimal negative digits
                                     (- Z.of_nat places)), after_fraction)
                end
            | None =>
                match Reference.read_exponent after_whole with
                | Some (exponent, rest') =>
                    Some (PyFloat (Reference.float_of_decimal negative whole exponent),
                          rest')
                | None =>
                    Some (PyInt (if negative then (- whole)%Z else whole), after_whole)
                end
            end
        end
      with
      | Some (v, s') => Some (v, s' ++ rest)
      | None => None
      end).
  { intros negative body. rewrite (read_integer_app body rest Hnd).
    destruct (Reference.read_integer body) as [[whole after_whole]|]; [|reflexivity].
    rewrite (read_fraction_app after_whole rest whole Hrest).
    destruct (Reference.read_fraction after_whole whole)
      as [[[digits places] after_fraction]|].
    - rewrite (read_exponent_app after_fraction rest Hrest).
      destruct (Reference.read_exponent after_fraction) as [[exponent rest']|];
        reflexivity.
    - rewrite (read_exponent_app after_whole rest Hrest).
      destruct (Reference.read_exponent after_whole) as [[exponent rest']|];
        reflexivity. }
  unfold Reference.read_number. destruct s as [|c s].
  - cbn [append]. cbn [snd fst].
    specialize (Hbody false EmptyString). cbn [append] in Hbody.
    destruct rest as [|d rest]; [exact Hbody|].
    destruct (delimited_no_sign d rest Hrest) as [-> _]. cbn [snd fst]. exact Hbody.
  - cbn [append]. destruct (Ascii.eqb c "-"); cbn [snd fst].
    + apply Hbody.
    + apply (Hbody false (String c s)).
Qed.

Lemma reads_as_read_number (x : float) (text : string) :
  Reference.reads_as x text = true ->
  Reference.read_number text = Some (PyFloat x, EmptyString).
Proof.
  unfold Reference.reads_as.
  destruct (Reference.read_number text) as [[v r]|]; [|discriminate].
  destruct v; try discriminate. destruct r; [|discriminate].
  intros H. apply FloatAxioms.Leibniz.eqb_spec in H. subst. reflexivity.
Qed.

Lemma shortest_reads_back (lengths : nat) :
  forall (n : Z) (x : float) (sign : string) (m e point : Z) (text : string),
    Reference.shortest lengths n x sign m e point = Some text ->
    Reference.reads_as x text = true.
Proof.
  induction lengths as [|more IH]; intros n x sign m e point text; [discriminate|].
  cbn [Reference.shortest]. cbv zeta.
  destruct (Reference.reads_as x
              (Reference.decimal_text sign
                 (Reference.scaled_floor m e (- (point - n))) (point - n))) eqn:Elow;
    destruct (Reference.reads_as x
                (Reference.decimal_text sign
                   (Reference.scaled_floor m e (- (point - n)) + 1) (point - n)))
      eqn:Ehigh.
  - destruct (Reference.nearer_low m e _ (point - n)); intros [= <-]; assumption.
  - intros [= <-]. assumption.
  - intros [= <-]. assumption.
  - apply IH.
Qed.

(** The exact value of a float is read back as that float. *)
Lemma read_number_exact_text
    (f : float) (s : bool) (m : positive) (e : Z) (rest : string) :
  Prim2SF f = S754_finite s m e ->
  delimited rest = true ->
  Reference.read_number
    (Reference.exact_text (if s then "-" else "") (Z.pos m) e ++ rest)
  = Some (PyFloat f, rest).
Proof.
  intros Hf Hrest. pose proof (delimited_no_digit rest Hrest) as Hnd.
  pose proof (Prim2SF_valid f) as Hvalid. rewrite Hf in Hvalid.
  cbn [SpecFloat.valid_binary] in Hvalid.
  set (k := Z.max (- e) 0).
  set (W := (Z.pos m * 2 ^ Z.max e 0 * 5 ^ k)%Z).
  assert (Hk : (0 <= k)%Z) by (unfold k; lia).
  assert (HW : (0 < W)%Z).
  { unfold W. apply Z.mul_pos_pos; [apply Z.mul_pos_pos; [lia|]|];
      apply Z.pow_pos_nonneg; lia. }
  assert (Hvalue : Reference.float_of_decimal s W (- k) = f).
  { unfold Reference.float_of_decimal.
    rewrite <- (SF2Prim_Prim2SF f), Hf. f_equal.
    destruct (Z.leb_spec 0 (- k)) as [H0 | H0].
    - assert (k = 0%Z) by lia.
      apply binary64_exact; [exact Hvalid | lia|].
      unfold W. fold k. replace k with 0%Z by lia.
      replace (- 0)%Z with 0%Z by lia. rewrite !Z.pow_0_r. ring.
    - apply binary64_exact; [exact Hvalid | apply Z.pow_pos_nonneg; lia|].
      assert (He : (e < 0)%Z) by (unfold k in H0; lia).
      unfold W. fold k. replace (Z.max e 0) with 0%Z by lia.
      replace (- - k)%Z with k by lia.
      change 10%Z with (2 * 5)%Z. rewrite Z.pow_mul_l, !Z.pow_0_r. ring. }
  assert (Hbody :
    forall negative : bool,
      match
        Reference.read_integer
          (string_of_Z W ++ String "e" (String "-" (string_of_Z k ++ rest)))
      with
      | None => None
      | Some (whole, after_whole) =>
          match Reference.read_fraction after_whole whole with
          | Some (digits, places, after_fraction) =>
              match Reference.read_exponent after_fraction with
              | Some (exponent, rest') =>
                  Some (PyFloat (Reference.float_of_decimal negative digits
                                   (exponent - Z.of_nat places)), rest')
              | None =>
                  Some (PyFloat (Reference.float_of_decimal negative digits
                                   (- Z.of_nat places)), after_fraction)
              end
          | None =>
              match Reference.read_exponent after_whole with
              | Some (exponent, rest') =>
                  Some (PyFloat (Reference.float_of_decimal negative whole exponent),
                        rest')
              | None =>
                  Some (PyInt (if negative then (- whole)%Z else whole), after_whole)
              end
          end
      end
      = Some (PyFloat (Reference.float_of_decimal negative W (- k)), rest)).
  { intros negative.
    rewrite (read_integer_Z W (String "e" (String "-" (string_of_Z k ++ rest)))
               ltac:(lia) eq_refl).
    cbn [Reference.read_fraction]. change (Ascii.eqb "e" ".") with false. cbv iota.
    cbn [Reference.read_exponent].
    change (Ascii.eqb "e" "e" || Ascii.eqb "e" "E") with true.
    change (Ascii.eqb "-" "-") with true. cbv iota. cbn [snd fst].
    destruct (read_digits_Z k rest Hk Hnd) as [count ->]. reflexivity. }
  unfold Reference.exact_text. fold k W. unfold Reference.read_number.
  destruct s.
  - rewrite !append_assoc. cbn [append].
    change (Ascii.eqb "-" "-") with true. cbv iota. cbn [snd fst].
    rewrite Hbody, Hvalue. reflexivity.
  - rewrite !append_assoc. cbn [append].
    destruct W as [|p|p]; try lia.
    destruct (string_of_Z_pos p) as (E & c & t & Ec & Hd & _).
    specialize (Hbody false). rewrite E, Ec in Hbody |- *. cbn [append] in Hbody |- *.
    destruct (digit_is_no_mark c Hd) as (_ & Hm & _). rewrite Hm. cbn [snd fst].
    rewrite Hbody, Hvalue. reflexivity.
Qed.

Lemma integer_head (body : string) (r : Z * string) :
  Reference.read_integer body = Some r -> starts_with_digit body = true.
Proof.
  destruct body as [|c body]; [discriminate|].
  cbn [Reference.read_integer starts_with_digit].
  destruct (Ascii.eqb_spec c "0") as [-> | _]; [reflexivity|].
  destruct (Reference.is_digit c); [reflexivity | discriminate].
Qed.

Lemma number_head (text : string) (r : pyval * string) :
  Reference.read_number text = Some r ->
  exists c t,
    text = String c t
    /\ (Reference.is_digit c = true \/ (c = "-"%char /\ starts_with_digit t = true)).
Proof.
  unfold Reference.read_number. destruct text as [|c t]; [discriminate|].
  intros H. exists c, t. split; [reflexivity|].
  destruct (Ascii.eqb_spec c "-") as [-> | _]; cbn [snd fst] in H.
  - right. split; [reflexivity|].
    destruct (Reference.read_integer t) as [r'|] eqn:E; [|discriminate].
    apply (integer_head t r' E).
  - left. destruct (Reference.read_integer (String c t)) as [r'|] eqn:E; [|discriminate].
    apply (integer_head _ r' E).
Qed.

Lemma read_atom_number (text : string) (r : pyval * string) :
  Reference.read_number text = Some r -> Reference.read_atom text = Some r.
Proof.
  intros H. destruct (number_head text r H) as (c & t & -> & [Hd | [-> Hd]]).
  - unfold Reference.read_atom, Reference.constants.
    cbn [fold_right fst snd Reference.after_word].
    destruct (digit_is_no_mark c Hd)
      as (_ & _ & _ & _ & _ & _ & _ & _ & -> & -> & -> & -> & -> & ->).
    exact H.
  - destruct t as [|d t]; [discriminate Hd|]. cbn [starts_with_digit] in Hd.
    unfold Reference.read_atom, Reference.constants.
    cbn [fold_right fst snd Reference.after_word].
    change (Ascii.eqb "n" "-") with false. change (Ascii.eqb "t" "-") with false.
    change (Ascii.eqb "f" "-") with false. change (Ascii.eqb "N" "-") with false.
    change (Ascii.eqb "I" "-") with false. change (Ascii.eqb "-" "-") with true.
    cbv iota.
    destruct (digit_is_no_mark d Hd)
      as (_ & _ & _ & _ & _ & _ & _ & _ & _ & _ & _ & _ & -> & _).
    exact H.
Qed.

Lemma float_text_finite
    (f : float) (s : bool) (m : positive) (e : Z) (rest : string) :
  Prim2SF f = S754_finite s m e ->
  delimited rest = true ->
  Reference.read_number (Reference.float_text f ++ rest) = Some (PyFloat f, rest).
Proof.
  intros Hf Hrest. unfold Reference.float_text. rewrite Hf.
  destruct (Reference.shortest 17 1 f (if s then "-" else "") (Z.pos m) e
              (Reference.decimal_point (Z.pos m) e)) as [text|] eqn:E.
  - apply shortest_reads_back in E. apply reads_as_read_number in E.
    rewrite (read_number_app text rest Hrest), E. reflexivity.
  - apply (read_number_exact_text f s m e rest Hf Hrest).
Qed.

(** A float is read back from its text. *)
Lemma read_atom_float_text (f : float) (rest : string) :
  delimited rest = true ->
  Reference.read_atom (Reference.float_text f ++ rest) = Some (PyFloat f, rest).
Proof.
  intros Hrest. destruct (Prim2SF f) as [s | s | | s m e] eqn:Hf.
  - apply read_atom_number.
    assert (Ef : f = SF2Prim (S754_zero s))
      by (rewrite <- Hf; symmetry; apply SF2Prim_Prim2SF).
    unfold Reference.float_text. rewrite Hf.
    pose proof (delimited_no_digit rest Hrest) as Hnd.
    destruct s.
    + change ("-0.0" ++ rest) with (String "-" (String "0" (String "." (String "0" rest)))).
      unfold Reference.read_number. cbv beta iota zeta.
      change (Ascii.eqb "-" "-") with true. cbv iota. cbn [snd fst].
      cbn [Reference.read_integer]. change (Ascii.eqb "0" "0") with true. cbv iota.
      cbn [Reference.read_fraction]. change (Ascii.eqb "." ".") with true. cbv iota.
      cbn [Reference.read_digits]. change (Reference.is_digit "0") with true. cbv iota.
      rewrite (read_digits_stop rest _ _ Hnd).
      rewrite (delimited_exponent rest Hrest). rewrite Ef. reflexivity.
    + change ("0.0" ++ rest) with (String "0" (String "." (String "0" rest))).
      unfold Reference.read_number. cbv beta iota zeta.
      change (Ascii.eqb "0" "-") with false. cbv iota. cbn [snd fst].
      cbn [Reference.read_integer]. change (Ascii.eqb "0" "0") with true. cbv iota.
      cbn [Reference.read_fraction]. change (Ascii.eqb "." ".") with true. cbv iota.
      cbn [Reference.read_digits]. change (Reference.is_digit "0") with true. cbv iota.
      rewrite (read_digits_stop rest _ _ Hnd).
      rewrite (delimited_exponent rest Hrest). rewrite Ef. reflexivity.
  - assert (Ef : f = SF2Prim (S754_infinity s))
      by (rewrite <- Hf; symmetry; apply SF2Prim_Prim2SF).
    unfold Reference.float_text. rewrite Hf, Ef. destruct s; reflexivity.
  - assert (Ef : f = SF2Prim S754_nan)
      by (rewrite <- Hf; symmetry; apply SF2Prim_Prim2SF).
    unfold Reference.float_text. rewrite Hf, Ef. reflexivity.
  - apply read_atom_number. apply (float_text_finite f s m e rest Hf Hrest).
Qed.

(** *** Documents *)

Lemma skip_ws_spaces (n : nat) (s : string) :
  Reference.skip_ws (Reference.spaces n ++ s) = Reference.skip_ws s.
Proof. induction n as [|n IH]; [reflexivity | exact IH]. Qed.

Lemma skip_ws_indent (n : nat) (s : string) :
  Reference.skip_ws (nl ++ Reference.spaces n ++ s) = Reference.skip_ws s.
Proof. exact (skip_ws_spaces n s). Qed.

Lemma skip_ws_idempotent (s : string) :
  Reference.skip_ws (Reference.skip_ws s) = Reference.skip_ws s.
Proof.
  induction s as [|c s IH]; [reflexivity|]. cbn [Reference.skip_ws].
  destruct (Reference.is_space c) eqn:E; [exact IH|].
  cbn [Reference.skip_ws]. rewrite E. reflexivity.
Qed.

Lemma read_value_skip_ws (fuel : nat) (s : string) :
  Reference.read_value fuel (Reference.skip_ws s) = Reference.read_value fuel s.
Proof.
  destruct fuel as [|k]; [reflexivity|]. cbn [Reference.read_value].
  rewrite skip_ws_idempotent. reflexivity.
Qed.

Lemma length_append (a b : string) :
  String.length (a ++ b) = (String.length a + String.length b)%nat.
Proof. induction a as [|c a IH]; [reflexivity|]. cbn. rewrite IH. reflexivity. Qed.

Lemma pyval_induction (P : pyval -> Prop) :
  P PyNone ->
  (forall b, P (PyBool b)) ->
  (forall z, P (PyInt z)) ->
  (forall f, P (PyFloat f)) ->
  (forall s, P (PyStr s)) ->
  (forall l, Forall P l -> P (PyList l)) ->
  (forall d, Forall (fun kv : string * pyval => P (snd kv)) d -> P (PyDict d)) ->
  forall v, P v.
Proof.
  intros HNone HBool HInt HFloat HStr HList HDict.
  fix IH 1. intros [ | b | z | f | s | l | d].
  - exact HNone.
  - apply HBool.
  - apply HInt.
  - apply HFloat.
  - apply HStr.
  - apply HList.
    exact ((fix items (l : list pyval) : Forall P l :=
              match l with
              | [] => Forall_nil P
              | x :: rest => Forall_cons x (IH x) (items rest)
              end) l).
  - apply HDict.
    exact ((fix members (d : list (string * pyval))
              : Forall (fun kv : string * pyval => P (snd kv)) d :=
              match d with
              | [] => Forall_nil _
              | kv :: rest => Forall_cons kv (IH (snd kv)) (members rest)
              end) d).
Qed.

Lemma number_opens (text : string) (r : pyval * string) :
  Reference.read_number text = Some r -> opens_value text = true.
Proof.
  intros H. destruct (number_head text r H) as (c & t & -> & [Hd | [-> _]]).
  - unfold opens_value.
    destruct (digit_is_no_mark c Hd) as (-> & _ & _ & _ & _ & -> & _ & -> & _).
    reflexivity.
  - reflexivity.
Qed.

Lemma dumps_at_opens (v : pyval) (level : nat) :
  opens_value (Reference.dumps_at level v) = true.
Proof.
  destruct v as [ | [] | z | f | s | [|x l] | [|kv d]]; try reflexivity.
  - apply (number_opens _ (PyInt z, EmptyString)).
    rewrite <- (append_nil_r (Reference.dumps_at level (PyInt z))).
    apply read_number_int. reflexivity.
  - cbn [Reference.dumps_at]. destruct (Prim2SF f) as [s | s | | s m e] eqn:Hf.
    + unfold Reference.float_text. rewrite Hf. destruct s; reflexivity.
    + unfold Reference.float_text. rewrite Hf. destruct s; reflexivity.
    + unfold Reference.float_text. rewrite Hf. reflexivity.
    + apply (number_opens _ (PyFloat f, EmptyString)).
      rewrite <- (append_nil_r (Reference.float_text f)).
      apply (float_text_finite f s m e EmptyString Hf). reflexivity.
Qed.

Lemma opens_skip_ws (text rest : string) :
  opens_value text = true -> Reference.skip_ws (text ++ rest) = text ++ rest.
Proof.
  destruct text as [|c t]; [discriminate|]. unfold opens_value. intros H.
  apply negb_true_iff in H. apply orb_false_iff in H. destruct H as [H _].
  apply orb_false_iff in H. destruct H as [H _].
  cbn [append Reference.skip_ws]. rewrite H. reflexivity.
Qed.

Lemma opens_length (text : string) :
  opens_value text = true -> (1 <= String.length text)%nat.
Proof. destruct text; [discriminate|]. intros _. cbn. lia. Qed.

Lemma read_atom_rejects (c : ascii) (t : string) :
  Reference.is_space c || Ascii.eqb c (ascii_of_nat 34) || Ascii.eqb c "["
  || Ascii.eqb c "{" = true ->
  Reference.read_atom (String c t) = None.
Proof.
  destruct c as [[] [] [] [] [] [] [] []]; intros H; try discriminate H; reflexivity.
Qed.

Lemma read_value_atom (k : nat) (s : string) (r : pyval * string) :
  Reference.read_atom s = Some r -> Reference.read_value (S k) s = Some r.
Proof.
  intros H. destruct s as [|c t]; [discriminate H|].
  destruct (Reference.is_space c || Ascii.eqb c (ascii_of_nat 34) || Ascii.eqb c "["
            || Ascii.eqb c "{") eqn:E.
  - rewrite (read_atom_rejects c t E) in H. discriminate H.
  - apply orb_false_iff in E. destruct E as [E E3].
    apply orb_false_iff in E. destruct E as [E E2].
    apply orb_false_iff in E. destruct E as [E0 E1].
    cbn [Reference.read_value Reference.skip_ws]. rewrite E0, E1, E2, E3. exact H.
Qed.

Lemma read_value_indent (fuel n : nat) (s : string) :
  Reference.read_value fuel (nl ++ Reference.spaces n ++ s)
  = Reference.read_value fuel s.
Proof.
  rewrite <- read_value_skip_ws, skip_ws_indent. apply read_value_skip_ws.
Qed.

Lemma read_value_space (fuel : nat) (s : string) :
  Reference.read_value fuel (String " " s) = Reference.read_value fuel s.
Proof.
  rewrite <- read_value_skip_ws. change (Reference.skip_ws (String " " s))
    with (Reference.skip_ws s). apply read_value_skip_ws.
Qed.

Lemma weight_positive (v : pyval) : (1 <= weight v)%nat.
Proof. destruct v; cbn [weight]; try apply Nat.le_refl; apply le_n_S, Nat.le_0_l. Qed.

Lemma length_le_weights (l : list pyval) :
  (length l <= list_sum (map weight l))%nat.
Proof.
  induction l as [|x l IH]; [apply Nat.le_refl|].
  change (list_sum (map weight (x :: l))) with (weight x + list_sum (map weight l))%nat.
  cbn [length]. pose proof (weight_positive x). lia.
Qed.

Lemma str_join_cons (sep a b : string) (l : list string) :
  str_join sep (a :: b :: l) = a ++ sep ++ str_join sep (b :: l).
Proof. reflexivity. Qed.

Lemma skip_ws_comma (s : string) :
  Reference.skip_ws ("," ++ s) = String "," s.
Proof. reflexivity. Qed.

(** The items of a list are read back, up to the closing bracket. *)
Lemma read_items_dumps (k level closing : nat) (rest : string) (xs : list pyval) :
  forall (x : pyval) (j : nat),
    Forall (fun y =>
              forall rest', delimited rest' = true ->
                Reference.read_value k (Reference.dumps_at (S level) y ++ rest')
                = Some (y, rest')) (x :: xs) ->
    (length (x :: xs) <= j)%nat ->
    Reference.read_items (Reference.read_value k) j
      (nl ++ Reference.spaces (2 * S level)
       ++ str_join ("," ++ nl ++ Reference.spaces (2 * S level))
            (map (Reference.dumps_at (S level)) (x :: xs))
       ++ nl ++ Reference.spaces closing ++ "]" ++ rest)
    = Some (x :: xs, rest).
Proof.
  induction xs as [|y ys IH]; intros x j Hall Hj.
  - destruct j as [|j]; [cbn in Hj; lia|].
    apply Forall_inv in Hall.
    cbn [map str_join Reference.read_items].
    rewrite read_value_indent.
    rewrite (Hall (nl ++ Reference.spaces closing ++ "]" ++ rest) eq_refl).
    rewrite skip_ws_indent.
    change (Reference.skip_ws ("]" ++ rest)) with (String "]" rest).
    reflexivity.
  - destruct j as [|j]; [cbn in Hj; lia|].
    pose proof (Forall_inv Hall) as Hx. apply Forall_inv_tail in Hall.
    cbn beta in Hx.
    cbn [map] in IH |- *. rewrite str_join_cons.
    cbn [Reference.read_items].
    rewrite read_value_indent. rewrite !append_assoc.
    match goal with
    | |- context [Reference.read_value k (Reference.dumps_at (S level) x ++ ?t)] =>
        rewrite (Hx t eq_refl)
    end.
    rewrite skip_ws_comma. cbv beta iota.
    change (Ascii.eqb "," ",") with true. cbv iota.
    rewrite (IH y j Hall ltac:(cbn [length] in Hj |- *; lia)). reflexivity.
Qed.

Lemma read_members_member
    (value : string -> option (pyval * string)) (j n : nat) (key body : string) :
  is_text key = true ->
  Reference.read_members value (S j)
    (nl ++ Reference.spaces n ++ dq ++ Reference.escape key ++ dq ++ ": " ++ body)
  = match value (String " " body) with
    | Some (x, rest') =>
        match Reference.skip_ws rest' with
        | String d more =>
            if Ascii.eqb d "," then
              match Reference.read_members value j more with
              | Some (xs, r) => Some ((key, x) :: xs, r)
              | None => None
              end
            else if Ascii.eqb d "}" then Some ([(key, x)], more)
            else None
        | EmptyString => None
        end
    | None => None
    end.
Proof.
  intros Hkey. cbn [Reference.read_members]. rewrite skip_ws_indent.
  change (Reference.skip_ws (dq ++ Reference.escape key ++ dq ++ ": " ++ body))
    with (String (ascii_of_nat 34) (Reference.escape key ++ dq ++ ": " ++ body)).
  cbv beta iota.
  change (Ascii.eqb (ascii_of_nat 34) (ascii_of_nat 34)) with true. cbv iota.
  rewrite (read_string_escape key (": " ++ body) Hkey).
  reflexivity.
Qed.

(** The members of a dictionary are read back, up to the closing brace. *)
Lemma read_members_dumps (k level closing : nat) (rest : string)
    (d : list (string * pyval)) :
  forall (kv : string * pyval) (j : nat),
    Forall (fun member : string * pyval =>
              is_text (fst member) = true
              /\ forall rest', delimited rest' = true ->
                   Reference.read_value k
                     (Reference.dumps_at (S level) (snd member) ++ rest')
                   = Some (snd member, rest')) (kv :: d) ->
    (length (kv :: d) <= j)%nat ->
    Reference.read_members (Reference.read_value k) j
      (nl ++ Reference.spaces (2 * S level)
       ++ str_join ("," ++ nl ++ Reference.spaces (2 * S level))
            (map (fun member : string * pyval =>
                    let (key, x) := member in
                    dq ++ Reference.escape key ++ dq ++ ": "
                    ++ Reference.dumps_at (S level) x) (kv :: d))
       ++ nl ++ Reference.spaces closing ++ "}" ++ rest)
    = Some (kv :: d, rest).
Proof.
  induction d as [|next d IH]; intros [key x] j Hall Hj.
  - destruct j as [|j]; [cbn in Hj; lia|].
    apply Forall_inv in Hall. cbn [fst snd] in Hall. destruct Hall as [Hkey Hx].
    cbn [map str_join]. rewrite !append_assoc.
    rewrite (read_members_member _ j _ key _ Hkey).
    rewrite read_value_space.
    rewrite (Hx (nl ++ Reference.spaces closing ++ "}" ++ rest) eq_refl).
    rewrite skip_ws_indent.
    change (Reference.skip_ws ("}" ++ rest)) with (String "}" rest).
    reflexivity.
  - destruct j as [|j]; [cbn in Hj; lia|].
    pose proof (Forall_inv Hall) as Hhead. apply Forall_inv_tail in Hall.
    cbn [fst snd] in Hhead. destruct Hhead as [Hkey Hx].
    cbn [map] in IH |- *. rewrite str_join_cons. rewrite !append_assoc.
    rewrite (read_members_member _ j _ key _ Hkey).
    rewrite read_value_space.
    match goal with
    | |- context [Reference.read_value k (Reference.dumps_at (S level) x ++ ?t)] =>
        rewrite (Hx t eq_refl)
    end.
    rewrite skip_ws_comma. cbv beta iota.
    change (Ascii.eqb "," ",") with true. cbv iota.
    rewrite (IH next j Hall ltac:(cbn [length] in Hj |- *; lia)). reflexivity.
Qed.

Lemma distinct_app_fresh (before after : list string) (k : string) :
  distinct (before ++ k :: after) = true ->
  existsb (String.eqb k) before = false.
Proof.
  induction before as [|a before IH]; [reflexivity|].
  cbn [app distinct existsb]. intros H. apply andb_true_iff in H. destruct H as [Ha H].
  rewrite (IH H), orb_false_r.
  apply negb_true_iff in Ha. rewrite existsb_app in Ha.
  apply orb_false_iff in Ha. destruct Ha as [_ Ha]. cbn [existsb] in Ha.
  apply orb_false_iff in Ha. destruct Ha as [Ha _].
  rewrite String.eqb_sym. exact Ha.
Qed.

Lemma dict_set_fresh (k : string) (v : pyval) (d : pydict) :
  existsb (String.eqb k) (map fst d) = false ->
  dict_set k v d = (d ++ [(k, v)])%list.
Proof.
  induction d as [|[k' v'] d IH]; [reflexivity|].
  cbn [map fst existsb dict_set app]. intros H.
  apply orb_false_iff in H. destruct H as [-> H]. rewrite (IH H). reflexivity.
Qed.

Lemma dict_of_members_from (members : list (string * pyval)) :
  forall acc : pydict,
    distinct (map fst acc ++ map fst members) = true ->
    fold_left (fun d member => dict_set (fst member) (snd member) d) members acc
    = (acc ++ members)%list.
Proof.
  induction members as [|[k v] members IH]; intros acc H.
  - cbn [fold_left]. rewrite app_nil_r. reflexivity.
  - cbn [fold_left fst snd]. cbn [map fst] in H.
    rewrite (dict_set_fresh k v acc (distinct_app_fresh _ _ _ H)).
    rewrite IH.
    + rewrite <- app_assoc. reflexivity.
    + rewrite map_app, <- app_assoc. exact H.
Qed.

Lemma dict_of_members_distinct (d : pydict) :
  distinct (map fst d) = true -> Reference.dict_of_members d = d.
Proof. intros H. apply (dict_of_members_from d [] H). Qed.

Lemma weight_in_list (x : pyval) (l : list pyval) :
  In x l -> (weight x <= list_sum (map weight l))%nat.
Proof.
  induction l as [|y l IH]; [intros []|].
  change (list_sum (map weight (y :: l))) with (weight y + list_sum (map weight l))%nat.
  intros [-> | H]; [lia | specialize (IH H); lia].
Qed.

Lemma weight_in_dict (kv : string * pyval) (d : list (string * pyval)) :
  In kv d ->
  (weight (snd kv)
   <= list_sum (map (fun member : string * pyval => weight (snd member)) d))%nat.
Proof.
  induction d as [|y d IH]; [intros []|].
  change (list_sum (map (fun member : string * pyval => weight (snd member)) (y :: d)))
    with (weight (snd y)
          + list_sum (map (fun member : string * pyval => weight (snd member)) d))%nat.
  intros [-> | H]; [lia | specialize (IH H); lia].
Qed.

Lemma length_le_weights_dict (d : list (string * pyval)) :
  (length d
   <= list_sum (map (fun member : string * pyval => weight (snd member)) d))%nat.
Proof.
  induction d as [|x d IH]; [apply Nat.le_refl|].
  change (list_sum (map (fun member : string * pyval => weight (snd member)) (x :: d)))
    with (weight (snd x)
          + list_sum (map (fun member : string * pyval => weight (snd member)) d))%nat.
  cbn [length]. pose proof (weight_positive (snd x)). lia.
Qed.

(** Every document is read back from its text, whatever the indentation,
    with enough fuel and before anything that ends a number. *)
Lemma read_value_dumps_at (v : pyval) :
  json_document v = true ->
  forall (level fuel : nat) (rest : string),
    (weight v <= fuel)%nat ->
    delimited rest = true ->
    Reference.read_value fuel (Reference.dumps_at level v ++ rest) = Some (v, rest).
Proof.
  induction v as [ | b | z | f | s | l IH | d IH] using pyval_induction;
    intros Hdoc level fuel rest Hfuel Hrest;
    (destruct fuel as [|k]; [pose proof (weight_positive PyNone); cbn in Hfuel; lia|]).
  - reflexivity.
  - destruct b; reflexivity.
  - apply read_value_atom, read_atom_number, read_number_int. exact Hrest.
  - apply read_value_atom, read_atom_float_text. exact Hrest.
  - cbn [Reference.dumps_at]. rewrite !append_assoc.
    cbn [Reference.read_value].
    change (Reference.skip_ws (dq ++ Reference.escape s ++ dq ++ rest))
      with (String (ascii_of_nat 34) (Reference.escape s ++ dq ++ rest)).
    cbv beta iota.
    change (Ascii.eqb (ascii_of_nat 34) (ascii_of_nat 34)) with true. cbv iota.
    rewrite (read_string_escape s rest Hdoc). reflexivity.
  - destruct l as [|x xs]; [reflexivity|].
    cbn [json_document] in Hdoc. cbn [weight] in Hfuel. apply le_S_n in Hfuel.
    assert (Hitems :
      Forall (fun y =>
                forall rest', delimited rest' = true ->
                  Reference.read_value k (Reference.dumps_at (S level) y ++ rest')
                  = Some (y, rest')) (x :: xs)).
    { rewrite Forall_forall in IH |- *. intros y Hin rest' Hd.
      apply (IH y Hin).
      - rewrite forallb_forall in Hdoc. apply Hdoc. exact Hin.
      - pose proof (weight_in_list y (x :: xs) Hin). lia.
      - exact Hd. }
    assert (Hlen : (length (x :: xs) <= k)%nat)
      by (pose proof (length_le_weights (x :: xs)); lia).
    pose proof (read_items_dumps k level (2 * level) rest xs x k Hitems Hlen) as Hread.
    change (Reference.dumps_at level (PyList (x :: xs)))
      with ("[" ++ nl ++ Reference.spaces (2 * S level)
            ++ str_join ("," ++ nl ++ Reference.spaces (2 * S level))
                 (map (Reference.dumps_at (S level)) (x :: xs))
            ++ nl ++ Reference.spaces (2 * level) ++ "]").
    rewrite !append_assoc.
    cbn [Reference.read_value].
    match goal with
    | |- context [Reference.skip_ws ("[" ++ ?t)] =>
        change (Reference.skip_ws ("[" ++ t)) with (String "[" t)
    end.
    cbv beta iota. change (Ascii.eqb "[" (ascii_of_nat 34)) with false.
    change (Ascii.eqb "[" "[") with true. cbv iota.
    rewrite skip_ws_indent. cbn [map]. 
    assert (Hopen : exists c t,
               str_join ("," ++ nl ++ Reference.spaces (2 * S level))
                 (Reference.dumps_at (S level) x
                  :: map (Reference.dumps_at (S level)) xs) = String c t
               /\ Reference.is_space c = false /\ Ascii.eqb c "]" = false).
    { pose proof (dumps_at_opens x (S level)) as Ho.
      destruct (Reference.dumps_at (S level) x) as [|c t] eqn:E; [discriminate Ho|].
      unfold opens_value in Ho. apply negb_true_iff in Ho.
      apply orb_false_iff in Ho. destruct Ho as [Ho _].
      apply orb_false_iff in Ho. destruct Ho as [Hs Hb].
      destruct xs as [|y ys].
      - exists c, t. repeat split; assumption.
      - cbn [map]. rewrite str_join_cons. eexists c, _. repeat split; assumption. }
    destruct Hopen as (c & t & Ejoin & Hspace & Hclose).
    cbn [map] in Hread. rewrite Ejoin in Hread |- *.
    cbn [append Reference.skip_ws]. rewrite Hspace, Hclose.
    cbn [append] in Hread. rewrite Hread. reflexivity.
  - destruct d as [|kv d]; [reflexivity|].
    cbn [json_document] in Hdoc. apply andb_true_iff in Hdoc.
    destruct Hdoc as [Hkeys Hdoc].
    cbn [weight] in Hfuel. apply le_S_n in Hfuel.
    assert (Hmembers :
      Forall (fun member : string * pyval =>
                is_text (fst member) = true
                /\ forall rest', delimited rest' = true ->
                     Reference.read_value k
                       (Reference.dumps_at (S level) (snd member) ++ rest')
                     = Some (snd member, rest')) (kv :: d)).
    { rewrite Forall_forall in IH |- *. intros member Hin.
      rewrite forallb_forall in Hdoc. specialize (Hdoc member Hin).
      apply andb_true_iff in Hdoc. destruct Hdoc as [Hkey Hvalue].
      split; [exact Hkey|]. intros rest' Hd.
      apply (IH member Hin Hvalue).
      - pose proof (weight_in_dict member (kv :: d) Hin). lia.
      - exact Hd. }
    assert (Hlen : (length (kv :: d) <= k)%nat)
      by (pose proof (length_le_weights_dict (kv :: d)); lia).
    pose proof (read_members_dumps k level (2 * level) rest d kv k Hmembers Hlen)
      as Hread.
    change (Reference.dumps_at level (PyDict (kv :: d)))
      with ("{" ++ nl ++ Reference.spaces (2 * S level)
            ++ str_join ("," ++ nl ++ Reference.spaces (2 * S level))
                 (map (fun member : string * pyval =>
                         let (key, x) := member in
                         dq ++ Reference.escape key ++ dq ++ ": "
                         ++ Reference.dumps_at (S level) x) (kv :: d))
            ++ nl ++ Reference.spaces (2 * level) ++ "}").
    rewrite !append_assoc.
    cbn [Reference.read_value].
    match goal with
    | |- context [Reference.skip_ws ("{" ++ ?t)] =>
        change (Reference.skip_ws ("{" ++ t)) with (String "{" t)
    end.
    cbv beta iota. change (Ascii.eqb "{" (ascii_of_nat 34)) with false.
    change (Ascii.eqb "{" "[") with false. change (Ascii.eqb "{" "{") with true.
    cbv iota.
    rewrite skip_ws_indent.
    assert (Hopen : exists t,
               str_join ("," ++ nl ++ Reference.spaces (2 * S level))
                 (map (fun member : string * pyval =>
                         let (key, x) := member in
                         dq ++ Reference.escape key ++ dq ++ ": "
                         ++ Reference.dumps_at (S level) x) (kv :: d))
               = String (ascii_of_nat 34) t).
    { destruct kv as [key x]. destruct d as [|next d].
      - eexists. reflexivity.
      - cbn [map]. rewrite str_join_cons. eexists. reflexivity. }
    destruct Hopen as (t & Ejoin).
    rewrite Ejoin in Hread |- *.
    cbn [append Reference.skip_ws].
    change (Reference.is_space (ascii_of_nat 34)) with false. cbv iota.
    change (Ascii.eqb (ascii_of_nat 34) "}") with false. cbv iota.
    cbn [append] in Hread. rewrite Hread.
    rewrite (dict_of_members_distinct (kv :: d) Hkeys). reflexivity.
Qed.

Lemma weights_le_join (sep : string) (texts : list string) (weights : list nat) :
  Forall2 (fun (w : nat) (text : string) => (w <= String.length text)%nat)
    weights texts ->
  (list_sum weights <= String.length (str_join sep texts))%nat.
Proof.
  induction 1 as [|w text weights texts Hw Hrest IH]; [apply Nat.le_refl|].
  change (list_sum (w :: weights)) with (w + list_sum weights)%nat.
  destruct texts as [|next texts].
  - inversion Hrest. subst. cbn [str_join list_sum fold_right]. lia.
  - rewrite str_join_cons, !length_append. lia.
Qed.

Lemma weight_le_length (v : pyval) :
  forall level : nat, (weight v <= String.length (Reference.dumps_at level v))%nat.
Proof.
  induction v as [ | b | z | f | s | l IH | d IH] using pyval_induction; intros level;
    try (apply opens_length, dumps_at_opens).
  - destruct l as [|x xs]; [cbn; lia|].
    change (Reference.dumps_at level (PyList (x :: xs)))
      with ("[" ++ nl ++ Reference.spaces (2 * S level)
            ++ str_join ("," ++ nl ++ Reference.spaces (2 * S level))
                 (map (Reference.dumps_at (S level)) (x :: xs))
            ++ nl ++ Reference.spaces (2 * level) ++ "]").
    cbn [weight]. rewrite !length_append.
    assert (H : (list_sum (map weight (x :: xs))
                 <= String.length
                      (str_join ("," ++ nl ++ Reference.spaces (2 * S level))
                         (map (Reference.dumps_at (S level)) (x :: xs))))%nat).
    { apply weights_le_join.
      induction IH as [|y ys Hy Hys IHys]; cbn [map]; constructor; auto. }
    change (String.length "[") with 1%nat. lia.
  - destruct d as [|kv d]; [cbn; lia|].
    change (Reference.dumps_at level (PyDict (kv :: d)))
      with ("{" ++ nl ++ Reference.spaces (2 * S level)
            ++ str_join ("," ++ nl ++ Reference.spaces (2 * S level))
                 (map (fun member : string * pyval =>
                         let (key, x) := member in
                         dq ++ Reference.escape key ++ dq ++ ": "
                         ++ Reference.dumps_at (S level) x) (kv :: d))
            ++ nl ++ Reference.spaces (2 * level) ++ "}").
    cbn [weight]. rewrite !length_append.
    assert (H : (list_sum (map (fun member : string * pyval => weight (snd member))
                             (kv :: d))
                 <= String.length
                      (str_join ("," ++ nl ++ Reference.spaces (2 * S level))
                         (map (fun member : string * pyval =>
                                 let (key, x) := member in
                                 dq ++ Reference.escape key ++ dq ++ ": "
                                 ++ Reference.dumps_at (S level) x) (kv :: d))))%nat).
    { apply weights_le_join.
      induction IH as [|[key y] ys Hy Hys IHys]; cbn [map]; constructor; auto.
      cbn [snd] in Hy |- *. rewrite !length_append. specialize (Hy (S level)). lia. }
    change (String.length "{") with 1%nat. lia.
Qed.

(** [json.loads(json.dumps(v, indent=2)) == v] *)
Lemma loads_dumps (v : pyval) :
  json_document v = true -> Reference.loads (Reference.dumps v) = Some v.
Proof.
  intros Hdoc. unfold Reference.loads, Reference.dumps.
  pose proof (weight_le_length v 0) as Hw.
  pose proof (read_value_dumps_at v Hdoc 0
                (S (String.length (Reference.dumps_at 0 v))) EmptyString
                ltac:(lia) eq_refl) as Hread.
  rewrite append_nil_r in Hread. rewrite Hread. reflexivity.
Qed.

(** The codec on sample values: the texts [float.__repr__] gives, and the
    values [json.loads] gives. *)
Lemma float_text_samples :
  Reference.float_text (PrimFloat.div (float_of_Z 1) (float_of_Z 10)) = "0.1"
  /\ Reference.float_text (PrimFloat.div (float_of_Z 100) (float_of_Z 3))
     = "33.333333333333336"
  /\ Reference.float_text (float_of_Z 100) = "100.0"
  /\ Reference.float_text (float_of_Z 1000000000000000) = "1000000000000000.0"
  /\ Reference.float_text (float_of_Z 10000000000000000) = "1e+16"
  /\ Reference.float_text (PrimFloat.div (float_of_Z 1) (float_of_Z 10000)) = "0.0001"
  /\ Reference.float_text (PrimFloat.div (float_of_Z 1) (float_of_Z 100000)) = "1e-05"
  /\ Reference.float_text
       (PrimFloat.opp (PrimFloat.div (float_of_Z 3) (float_of_Z 20000000)))
     = "-1.5e-07"
  /\ Reference.float_text 0x1p-1074 = "5e-324"
  /\ Reference.float_text 0x1.fffffffffffffp+1023 = "1.7976931348623157e+308".
Proof. vm_compute. repeat split. Qed.

Lemma read_number_samples :
  Reference.read_number "0.1"
  = Some (PyFloat (PrimFloat.div (float_of_Z 1) (float_of_Z 10)), "")
  /\ Reference.read_number "33.33333333333333]"
     = Some (PyFloat 0x1.0aaaaaaaaaaaap+5, "]")
  /\ Reference.read_number "2.5E+2," = Some (PyFloat (float_of_Z 250), ",")
  /\ Reference.read_number "1e999" = Some (PyFloat infinity, "")
  /\ Reference.read_number "-0.0" = Some (PyFloat neg_zero, "")
  /\ Reference.read_number "-12" = Some (PyInt (-12), "")
  /\ Reference.read_number "012" = Some (PyInt 0, "12")
  /\ Reference.read_number "1.e5" = Some (PyInt 1, ".e5")
  /\ Reference.read_number ".5" = None.
Proof. vm_compute. repeat split. Qed.

Lemma binary64_of_ratio_samples :
  Reference.binary64_of_ratio false 1 3
  = Prim2SF (PrimFloat.div (float_of_Z 1) (float_of_Z 3))
  /\ Reference.binary64_of_ratio false 7 1000003
     = Prim2SF (PrimFloat.div (float_of_Z 7) (float_of_Z 1000003))
  /\ Reference.binary64_of_ratio true 9007199254740991 3
     = Prim2SF
         (PrimFloat.opp (PrimFloat.div (float_of_Z 9007199254740991) (float_of_Z 3)))
  /\ Reference.binary64_of_ratio false 9007199254740993 1
     = Prim2SF (float_of_Z 9007199254740992).
Proof. vm_compute. repeat split. Qed.

Lemma loads_samples :
  Reference.loads ("{" ++ dq ++ "a" ++ dq ++ ": 1, " ++ dq ++ "b" ++ dq ++ ": [true, null], "
                   ++ dq ++ "a" ++ dq ++ ": 2.5}")
  = Some (PyDict [ ("a", PyFloat (PrimFloat.div (float_of_Z 5) (float_of_Z 2)));
                   ("b", PyList [PyBool true; PyNone]) ])
  /\ Reference.loads ("[" ++ dq ++ "é😀\n" ++ dq ++ "]")
     = Some (PyList [PyStr ("é😀" ++ nl)])
  /\ Reference.loads "[1, 2,]" = None
  /\ Reference.loads "{ invalid json content" = None.
Proof. vm_compute. repeat split. Qed.

(** ** Claims about the store *)

Lemma well_formed_progress_inv (v : pyval) :
  well_formed_progress v = true ->
  exists d cm sk h,
    v = PyDict d
    /\ assoc "completed_modules" d = Some (PyList cm)
    /\ assoc "skills_acquired" d = Some (PyList sk)
    /\ assoc "session_history" d = Some (PyList h).
Proof.
  unfold well_formed_progress, is_list, py_field.
  destruct v; try discriminate.
  destruct (assoc "completed_modules" d) as [[| | | | |cm|]|] eqn:E1; try discriminate.
  destruct (assoc "skills_acquired" d) as [[| | | | |sk|]|] eqn:E2; try discriminate.
  destruct (assoc "session_history" d) as [[| | | | |h|]|] eqn:E3; try discriminate.
  intros _. exists d, cm, sk, h. repeat split; assumption.
Qed.

(** C4: after two successive completions of a module whose id was in
    [completed_modules] at most once, the id is there exactly once and the
    second call appended nothing; on the first completion of a configured
    module the id is appended, [current_progress] becomes the number of
    completed modules divided by the number of configured modules, times
    100, and the topics listed for that module in the configuration are
    merged into [skills_acquired], each appended only when no equal item is
    present. *)
Theorem complete_twice_counts_once
    (rt : runtime) (config : Config) (now1 now2 : string) (id : option string)
    (w : world) (cm : list pyval) :
  field_of "completed_modules" w = Some (PyList cm) ->
  (count_eq (py_of_id id) cm <= 1)%nat ->
  let w1 := fst (update_user_progress rt config now1 id "complete" w) in
  let w2 := fst (update_user_progress rt config now2 id "complete" w1) in
  (exists cm2,
      field_of "completed_modules" w2 = Some (PyList cm2)
      /\ count_eq (py_of_id id) cm2 = 1%nat)
  /\ field_of "completed_modules" w2 = field_of "completed_modules" w1
  /\ (forall s m sk ts,
         id = Some s ->
         assoc s (modules config) = Some m ->
         assoc "topics" m = Some (PyList ts) ->
         occurs (PyStr s) cm = false ->
         field_of "skills_acquired" w = Some (PyList sk) ->
         field_of "completed_modules" w1 = Some (PyList (cm ++ [PyStr s]))
         /\ field_of "current_progress" w1
            = Some (PyFloat
                      (PrimFloat.mul
                         (PrimFloat.div
                            (float_of_Z (Z.of_nat (S (length cm))))
                            (float_of_Z (Z.of_nat (length (modules config)))))
                         (float_of_Z 100)))
         /\ field_of "skills_acquired" w1 = Some (PyList (merge_skills sk ts))
         /\ (exists added,
                merge_skills sk ts = (sk ++ added)%list /\ all_fresh sk added = true)
         /\ (forall t, In t ts -> py_eqb t t = true ->
                       occurs t (merge_skills sk ts) = true)).
Proof.
  intros Hcm Hcount w1 w2.
  set (pid := py_of_id id) in *.
  set (cm1 := if occurs pid cm then cm else (cm ++ [pid])%list).
  assert (H1 : field_of "completed_modules" w1 = Some (PyList cm1)).
  { unfold w1. rewrite update_field by discriminate.
    change (String.eqb "complete" "complete") with true. cbv iota.
    apply completed_after_complete. exact Hcm. }
  assert (Hocc : occurs pid cm1 = true).
  { unfold cm1. destruct (occurs pid cm) eqn:E; [exact E|].
    rewrite occurs_app. simpl. unfold pid. rewrite py_eqb_id_refl.
    apply orb_true_r. }
  assert (Hone : count_eq pid cm1 = 1%nat).
  { unfold cm1. destruct (occurs pid cm) eqn:E; rewrite occurs_count in E.
    - destruct (count_eq pid cm) as [|[|n]]; [discriminate | reflexivity | lia].
    - rewrite count_eq_snoc. unfold pid at 2 3. rewrite py_eqb_id_refl.
      destruct (count_eq pid cm); [reflexivity | discriminate]. }
  assert (H2 : field_of "completed_modules" w2 = Some (PyList cm1)).
  { unfold w2. rewrite update_field by discriminate.
    change (String.eqb "complete" "complete") with true. cbv iota.
    rewrite (completed_after_complete config id w1 cm1 H1).
    fold pid. rewrite Hocc. reflexivity. }
  split; [exists cm1; split; assumption|].
  split; [rewrite H1, H2; reflexivity|].
  intros s m sk ts Hid Hmod Htopics Hfresh Hsk.
  assert (Hpid : pid = PyStr s) by (unfold pid; rewrite Hid; reflexivity).
  rewrite <- Hpid in Hfresh |- *.
  assert (Hm : modules config <> [])
    by (intros E; rewrite E in Hmod; discriminate).
  assert (Hts : py_iter (dict_get_default (module_of config id) "topics" (PyList []))
                = Ok ts).
  { rewrite Hid. simpl module_of. rewrite Hmod.
    unfold dict_get_default. rewrite Htopics. reflexivity. }
  split; [rewrite H1; unfold cm1; rewrite Hfresh; reflexivity|].
  assert (Hrun : forall key, key <> "session_history" ->
            field_of key w1
            = assoc key (after_completion config pid cm sk ts
                           match user_progress w with PyDict d => d | _ => [] end)).
  { intros key ne. unfold w1. rewrite update_field by exact ne.
    change (String.eqb "complete" "complete") with true. cbv iota.
    destruct w as [up f]. destruct up; try discriminate.
    change {| user_progress := PyDict d; disk := f |} with (mk d f).
    rewrite (run_complete_fresh config id d f cm sk ts Hcm Hsk Hfresh Hm Hts).
    reflexivity. }
  split; [|split; [|split]].
  - rewrite Hrun by discriminate. unfold after_completion.
    rewrite assoc_dict_set_other by discriminate. apply assoc_dict_set_same.
  - rewrite Hrun by discriminate. apply assoc_dict_set_same.
  - apply merge_skills_extends.
  - intros t. apply topics_occur_after_merge.
Qed.

Lemma complete_twice_counts_once_witness :
  let start :=
    mk [ ("completed_modules", PyList []);
         ("current_progress", PyInt 0);
         ("skills_acquired", PyList [PyStr "Quality Metrics"]);
         ("session_history", PyList []) ]
       (disk fresh_world) in
  let once :=
    fst (update_user_progress Reference.rt sample_config "2024-01-01T10:00:00"
           (Some "ai_best_practices") "complete" start) in
  let twice :=
    fst (update_user_progress Reference.rt sample_config "2024-01-01T10:05:00"
           (Some "ai_best_practices") "complete" once) in
  field_of "completed_modules" twice = Some (PyList [PyStr "ai_best_practices"])
  /\ field_of "current_progress" once = Some (PyFloat 0x1.0aaaaaaaaaaaap+5)
  /\ field_of "skills_acquired" once
     = Some (PyList [ PyStr "Quality Metrics"; PyStr "Prompt Design for QA";
                      PyStr "Workflow Integration"; PyStr "Smart Decision Making";
                      PyStr "AI Model Selection" ]).
Proof.
  intros start once twice.
  destruct (complete_twice_counts_once Reference.rt sample_config
              "2024-01-01T10:00:00" "2024-01-01T10:05:00"
              (Some "ai_best_practices") start [] eq_refl (Nat.le_0_l 1))
    as (_ & Hsame & Hfirst).
  destruct (Hfirst "ai_best_practices"
              (module_record "Best Practices with AI"
                 "Effective and safe AI usage in QA workflows"
                 [ "Prompt Design for QA"; "Workflow Integration";
                   "Smart Decision Making"; "AI Model Selection"; "Quality Metrics" ]
                 true "beginner")
              [PyStr "Quality Metrics"]
              (map PyStr [ "Prompt Design for QA"; "Workflow Integration";
                           "Smart Decision Making"; "AI Model Selection";
                           "Quality Metrics" ])
              eq_refl eq_refl eq_refl eq_refl eq_refl)
    as (Hcompleted & Hprogress & Hskills & _).
  split; [|split].
  - unfold twice, once. rewrite Hsame. exact Hcompleted.
  - exact Hprogress.
  - exact Hskills.
Defined.

Lemma save_then_load_with (rt : runtime) (p : pyval) (f : file_state) :
  writable f = true ->
  readable f = true ->
  json_loads rt (json_dumps rt p) = Some p ->
  snd (save_user_progress rt p f) = Ok tt
  /\ contents (fst (save_user_progress rt p f)) = Some (json_dumps rt p)
  /\ load_user_progress rt (fst (save_user_progress rt p f)) = p.
Proof.
  intros Hw Hr Hj. unfold save_user_progress, open_write. rewrite Hw. simpl.
  split; [reflexivity|]. split; [reflexivity|].
  unfold load_user_progress, open_read. simpl. rewrite Hr, Hj. reflexivity.
Qed.

(** C5: for every progress document [p] that JSON can carry (strings and
    keys are text, the keys of a dictionary are distinct, no float is NaN),
    whatever its fields hold, saving [p] to a file that can be written and
    read and then loading returns [p]: every field reads back with the value
    it had, floats bit for bit.  The codec is the one of the program,
    [json.dump(..., indent=2)] and [json.load]. *)
Theorem save_then_load (p : pyval) (f : file_state) :
  json_document p = true ->
  writable f = true ->
  readable f = true ->
  let saved := save_user_progress Reference.rt p f in
  snd saved = Ok tt
  /\ contents (fst saved) = Some (Reference.dumps p)
  /\ load_user_progress Reference.rt (fst saved) = p
  /\ forall key, py_field key (load_user_progress Reference.rt (fst saved))
                 = py_field key p.
Proof.
  intros Hdoc Hw Hr saved.
  destruct (save_then_load_with Reference.rt p f Hw Hr (loads_dumps p Hdoc))
    as (Hsaved & Htext & Hloaded).
  fold saved in Hsaved, Htext, Hloaded.
  split; [exact Hsaved|]. split; [exact Htext|]. split; [exact Hloaded|].
  intros key. rewrite Hloaded. reflexivity.
Qed.

Lemma save_then_load_witness :
  let p :=
    user_progress
      (fst (update_user_progress Reference.rt sample_config "2024-01-01T10:00:00"
              (Some "ai_best_practices") "complete" fresh_world)) in
  let saved := save_user_progress Reference.rt p (disk fresh_world) in
  py_field "current_progress" p = Some (PyFloat 0x1.0aaaaaaaaaaaap+5)
  /\ py_field "completed_modules" p = Some (PyList [PyStr "ai_best_practices"])
  /\ match contents (fst saved) with
     | Some text =>
         str_contains (dq ++ "current_progress" ++ dq ++ ": 33.33333333333333,") text
     | None => false
     end = true
  /\ load_user_progress Reference.rt (fst saved) = p.
Proof.
  intros p saved.
  destruct (save_then_load p (disk fresh_world)) as (_ & Htext & Hloaded & _);
    try (vm_compute; reflexivity).
  fold saved in Htext, Hloaded.
  split; [vm_compute; reflexivity|]. split; [vm_compute; reflexivity|].
  split; [rewrite Htext; vm_compute; reflexivity | exact Hloaded].
Defined.

(** C6: when the document is missing, cannot be read, or does not parse,
    loading returns the default record: no current module, no completed
    modules, progress 0, every other collection empty, and the intermediate
    difficulty level in the preferences. *)
Theorem load_defaults_when_unreadable (rt : runtime) (f : file_state) :
  contents f = None
  \/ readable f = false
  \/ (exists text, contents f = Some text /\ json_loads rt text = None) ->
  let p := load_user_progress rt f in
  p = default_progress
  /\ py_field "current_module" p = Some PyNone
  /\ py_field "completed_modules" p = Some (PyList [])
  /\ py_field "current_progress" p = Some (PyInt 0)
  /\ py_field "skills_acquired" p = Some (PyList [])
  /\ py_field "assessments_completed" p = Some (PyList [])
  /\ py_field "hands_on_projects" p = Some (PyList [])
  /\ py_field "session_history" p = Some (PyList [])
  /\ py_field "bookmarks" p = Some (PyList [])
  /\ py_field "notes" p = Some (PyDict [])
  /\ (exists prefs,
         py_field "preferences" p = Some prefs
         /\ py_field "difficulty_level" prefs = Some (PyStr "intermediate")
         /\ py_field "focus_areas" prefs = Some (PyList [])).
Proof.
  intros H p.
  assert (E : p = default_progress).
  { unfold p, load_user_progress, open_read.
    destruct H as [H | [H | [text [H1 H2]]]].
    - rewrite H. reflexivity.
    - destruct (contents f); [rewrite H|]; reflexivity.
    - rewrite H1. destruct (readable f); [rewrite H2|]; reflexivity. }
  rewrite E. repeat split. eexists. repeat split.
Qed.

Lemma load_defaults_when_unreadable_witness :
  load_user_progress Reference.rt
    {| contents := Some "{ invalid json content"; readable := true; writable := true |}
  = default_progress.
Proof.
  refine (proj1 (load_defaults_when_unreadable Reference.rt _ _)).
  right. right. exists "{ invalid json content". split; reflexivity.
Defined.

(** C7: on a well-formed progress record and a writable file, every module
    id and every action give the confirmation string
    "Progress updated: <action> for module <id>", one more history entry
    {timestamp, module, action} and the whole document written; an action
    other than "start" and "complete" changes nothing else.  A completion
    divides by the number of modules and loops over the module's topics, so
    for "complete" the configuration has at least one module and the topics
    it lists for that module, if any, can be iterated. *)
Theorem update_returns_confirmation
    (rt : runtime) (config : Config) (now : string) (id : option string)
    (action : string) (w : world) :
  well_formed_progress (user_progress w) = true ->
  writable (disk w) = true ->
  (action = "complete" ->
   modules config <> []
   /\ forall s m v,
        id = Some s -> assoc s (modules config) = Some m ->
        assoc "topics" m = Some v -> exists ts, py_iter v = Ok ts) ->
  let out := update_user_progress rt config now id action w in
  let entry :=
    PyDict [ ("timestamp", PyStr now);
             ("module", match id with Some s => PyStr s | None => PyNone end);
             ("action", PyStr action) ] in
  snd out
  = Ok ("Progress updated: " ++ action ++ " for module "
        ++ match id with Some s => s | None => "None" end)
  /\ contents (disk (fst out)) = Some (json_dumps rt (user_progress (fst out)))
  /\ (forall h,
         field_of "session_history" w = Some (PyList h) ->
         field_of "session_history" (fst out) = Some (PyList (h ++ [entry])))
  /\ (action <> "complete" -> action <> "start" ->
      (forall d h,
          user_progress w = PyDict d ->
          assoc "session_history" d = Some (PyList h) ->
          user_progress (fst out)
          = PyDict (dict_set "session_history" (PyList (h ++ [entry])) d))
      /\ (forall key, key <> "session_history" ->
            field_of key (fst out) = field_of key w)).
Proof.
  intros Hwf Hw Hcfg out entry.
  assert (Hentry : entry = history_entry now id action)
    by (destruct id; reflexivity).
  assert (Hconf : "Progress updated: " ++ action ++ " for module "
                  ++ match id with Some s => s | None => "None" end
                  = confirmation rt id action)
    by (destruct id; reflexivity).
  rewrite Hentry, Hconf. clear Hentry Hconf entry.
  destruct (well_formed_progress_inv _ Hwf) as (d & cm & sk & h & Hd & Hcm & Hsk & Hh).
  destruct w as [up f]. simpl in Hd, Hw. subst up.
  change {| user_progress := PyDict d; disk := f |} with (mk d f) in *.
  assert (Hrun : exists d1,
             out = (mk (with_entry (history_entry now id action) h d1)
                       (written f (json_dumps rt
                          (PyDict (with_entry (history_entry now id action) h d1)))),
                    Ok (confirmation rt id action))
             /\ (action <> "complete" -> action <> "start" -> d1 = d)).
  { unfold out. destruct (String.eqb action "complete") eqn:Ec.
    - apply String.eqb_eq in Ec. destruct (Hcfg Ec) as [Hm Hit].
      assert (Hts : exists ts,
                 py_iter (dict_get_default (module_of config id) "topics" (PyList []))
                 = Ok ts).
      { unfold module_of, dict_get_default.
        destruct id as [s|]; [|exists []; reflexivity].
        destruct (assoc s (modules config)) as [m|] eqn:Hmod;
          [|exists []; reflexivity].
        destruct (assoc "topics" m) as [v|] eqn:Hv; [|exists []; reflexivity].
        exact (Hit s m v eq_refl Hmod Hv). }
      destruct Hts as [ts Hts]. clear Hit.
      destruct (occurs (py_of_id id) cm) eqn:Hocc.
      + exists d. split; [|intros ne; contradiction].
        apply run_update; [|exact Hh | exact Hw].
        subst action. change (String.eqb "complete" "complete") with true. cbv iota.
        apply (run_complete_again config id d f cm Hcm Hocc).
      + exists (after_completion config (py_of_id id) cm sk ts d).
        split; [|intros ne; contradiction].
        apply run_update; [| |exact Hw].
        * subst action. change (String.eqb "complete" "complete") with true. cbv iota.
          apply (run_complete_fresh config id d f cm sk ts Hcm Hsk Hocc Hm Hts).
        * unfold after_completion.
          rewrite !assoc_dict_set_other by discriminate. exact Hh.
    - destruct (String.eqb action "start") eqn:Es.
      + exists (dict_set "current_module" (py_of_id id) d).
        split; [|intros _ ne; apply String.eqb_eq in Es; contradiction].
        apply run_update; [| |exact Hw].
        * rewrite Ec, Es. reflexivity.
        * rewrite assoc_dict_set_other by discriminate. exact Hh.
      + exists d. split; [|reflexivity].
        apply run_update; [|exact Hh | exact Hw].
        rewrite Ec, Es. reflexivity. }
  destruct Hrun as (d1 & -> & Hsame). simpl.
  split; [reflexivity|]. split; [reflexivity|]. split.
  - intros h' Hh'. unfold field_of in Hh'. simpl in Hh'.
    rewrite Hh in Hh'. injection Hh' as <-.
    unfold field_of, with_entry. simpl. apply assoc_dict_set_same.
  - intros n1 n2. rewrite (Hsame n1 n2). split.
    + intros d' h' Hd' Hh'. injection Hd' as <-.
      rewrite Hh in Hh'. injection Hh' as <-. reflexivity.
    + intros key ne. unfold field_of, with_entry. simpl.
      apply assoc_dict_set_other. exact ne.
Qed.

Lemma update_returns_confirmation_witness :
  let noted :=
    update_user_progress Reference.rt sample_config "2024-01-01T10:00:00"
      (Some "unknown_module") "bookmark" fresh_world in
  let done :=
    update_user_progress Reference.rt sample_config "2024-01-01T10:05:00"
      (Some "ai_best_practices") "complete" fresh_world in
  (snd noted = Ok "Progress updated: bookmark for module unknown_module"
   /\ field_of "session_history" (fst noted)
      = Some (PyList [ PyDict [ ("timestamp", PyStr "2024-01-01T10:00:00");
                                ("module", PyStr "unknown_module");
                                ("action", PyStr "bookmark") ] ])
   /\ field_of "current_module" (fst noted) = Some PyNone
   /\ field_of "completed_modules" (fst noted) = Some (PyList []))
  /\ (snd done = Ok "Progress updated: complete for module ai_best_practices"
      /\ field_of "session_history" (fst done)
         = Some (PyList [ PyDict [ ("timestamp", PyStr "2024-01-01T10:05:00");
                                   ("module", PyStr "ai_best_practices");
                                   ("action", PyStr "complete") ] ])).
Proof.
  intros noted done. split.
  - destruct (update_returns_confirmation Reference.rt sample_config
                "2024-01-01T10:00:00" (Some "unknown_module") "bookmark" fresh_world
                eq_refl eq_refl ltac:(discriminate))
      as (Hret & _ & Hhist & Honly).
    destruct (Honly ltac:(discriminate) ltac:(discriminate)) as [_ Hframe].
    split; [exact Hret|]. split; [exact (Hhist [] eq_refl)|]. split.
    + unfold noted. rewrite Hframe by discriminate. reflexivity.
    + unfold noted. rewrite Hframe by discriminate. reflexivity.
  - destruct (update_returns_confirmation Reference.rt sample_config
                "2024-01-01T10:05:00" (Some "ai_best_practices") "complete"
                fresh_world eq_refl eq_refl)
      as (Hret & _ & Hhist & _).
    + intros _. split; [discriminate|].
      intros s m v Hs Hm Hv. injection Hs as <-.
      vm_compute in Hm. injection Hm as <-.
      vm_compute in Hv. injection Hv as <-.
      eexists. reflexivity.
    + split; [exact Hret | exact (Hhist [] eq_refl)].
Defined.

(** C9: starting a module sets [current_module] to the module id and
    appends exactly one history entry {timestamp, module: the id, action:
    "start"}; every other field of the progress record keeps its value, and
    with a writable file the call returns the confirmation and the document
    is written. *)
Theorem start_sets_current_module
    (rt : runtime) (config : Config) (now : string) (id : option string)
    (w : world) (d : pydict) (h : list pyval) :
  user_progress w = PyDict d ->
  assoc "session_history" d = Some (PyList h) ->
  let out := update_user_progress rt config now id "start" w in
  let module_id := match id with Some s => PyStr s | None => PyNone end in
  let entry :=
    PyDict [ ("timestamp", PyStr now); ("module", module_id);
             ("action", PyStr "start") ] in
  user_progress (fst out)
  = PyDict (dict_set "session_history" (PyList (h ++ [entry]))
              (dict_set "current_module" module_id d))
  /\ field_of "current_module" (fst out) = Some module_id
  /\ field_of "session_history" (fst out) = Some (PyList (h ++ [entry]))
  /\ (forall key,
         key <> "current_module" -> key <> "session_history" ->
         field_of key (fst out) = field_of key w)
  /\ (writable (disk w) = true ->
      snd out
      = Ok ("Progress updated: start for module "
            ++ match id with Some s => s | None => "None" end)
      /\ contents (disk (fst out)) = Some (json_dumps rt (user_progress (fst out)))).
Proof.
  intros Hd Hh out module_id entry.
  assert (Hmid : module_id = py_of_id id) by (destruct id; reflexivity).
  assert (Hentry : entry = history_entry now id "start")
    by (destruct id; reflexivity).
  assert (Hconf : "Progress updated: start for module "
                  ++ match id with Some s => s | None => "None" end
                  = confirmation rt id "start")
    by (destruct id; reflexivity).
  rewrite Hentry, Hmid, Hconf. clear Hentry Hmid Hconf entry module_id.
  destruct w as [up f]. simpl in Hd. subst up.
  change {| user_progress := PyDict d; disk := f |} with (mk d f) in *.
  set (d1 := dict_set "current_module" (py_of_id id) d).
  assert (Hh1 : assoc "session_history" d1 = Some (PyList h)).
  { unfold d1. rewrite assoc_dict_set_other by discriminate. exact Hh. }
  assert (Hstate : user_progress (fst out)
                   = PyDict (with_entry (history_entry now id "start") h d1)).
  { unfold out, update_user_progress.
    change (String.eqb "start" "complete") with false.
    change (String.eqb "start" "start") with true. cbv iota.
    rewrite (bindM_ok _ _ (mk d f) (mk d1 f) tt eq_refl).
    rewrite (bindM_ok _ _ _ _ _ (run_append d1 f _ h _ Hh1)).
    unfold bindM, persist.
    destruct (save_user_progress rt _ _) as [f' [u|e]]; reflexivity. }
  split; [exact Hstate|].
  unfold field_of. rewrite Hstate. unfold with_entry. simpl py_field.
  split; [|split; [|split]].
  - rewrite assoc_dict_set_other by discriminate. apply assoc_dict_set_same.
  - apply assoc_dict_set_same.
  - intros key n1 n2. unfold d1. rewrite !assoc_dict_set_other by assumption.
    reflexivity.
  - intros Hw. simpl in Hw.
    assert (Hout : out = (mk (with_entry (history_entry now id "start") h d1)
                            (written f (json_dumps rt
                               (PyDict (with_entry (history_entry now id "start") h d1)))),
                          Ok (confirmation rt id "start"))).
    { apply run_update; [reflexivity | exact Hh1 | exact Hw]. }
    rewrite Hout. split; reflexivity.
Qed.

Lemma start_sets_current_module_witness :
  let out :=
    update_user_progress Reference.rt sample_config "2024-01-01T10:00:00"
      (Some "programming_with_ai") "start" fresh_world in
  field_of "current_module" (fst out) = Some (PyStr "programming_with_ai")
  /\ field_of "session_history" (fst out)
     = Some (PyList [ PyDict [ ("timestamp", PyStr "2024-01-01T10:00:00");
                               ("module", PyStr "programming_with_ai");
                               ("action", PyStr "start") ] ])
  /\ field_of "completed_modules" (fst out) = Some (PyList [])
  /\ snd out = Ok "Progress updated: start for module programming_with_ai".
Proof.
  intros out.
  destruct (start_sets_current_module Reference.rt sample_config
              "2024-01-01T10:00:00" (Some "programming_with_ai") fresh_world
              _ [] eq_refl eq_refl)
    as (_ & Hcurrent & Hhistory & Hframe & Hsaved).
  split; [exact Hcurrent|]. split; [exact Hhistory|]. split.
  - unfold out. rewrite Hframe by discriminate. reflexivity.
  - exact (proj1 (Hsaved eq_refl)).
Defined.

(** * Further properties of the resolver *)

Lemma content_get_prop (P : string -> Prop) (content : list (Z * string))
    (index : Z) (default : string) :
  P default -> Forall (fun kv => P (snd kv)) content ->
  P (content_get content index default).
Proof.
  intros Hd Hc. induction Hc as [|[k v] rest Hv _ IH]; simpl; [exact Hd|].
  destruct (Z.eqb k index); [exact Hv | exact IH].
Qed.

Lemma content_get_miss (content : list (Z * string)) (index : Z) (default : string) :
  Forall (fun kv => fst kv <> index) content ->
  content_get content index default = default.
Proof.
  intros Hc. induction Hc as [|[k v] rest Hk _ IH]; simpl; [reflexivity|].
  destruct (Z.eqb k index) eqn:E; [apply Z.eqb_eq in E; contradiction | exact IH].
Qed.

Lemma list_index_negative {A : Type} (l : list A) (i : Z) (x : A) :
  (i < 0)%Z -> (- Z.of_nat (length l) <= i)%Z ->
  nth_error l (Z.to_nat (Z.of_nat (length l) + i)) = Some x ->
  list_index l i = Ok x.
Proof.
  intros Hneg Hlow Hn. unfold list_index.
  destruct (i <? 0)%Z eqn:E; [|apply Z.ltb_ge in E; lia].
  replace ((0 <=? Z.of_nat (length l) + i)%Z
           && (Z.of_nat (length l) + i <? Z.of_nat (length l))%Z) with true.
  - rewrite Hn. reflexivity.
  - symmetry. apply andb_true_iff. split; [apply Z.leb_le | apply Z.ltb_lt]; lia.
Qed.

Lemma prefix_app_l (n a b : string) :
  String.prefix n a = true -> String.prefix n (a ++ b) = true.
Proof.
  revert a. induction n as [|c n IH]; intros a H; [destruct (a ++ b); reflexivity|].
  destruct a as [|c' a]; simpl in *; [discriminate|].
  destruct (ascii_dec c c'); [apply IH; exact H | discriminate].
Qed.

Lemma str_contains_app_l (n a b : string) :
  str_contains n a = true -> str_contains n (a ++ b) = true.
Proof.
  induction a as [|c a IH]; intros H.
  - cbn [str_contains] in H. rewrite orb_false_r in H.
    destruct n; [|discriminate]. destruct b; reflexivity.
  - cbn [str_contains append] in *. apply orb_true_iff in H.
    destruct H as [H|H].
    + change (String c (a ++ b)) with (String c a ++ b).
      rewrite (prefix_app_l _ _ _ H). reflexivity.
    + rewrite (IH H). apply orb_true_r.
Qed.

Lemma str_contains_refl (n : string) : str_contains n n = true.
Proof. rewrite <- (append_nil_r n) at 2. apply str_contains_here. Qed.

Lemma str_contains_join (sep x : string) (parts : list string) :
  In x parts -> str_contains x (str_join sep parts) = true.
Proof.
  induction parts as [|p rest IH]; intros Hin; [contradiction|].
  destruct rest as [|q rest].
  - destruct Hin as [->|[]]. apply str_contains_refl.
  - change (str_join sep (p :: q :: rest)) with (p ++ sep ++ str_join sep (q :: rest)).
    destruct Hin as [->|Hin].
    + apply str_contains_here.
    + do 2 apply str_contains_skip. apply IH. exact Hin.
Qed.

Lemma heading_cons (rest : string) :
  String.prefix "# " (String "#" (String " " rest)) = true.
Proof. destruct rest; reflexivity. Qed.

Ltac headings :=
  apply content_get_prop;
  [ apply heading_cons
  | repeat (constructor; [apply heading_cons|]); constructor ].

Lemma introduction_is_heading (title : string) (index : Z) :
  String.prefix "# " (generate_introduction_slide title index) = true.
Proof.
  unfold generate_introduction_slide.
  headings.
Qed.

Lemma hands_on_is_heading (title : string) (index : Z) (md : option pydict) :
  String.prefix "# " (generate_hands_on_slide title index md) = true.
Proof.
  unfold generate_hands_on_slide.
  headings.
Qed.

Lemma conclusion_is_heading (title : string) (index : Z) :
  String.prefix "# " (generate_conclusion_slide title index) = true.
Proof.
  unfold generate_conclusion_slide.
  headings.
Qed.

(** What a successful call of the overview routine on present module data
    went through. *)
Lemma overview_success_inv
    (rt : runtime) (config : Config) (title : string) (index : Z) (md : pydict)
    (s : string) :
  md <> [] ->
  generate_module_overview_slide rt config title index (Some md) = Ok s ->
  exists m_difficulty topics level d u a p,
    py_title rt (dict_get_default md "difficulty" (PyStr "Not specified"))
    = Ok m_difficulty
    /\ py_iter (dict_get_default md "topics" (PyList [])) = Ok topics
    /\ dict_get_default md "difficulty" (PyStr "intermediate") = PyStr d
    /\ level = str_title rt d
    /\ criterion config d "understanding" = Ok u
    /\ criterion config d "application" = Ok a
    /\ criterion config d "problem_solving" = Ok p
    /\ s = content_get
             [ (0%Z, module_overview_slide_0 title
                       (py_str rt (dict_get_default md "title" (PyStr "Module")))
                       (py_str rt (dict_get_default md "description"
                                     (PyStr "No description available")))
                       m_difficulty
                       (if truthy (dict_get_default md "hands_on" (PyBool false))
                        then "✅ Yes" else "❌ No"));
               (1%Z, module_overview_slide_1 title);
               (2%Z, module_overview_slide_2 title
                       (str_join nl (map (topic_bullet rt) topics)));
               (3%Z, module_overview_slide_3 title);
               (4%Z, module_overview_slide_4 title level
                       (py_str rt u) (py_str rt a) (py_str rt p)) ]
             index (coming_soon title).
Proof.
  intros Hmd. unfold generate_module_overview_slide.
  replace (module_data_missing (Some md)) with false
    by (destruct md; [contradiction | reflexivity]).
  destruct (py_title rt (dict_get_default md "difficulty" (PyStr "Not specified")))
    as [m_difficulty|] eqn:E1; [|discriminate].
  destruct (py_iter (dict_get_default md "topics" (PyList [])))
    as [topics|] eqn:E2; [|discriminate].
  cbn [bind].
  destruct (dict_get_default md "difficulty" (PyStr "intermediate"))
    as [| | | |d| |] eqn:E3; try discriminate.
  cbn [py_title bind].
  destruct (criterion config d "understanding") as [u|] eqn:E4; [|discriminate].
  destruct (criterion config d "application") as [a|] eqn:E5; [|discriminate].
  destruct (criterion config d "problem_solving") as [p|] eqn:E6; [|discriminate].
  cbn [bind]. intros H. injection H as <-.
  exists m_difficulty, topics, (str_title rt d), d, u, a, p.
  repeat (split; [first [assumption | reflexivity]|]). reflexivity.
Qed.

Lemma overview_is_heading
    (rt : runtime) (config : Config) (title : string) (index : Z)
    (md : option pydict) (s : string) :
  generate_module_overview_slide rt config title index md = Ok s ->
  String.prefix "# " s = true.
Proof.
  destruct (module_data_missing md) eqn:Hm.
  - unfold generate_module_overview_slide. rewrite Hm.
    intros H. injection H as <-. apply heading_cons.
  - destruct md as [md|]; [|discriminate].
    assert (Hne : md <> []) by (intros ->; discriminate).
    intros H.
    destruct (overview_success_inv rt config title index md s Hne H)
      as (m & ts & lvl & d & u & a & p & _ & _ & _ & _ & _ & _ & _ & ->).
    headings.
Qed.

(** X1: whatever the resolver returns is one of the two not-found messages
    or a markdown heading. *)
Theorem resolver_output_shape
    (rt : runtime) (config : Config) (self : PresentationGenerator)
    (template_type : string) (i : Z) (md : option pydict) (s : string) :
  generate_slide rt config self template_type i md = Ok s ->
  s = "Template not found" \/ s = "Slide not found" \/ String.prefix "# " s = true.
Proof.
  unfold generate_slide.
  destruct (assoc template_type (templates self)) as [slides|];
    [|intros H; injection H as <-; left; reflexivity].
  destruct (i >=? Z.of_nat (length slides))%Z;
    [intros H; injection H as <-; right; left; reflexivity|].
  destruct (list_index slides i) as [title|e]; [|discriminate]. cbn [bind].
  intros H. right. right.
  destruct (String.eqb template_type "introduction");
    [injection H as <-; apply introduction_is_heading|].
  destruct (String.eqb template_type "module_overview");
    [apply (overview_is_heading rt config title i md s H)|].
  destruct (String.eqb template_type "hands_on_session");
    [injection H as <-; apply hands_on_is_heading|].
  destruct (String.eqb template_type "conclusion");
    injection H as <-; [apply conclusion_is_heading | apply heading_cons].
Qed.

Lemma resolver_output_shape_witness :
  String.prefix "# " (hands_on_slide_2 "Common Challenges") = true.
Proof.
  destruct (resolver_output_shape Reference.rt sample_config
              (presentation_gen sample_config) "hands_on_session" 2 None
              (hands_on_slide_2 "Common Challenges") eq_refl)
    as [H|[H|H]]; [discriminate H | discriminate H | exact H].
Defined.

(** X2: module data reaches only the module overview; every other template
    gives the same answer whatever module data is passed. *)
Theorem module_data_only_for_overview
    (rt : runtime) (config : Config) (self : PresentationGenerator)
    (template_type : string) (i : Z) (md md' : option pydict) :
  template_type <> "module_overview" ->
  generate_slide rt config self template_type i md
  = generate_slide rt config self template_type i md'.
Proof.
  intros ne. unfold generate_slide.
  destruct (assoc template_type (templates self)) as [slides|]; [|reflexivity].
  destruct (i >=? Z.of_nat (length slides))%Z; [reflexivity|].
  destruct (list_index slides i) as [title|e]; [|reflexivity]. cbn [bind].
  destruct (String.eqb template_type "introduction"); [reflexivity|].
  destruct (String.eqb template_type "module_overview") eqn:E;
    [apply String.eqb_eq in E; contradiction | reflexivity].
Qed.

Lemma module_data_only_for_overview_witness :
  generate_slide Reference.rt sample_config (presentation_gen sample_config)
    "hands_on_session" 1 (Some [ ("difficulty", PyStr "expert") ])
  = generate_slide Reference.rt sample_config (presentation_gen sample_config)
      "hands_on_session" 1 None.
Proof.
  apply (module_data_only_for_overview Reference.rt sample_config
           (presentation_gen sample_config) "hands_on_session" 1).
  discriminate.
Defined.

(** An index that selects a title but is no key of the template's content
    table gives the "coming soon" slide under that title. *)
Lemma unmapped_index
    (rt : runtime) (config : Config) (self : PresentationGenerator)
    (template_type : string) (slides : list string) (i : Z) (title : string)
    (md : option pydict) :
  assoc template_type (templates self) = Some slides ->
  (i < Z.of_nat (length slides))%Z ->
  list_index slides i = Ok title ->
  ((template_type = "introduction" \/ template_type = "conclusion")
   /\ (i < 0 \/ 4 <= i)%Z)
  \/ (template_type = "hands_on_session" /\ (i < 0 \/ 5 <= i)%Z) ->
  generate_slide rt config self template_type i md = Ok (coming_soon title).
Proof.
  intros Ht Hlt Hidx Hcase. unfold generate_slide. rewrite Ht.
  replace (i >=? Z.of_nat (length slides))%Z with false
    by (symmetry; rewrite Z.geb_leb; apply Z.leb_gt; exact Hlt).
  rewrite Hidx. cbn [bind].
  destruct Hcase as [[[-> | ->] Hi] | [-> Hi]]; simpl String.eqb; cbv iota; f_equal;
    apply content_get_miss; repeat constructor; simpl; lia.
Qed.

(** X3: when a template lists more titles than its routine has entries
    (more than four for the introduction and the conclusion, more than five
    for the hands-on session), the further indices give the "coming soon"
    slide under their title. *)
Theorem index_beyond_content_falls_back
    (rt : runtime) (config : Config) (self : PresentationGenerator)
    (template_type : string) (slides : list string) (i : Z) (title : string)
    (md : option pydict) :
  assoc template_type (templates self) = Some slides ->
  nth_error slides (Z.to_nat i) = Some title ->
  ((template_type = "introduction" \/ template_type = "conclusion") /\ (4 <= i)%Z)
  \/ (template_type = "hands_on_session" /\ (5 <= i)%Z) ->
  generate_slide rt config self template_type i md = Ok (coming_soon title).
Proof.
  intros Ht Hn Hcase.
  assert (Hi : (0 <= i)%Z) by (destruct Hcase as [[_ H]|[_ H]]; lia).
  apply (unmapped_index rt config self template_type slides i title md Ht).
  - pose proof (index_below_length slides i title Hn) as H.
    rewrite Z.geb_leb in H. apply Z.leb_gt in H. exact H.
  - apply list_index_in_range; assumption.
  - destruct Hcase as [[H1 H2]|[H1 H2]]; [left | right]; split; auto.
Qed.

Lemma index_beyond_content_falls_back_witness :
  generate_slide Reference.rt sample_config
    {| self_config := sample_config;
       templates := [ ("conclusion", [ "a"; "b"; "c"; "d"; "Thanks" ]) ] |}
    "conclusion" 4 None
  = Ok (coming_soon "Thanks").
Proof.
  apply (index_beyond_content_falls_back Reference.rt sample_config _
           "conclusion" [ "a"; "b"; "c"; "d"; "Thanks" ] 4 "Thanks" None).
  - reflexivity.
  - reflexivity.
  - left. split; [right; reflexivity | lia].
Defined.

(** X4: a negative index down to minus the number of titles is not
    rejected: it selects a title counted from the end, and outside the module
    overview the slide is the "coming soon" one under that title. *)
Theorem negative_index_counts_from_end
    (rt : runtime) (config : Config) (self : PresentationGenerator)
    (template_type : string) (slides : list string) (i : Z) (title : string)
    (md : option pydict) :
  assoc template_type (templates self) = Some slides ->
  (i < 0)%Z ->
  (- Z.of_nat (length slides) <= i)%Z ->
  nth_error slides (Z.to_nat (Z.of_nat (length slides) + i)) = Some title ->
  template_type = "introduction" \/ template_type = "conclusion"
  \/ template_type = "hands_on_session" ->
  generate_slide rt config self template_type i md = Ok (coming_soon title).
Proof.
  intros Ht Hneg Hlow Hn Hcase.
  apply (unmapped_index rt config self template_type slides i title md Ht).
  - lia.
  - apply list_index_negative; assumption.
  - destruct Hcase as [H|[H|H]]; [left | left | right]; split; auto.
Qed.

Lemma negative_index_counts_from_end_witness :
  generate_slide Reference.rt sample_config (presentation_gen sample_config)
    "hands_on_session" (-2) None
  = Ok (coming_soon "Best Practices").
Proof.
  apply (negative_index_counts_from_end Reference.rt sample_config
           (presentation_gen sample_config) "hands_on_session"
           [ "Setup and Prerequisites"; "Step-by-Step Implementation";
             "Common Challenges"; "Best Practices"; "Next Steps" ]
           (-2) "Best Practices" None).
  - reflexivity.
  - lia.
  - simpl. lia.
  - reflexivity.
  - right. right. reflexivity.
Defined.

(** X5: a template of the configuration that is none of the four known
    types still resolves: every slide in range is the "being developed"
    slide under its title. *)
Theorem other_template_is_being_developed
    (rt : runtime) (config : Config) (self : PresentationGenerator)
    (template_type : string) (slides : list string) (i : Z) (title : string)
    (md : option pydict) :
  assoc template_type (templates self) = Some slides ->
  (0 <= i)%Z ->
  nth_error slides (Z.to_nat i) = Some title ->
  template_type <> "introduction" ->
  template_type <> "module_overview" ->
  template_type <> "hands_on_session" ->
  template_type <> "conclusion" ->
  generate_slide rt config self template_type i md
  = Ok ("# " ++ title ++ nl ++ nl
        ++ "Content for this slide type is being developed...").
Proof.
  intros Ht Hi Hn n1 n2 n3 n4. unfold generate_slide. rewrite Ht.
  rewrite (index_below_length _ _ _ Hn).
  rewrite (list_index_in_range _ _ _ Hi Hn). cbn [bind].
  apply String.eqb_neq in n1, n2, n3, n4. rewrite n1, n2, n3, n4. reflexivity.
Qed.

Lemma other_template_is_being_developed_witness :
  generate_slide Reference.rt sample_config
    {| self_config := sample_config;
       templates := [ ("workshop", [ "Agenda"; "Exercises" ]) ] |}
    "workshop" 1 None
  = Ok ("# Exercises" ++ nl ++ nl
        ++ "Content for this slide type is being developed...").
Proof.
  apply (other_template_is_being_developed Reference.rt sample_config _
           "workshop" [ "Agenda"; "Exercises" ] 1 "Exercises" None);
    first [reflexivity | lia | discriminate].
Defined.

(** The overview routine is reached with the selected title whenever the
    index selects one. *)
Lemma overview_dispatch
    (rt : runtime) (config : Config) (self : PresentationGenerator)
    (slides : list string) (i : Z) (title : string) (md : option pydict) :
  assoc "module_overview" (templates self) = Some slides ->
  (i < Z.of_nat (length slides))%Z ->
  list_index slides i = Ok title ->
  generate_slide rt config self "module_overview" i md
  = generate_module_overview_slide rt config title i md.
Proof.
  intros Ht Hlt Hidx. unfold generate_slide. rewrite Ht.
  replace (i >=? Z.of_nat (length slides))%Z with false
    by (symmetry; rewrite Z.geb_leb; apply Z.leb_gt; exact Hlt).
  rewrite Hidx. reflexivity.
Qed.

(** X6: for module data whose difficulty has no entry in the assessment
    criteria, the module overview raises [KeyError] with that difficulty at
    every slide index that selects a title, not only at the assessment
    slide. *)
Theorem unknown_difficulty_raises_at_every_index
    (rt : runtime) (config : Config) (self : PresentationGenerator)
    (slides : list string) (i : Z) (title : string) (md : pydict) (d : string)
    (topics : list pyval) :
  assoc "module_overview" (templates self) = Some slides ->
  (i < Z.of_nat (length slides))%Z ->
  list_index slides i = Ok title ->
  md <> [] ->
  dict_get_default md "difficulty" (PyStr "intermediate") = PyStr d ->
  py_iter (dict_get_default md "topics" (PyList [])) = Ok topics ->
  assoc d (assessment_criteria config) = None ->
  generate_slide rt config self "module_overview" i (Some md) = Raise (KeyError d).
Proof.
  intros Ht Hlt Hidx Hmd Hd Hit Hnone.
  rewrite (overview_dispatch rt config self slides i title _ Ht Hlt Hidx).
  unfold generate_module_overview_slide.
  replace (module_data_missing (Some md)) with false
    by (destruct md; [contradiction | reflexivity]).
  destruct (difficulty_is_titled rt md d Hd) as [d0 Hd0].
  rewrite Hd0, Hit, Hd. unfold criterion. rewrite Hnone. reflexivity.
Qed.

Lemma unknown_difficulty_raises_at_every_index_witness :
  generate_slide Reference.rt sample_config (presentation_gen sample_config)
    "module_overview" 1 (Some [ ("title", PyStr "T"); ("difficulty", PyStr "expert") ])
  = Raise (KeyError "expert").
Proof.
  apply (unknown_difficulty_raises_at_every_index Reference.rt sample_config
           (presentation_gen sample_config)
           [ "Module Introduction"; "Learning Objectives"; "Key Topics";
             "Hands-on Activities"; "Assessment Criteria" ]
           1 "Learning Objectives" _ "expert" []);
    first [reflexivity | discriminate | (simpl; lia)].
Defined.

(** X7: a difficulty that is present but is not a string makes the module
    overview raise [AttributeError], at every slide index that selects a
    title. *)
Theorem non_string_difficulty_raises
    (rt : runtime) (config : Config) (self : PresentationGenerator)
    (slides : list string) (i : Z) (title : string) (md : pydict) (v : pyval) :
  assoc "module_overview" (templates self) = Some slides ->
  (i < Z.of_nat (length slides))%Z ->
  list_index slides i = Ok title ->
  assoc "difficulty" md = Some v ->
  (forall s, v <> PyStr s) ->
  generate_slide rt config self "module_overview" i (Some md) = Raise AttributeError.
Proof.
  intros Ht Hlt Hidx Hv Hns.
  rewrite (overview_dispatch rt config self slides i title _ Ht Hlt Hidx).
  unfold generate_module_overview_slide.
  replace (module_data_missing (Some md)) with false
    by (destruct md; [discriminate Hv | reflexivity]).
  unfold dict_get_default. rewrite Hv.
  destruct v; try reflexivity. exfalso. apply (Hns s). reflexivity.
Qed.

Lemma non_string_difficulty_raises_witness :
  generate_slide Reference.rt sample_config (presentation_gen sample_config)
    "module_overview" 3 (Some [ ("difficulty", PyInt 2) ])
  = Raise AttributeError.
Proof.
  apply (non_string_difficulty_raises Reference.rt sample_config
           (presentation_gen sample_config)
           [ "Module Introduction"; "Learning Objectives"; "Key Topics";
             "Hands-on Activities"; "Assessment Criteria" ]
           3 "Hands-on Activities" _ (PyInt 2));
    first [reflexivity | discriminate | (simpl; lia)].
Defined.

(** X8: topics that cannot be iterated (a number, a boolean, null) make the
    module overview raise [TypeError] at every slide index that selects a
    title, when the difficulty is a string or absent. *)
Theorem non_iterable_topics_raise
    (rt : runtime) (config : Config) (self : PresentationGenerator)
    (slides : list string) (i : Z) (title : string) (md : pydict) (d : string)
    (e : exn) :
  assoc "module_overview" (templates self) = Some slides ->
  (i < Z.of_nat (length slides))%Z ->
  list_index slides i = Ok title ->
  md <> [] ->
  dict_get_default md "difficulty" (PyStr "intermediate") = PyStr d ->
  py_iter (dict_get_default md "topics" (PyList [])) = Raise e ->
  e = TypeError
  /\ generate_slide rt config self "module_overview" i (Some md) = Raise TypeError.
Proof.
  intros Ht Hlt Hidx Hmd Hd Hit.
  assert (He : e = TypeError).
  { destruct (dict_get_default md "topics" (PyList [])); simpl in Hit;
      first [discriminate Hit | injection Hit as <-; reflexivity]. }
  subst e. split; [reflexivity|].
  rewrite (overview_dispatch rt config self slides i title _ Ht Hlt Hidx).
  unfold generate_module_overview_slide.
  replace (module_data_missing (Some md)) with false
    by (destruct md; [contradiction | reflexivity]).
  destruct (difficulty_is_titled rt md d Hd) as [d0 Hd0].
  rewrite Hd0, Hit. reflexivity.
Qed.

Lemma non_iterable_topics_raise_witness :
  generate_slide Reference.rt sample_config (presentation_gen sample_config)
    "module_overview" 0 (Some [ ("topics", PyNone) ])
  = Raise TypeError.
Proof.
  apply (non_iterable_topics_raise Reference.rt sample_config
           (presentation_gen sample_config)
           [ "Module Introduction"; "Learning Objectives"; "Key Topics";
             "Hands-on Activities"; "Assessment Criteria" ]
           0 "Module Introduction" _ "intermediate" TypeError);
    first [reflexivity | discriminate | (simpl; lia)].
Defined.

(** X9: when the "Key Topics" slide (index 2) of the module overview
    resolves, it holds one bullet "- **topic**" for every topic of the
    module. *)
Theorem key_topics_slide_lists_every_topic
    (rt : runtime) (config : Config) (self : PresentationGenerator)
    (slides : list string) (title : string) (md : pydict) (topics : list pyval)
    (s : string) :
  assoc "module_overview" (templates self) = Some slides ->
  nth_error slides 2 = Some title ->
  md <> [] ->
  py_iter (dict_get_default md "topics" (PyList [])) = Ok topics ->
  generate_slide rt config self "module_overview" 2 (Some md) = Ok s ->
  s = module_overview_slide_2 title (str_join nl (map (topic_bullet rt) topics))
  /\ forall topic, In topic topics ->
       str_contains ("- **" ++ py_str rt topic ++ "**") s = true.
Proof.
  intros Ht Hn Hmd Hit Hs.
  change 2%nat with (Z.to_nat 2) in Hn.
  pose proof (index_below_length slides 2 title Hn) as Hlt.
  rewrite Z.geb_leb in Hlt. apply Z.leb_gt in Hlt.
  rewrite (overview_dispatch rt config self slides 2 title _ Ht Hlt
             (list_index_in_range slides 2 title ltac:(lia) Hn)) in Hs.
  destruct (overview_success_inv rt config title 2 md s Hmd Hs)
    as (m & ts & lvl & d & u & a & p & _ & Hts & _ & _ & _ & _ & _ & ->).
  rewrite Hit in Hts. injection Hts as <-.
  split; [reflexivity|].
  intros topic Hin. cbn [content_get Z.eqb]. unfold module_overview_slide_2.
  do 3 apply str_contains_skip. apply str_contains_app_l.
  apply str_contains_join.
  change ("- **" ++ py_str rt topic ++ "**") with (topic_bullet rt topic).
  apply in_map. exact Hin.
Qed.

Lemma key_topics_slide_lists_every_topic_witness :
  str_contains "- **Workflow Integration**"
    (module_overview_slide_2 "Key Topics"
       (str_join nl
          (map (topic_bullet Reference.rt)
             (map PyStr [ "Prompt Design for QA"; "Workflow Integration" ]))))
  = true.
Proof.
  destruct (key_topics_slide_lists_every_topic Reference.rt sample_config
              (presentation_gen sample_config)
              [ "Module Introduction"; "Learning Objectives"; "Key Topics";
                "Hands-on Activities"; "Assessment Criteria" ]
              "Key Topics"
              (module_record "Best Practices with AI" "Effective usage"
                 [ "Prompt Design for QA"; "Workflow Integration" ] true "beginner")
              (map PyStr [ "Prompt Design for QA"; "Workflow Integration" ])
              _ eq_refl eq_refl ltac:(discriminate) eq_refl eq_refl)
    as [_ H].
  apply (H (PyStr "Workflow Integration")). right. left. reflexivity.
Defined.

(** X10: when the first slide (index 0) of the module overview resolves, it
    interpolates the module's title, description, title-cased difficulty and
    hands-on marker, with "Module", "No description available" and
    "Not specified" standing in for absent fields. *)
Theorem overview_first_slide_fields
    (rt : runtime) (config : Config) (self : PresentationGenerator)
    (slides : list string) (title : string) (md : pydict) (s : string) :
  assoc "module_overview" (templates self) = Some slides ->
  nth_error slides 0 = Some title ->
  md <> [] ->
  generate_slide rt config self "module_overview" 0 (Some md) = Ok s ->
  exists level,
    py_title rt (dict_get_default md "difficulty" (PyStr "Not specified")) = Ok level
    /\ s = module_overview_slide_0 title
             (py_str rt (dict_get_default md "title" (PyStr "Module")))
             (py_str rt (dict_get_default md "description"
                           (PyStr "No description available")))
             level
             (if truthy (dict_get_default md "hands_on" (PyBool false))
              then "✅ Yes" else "❌ No")
    /\ str_contains (py_str rt (dict_get_default md "title" (PyStr "Module"))) s = true
    /\ str_contains (py_str rt (dict_get_default md "description"
                                  (PyStr "No description available"))) s = true
    /\ str_contains level s = true
    /\ str_contains (if truthy (dict_get_default md "hands_on" (PyBool false))
                     then "✅ Yes" else "❌ No") s = true.
Proof.
  intros Ht Hn Hmd Hs.
  change 0%nat with (Z.to_nat 0) in Hn.
  pose proof (index_below_length slides 0 title Hn) as Hlt.
  rewrite Z.geb_leb in Hlt. apply Z.leb_gt in Hlt.
  rewrite (overview_dispatch rt config self slides 0 title _ Ht Hlt
             (list_index_in_range slides 0 title ltac:(lia) Hn)) in Hs.
  destruct (overview_success_inv rt config title 0 md s Hmd Hs)
    as (m & ts & lvl & d & u & a & p & Hm & _ & _ & _ & _ & _ & _ & ->).
  exists m. split; [exact Hm|]. cbn [content_get Z.eqb]. split; [reflexivity|].
  unfold module_overview_slide_0. repeat split.
  - do 3 apply str_contains_skip. apply str_contains_here.
  - do 5 apply str_contains_skip. apply str_contains_here.
  - do 7 apply str_contains_skip. apply str_contains_here.
  - do 9 apply str_contains_skip. apply str_contains_here.
Qed.

Lemma overview_first_slide_fields_witness :
  str_contains "A test module for unit testing"
    (module_overview_slide_0 "Module Introduction" "Test Module"
       "A test module for unit testing" "Intermediate" "✅ Yes")
  = true.
Proof.
  destruct (overview_first_slide_fields Reference.rt sample_config
              (presentation_gen sample_config)
              [ "Module Introduction"; "Learning Objectives"; "Key Topics";
                "Hands-on Activities"; "Assessment Criteria" ]
              "Module Introduction"
              (module_record "Test Module" "A test module for unit testing"
                 [ "Topic 1"; "Topic 2"; "Topic 3" ] true "intermediate")
              _ eq_refl eq_refl ltac:(discriminate) eq_refl)
    as (level & Hl & _ & _ & Hd & _).
  exact Hd.
Defined.

(** * Further properties of the store *)

Lemma update_unfold
    (rt : runtime) (config : Config) (now : string) (id : option string)
    (action : string) :
  update_user_progress rt config now id action
  = (_ <~ action_part config id action ;;
     _ <~ progress_append "session_history" (history_entry now id action) ;;
     _ <~ persist rt ;;
     ret (confirmation rt id action)).
Proof. reflexivity. Qed.

Lemma bindM_raise {A B : Type} (c : M A) (k : A -> M B) (w w' : world) (e : exn) :
  c w = (w', Raise e) -> bindM c k w = (w', Raise e).
Proof. intros H. unfold bindM. rewrite H. reflexivity. Qed.

Lemma preserves_complete_module (config : Config) (id : option string) (key : string) :
  key <> "completed_modules" -> key <> "current_progress" ->
  key <> "skills_acquired" ->
  preserves key (complete_module config id).
Proof.
  intros n1 n2 n3. unfold complete_module.
  apply preserves_bind; [apply preserves_lacks|]. intros fresh.
  destruct fresh; [|apply preserves_ret].
  apply preserves_bind; [apply preserves_append; exact n1|]. intros _.
  apply preserves_bind; [apply preserves_percentage|]. intros p.
  apply preserves_bind; [apply preserves_set; exact n2|]. intros _.
  apply preserves_bind; [apply preserves_lift|]. intros ts.
  apply preserves_add_skills. exact n3.
Qed.

Lemma preserves_action_part
    (config : Config) (id : option string) (action key : string) :
  key <> "completed_modules" -> key <> "current_progress" ->
  key <> "skills_acquired" -> key <> "current_module" ->
  preserves key (action_part config id action).
Proof.
  intros n1 n2 n3 n4. unfold action_part.
  destruct (String.eqb action "complete");
    [apply preserves_complete_module; assumption|].
  destruct (String.eqb action "start");
    [apply preserves_set; exact n4 | apply preserves_ret].
Qed.

(** X11: whatever the action and whatever the state, also when the call
    raises, [update_user_progress] leaves every key of the progress record
    other than [completed_modules], [current_progress], [skills_acquired],
    [current_module] and [session_history] as it was. *)
Theorem update_touches_five_keys_only
    (rt : runtime) (config : Config) (now : string) (id : option string)
    (action key : string) (w : world) :
  key <> "completed_modules" -> key <> "current_progress" ->
  key <> "skills_acquired" -> key <> "current_module" ->
  key <> "session_history" ->
  field_of key (fst (update_user_progress rt config now id action w))
  = field_of key w.
Proof.
  intros n1 n2 n3 n4 n5. rewrite update_field by exact n5.
  apply (preserves_action_part config id action key n1 n2 n3 n4).
Qed.

Lemma update_touches_five_keys_only_witness :
  field_of "preferences"
    (fst (update_user_progress Reference.rt sample_config "2024-01-01T10:00:00"
            (Some "ai_best_practices") "complete" fresh_world))
  = field_of "preferences" fresh_world.
Proof.
  apply (update_touches_five_keys_only Reference.rt sample_config
           "2024-01-01T10:00:00" (Some "ai_best_practices") "complete"
           "preferences" fresh_world);
    discriminate.
Defined.

Lemma world_is_mk (w : world) (key : string) (v : pyval) :
  field_of key w = Some v ->
  exists d, w = mk d (disk w) /\ assoc key d = Some v.
Proof.
  destruct w as [up f]. unfold field_of. simpl.
  destruct up; try discriminate. intros H. exists d. split; [reflexivity | exact H].
Qed.

(** X12: the session history only grows at its end.  After any call the
    history is the old one followed by the new entry, or, when the
    action-specific part raised, the old one unchanged; a call that returns
    has appended exactly one entry. *)
Theorem session_history_is_append_only
    (rt : runtime) (config : Config) (now : string) (id : option string)
    (action : string) (w : world) (h : list pyval) :
  field_of "session_history" w = Some (PyList h) ->
  let out := update_user_progress rt config now id action w in
  (field_of "session_history" (fst out)
   = Some (PyList (h ++ [history_entry now id action]))
   \/ (field_of "session_history" (fst out) = Some (PyList h)
       /\ exists e, snd out = Raise e))
  /\ (forall s, snd out = Ok s ->
        field_of "session_history" (fst out)
        = Some (PyList (h ++ [history_entry now id action]))).
Proof.
  intros Hh out.
  assert (Hcases :
            field_of "session_history" (fst out)
            = Some (PyList (h ++ [history_entry now id action]))
            \/ (field_of "session_history" (fst out) = Some (PyList h)
                /\ exists e, snd out = Raise e)).
  { unfold out. rewrite update_unfold.
    pose proof (preserves_action_part config id action "session_history"
                  ltac:(discriminate) ltac:(discriminate) ltac:(discriminate)
                  ltac:(discriminate) w) as Hp.
    destruct (action_part config id action w) as [w1 [u|e]] eqn:E; cbn [fst] in Hp.
    - left. rewrite (bindM_ok _ _ _ _ _ E). rewrite Hh in Hp.
      destruct (world_is_mk w1 _ _ Hp) as [d1 [Hw1 Hd1]]. rewrite Hw1.
      rewrite (bindM_ok _ _ _ _ _ (run_append d1 _ _ h _ Hd1)).
      match goal with
      | |- field_of _ (fst (?c ?w2)) = _ =>
          assert (P : preserves "session_history" c)
      end.
      { apply preserves_bind; [apply preserves_persist|]. intros _.
        apply preserves_ret. }
      rewrite P. apply assoc_dict_set_same.
    - right. rewrite (bindM_raise _ _ _ _ _ E). cbn [fst snd]. rewrite Hp.
      split; [exact Hh | exists e; reflexivity]. }
  split; [exact Hcases|].
  intros s Hs. destruct Hcases as [H|[_ [e He]]]; [exact H|].
  rewrite Hs in He. discriminate.
Qed.

Lemma session_history_is_append_only_witness :
  field_of "session_history"
    (fst (update_user_progress Reference.rt empty_config "2024-01-01T10:00:00"
            (Some "m1") "complete" fresh_world))
  = Some (PyList [])
  /\ exists e,
       snd (update_user_progress Reference.rt empty_config "2024-01-01T10:00:00"
              (Some "m1") "complete" fresh_world) = Raise e.
Proof.
  destruct (session_history_is_append_only Reference.rt empty_config
              "2024-01-01T10:00:00" (Some "m1") "complete" fresh_world [] eq_refl)
    as [[H|H] _]; [discriminate H | exact H].
Defined.

Lemma py_eqb_id_eq (id : option string) (x : pyval) :
  py_eqb (py_of_id id) x = true -> x = py_of_id id.
Proof.
  destruct id as [s|]; simpl.
  - destruct x; try discriminate. intros H. apply String.eqb_eq in H.
    subst. reflexivity.
  - destruct x; try discriminate. reflexivity.
Qed.

Lemma completed_after_update
    (rt : runtime) (config : Config) (now : string) (id : option string)
    (action : string) (w : world) (cm : list pyval) :
  field_of "completed_modules" w = Some (PyList cm) ->
  field_of "completed_modules" (fst (update_user_progress rt config now id action w))
  = Some (PyList (if String.eqb action "complete" && negb (occurs (py_of_id id) cm)
                  then cm ++ [py_of_id id] else cm)).
Proof.
  intros H. rewrite update_field by discriminate.
  destruct (String.eqb action "complete"); simpl andb.
  - rewrite (completed_after_complete config id w cm H).
    destruct (occurs (py_of_id id) cm); reflexivity.
  - destruct (String.eqb action "start").
    + rewrite (preserves_set "completed_modules" "current_module" _
                 ltac:(discriminate) w). exact H.
    + exact H.
Qed.

(** X13: [completed_modules] is only ever extended, by at most the given
    module id, and only by a "complete" of an id that is not yet there; a
    list without repeated items therefore stays without repeated items.
    This holds for every action and state, also when the call raises. *)
Theorem completed_modules_stay_distinct
    (rt : runtime) (config : Config) (now : string) (id : option string)
    (action : string) (w : world) (cm : list pyval) :
  field_of "completed_modules" w = Some (PyList cm) ->
  (forall x, count_eq x cm <= 1)%nat ->
  exists cm',
    field_of "completed_modules" (fst (update_user_progress rt config now id action w))
    = Some (PyList cm')
    /\ (forall x, count_eq x cm' <= 1)%nat
    /\ (cm' = cm
        \/ (cm' = (cm ++ [py_of_id id])%list
            /\ action = "complete" /\ occurs (py_of_id id) cm = false)).
Proof.
  intros H Hd. rewrite (completed_after_update rt config now id action w cm H).
  destruct (String.eqb action "complete") eqn:Ea; simpl andb;
    [|exists cm; repeat split; [exact Hd | left; reflexivity]].
  destruct (occurs (py_of_id id) cm) eqn:Eo; simpl negb;
    [exists cm; repeat split; [exact Hd | left; reflexivity]|].
  exists (cm ++ [py_of_id id])%list. split; [reflexivity|]. split.
  - intros x. rewrite count_eq_snoc.
    destruct (py_eqb (py_of_id id) x) eqn:Ex.
    + apply py_eqb_id_eq in Ex. subst x.
      rewrite occurs_count in Eo.
      destruct (count_eq (py_of_id id) cm); [simpl; lia | discriminate].
    + specialize (Hd x). lia.
  - right. apply String.eqb_eq in Ea. repeat split; assumption.
Qed.

Lemma completed_modules_stay_distinct_witness :
  exists cm',
    field_of "completed_modules"
      (fst (update_user_progress Reference.rt sample_config "2024-01-01T10:00:00"
              (Some "qa_ai_integration") "complete" fresh_world))
    = Some (PyList cm')
    /\ (forall x, count_eq x cm' <= 1)%nat.
Proof.
  destruct (completed_modules_stay_distinct Reference.rt sample_config
              "2024-01-01T10:00:00" (Some "qa_ai_integration") "complete"
              fresh_world [] eq_refl (fun x => Nat.le_0_l 1))
    as (cm' & H1 & H2 & _).
  exists cm'. split; assumption.
Defined.

(** X14: completing a module that is already in [completed_modules]
    changes nothing but the session history: the percentage is not
    recomputed and no skill is added. *)
Theorem completing_again_only_logs
    (rt : runtime) (config : Config) (now : string) (id : option string)
    (w : world) (cm : list pyval) (key : string) :
  field_of "completed_modules" w = Some (PyList cm) ->
  occurs (py_of_id id) cm = true ->
  key <> "session_history" ->
  field_of key (fst (update_user_progress rt config now id "complete" w))
  = field_of key w.
Proof.
  intros H Ho ne. rewrite update_field by exact ne.
  change (String.eqb "complete" "complete") with true. cbv iota.
  destruct (world_is_mk w _ _ H) as [d [Hw Hd]]. rewrite Hw.
  rewrite (run_complete_again config id d (disk w) cm Hd Ho). reflexivity.
Qed.

Lemma completing_again_only_logs_witness :
  field_of "current_progress"
    (fst (update_user_progress Reference.rt sample_config "2024-01-01T10:00:00"
            (Some "m1") "complete"
            (mk [ ("completed_modules", PyList [PyStr "m1"]);
                  ("current_progress", PyInt 7) ]
                (disk fresh_world))))
  = Some (PyInt 7).
Proof.
  apply (completing_again_only_logs Reference.rt sample_config
           "2024-01-01T10:00:00" (Some "m1")
           (mk [ ("completed_modules", PyList [PyStr "m1"]);
                 ("current_progress", PyInt 7) ]
               (disk fresh_world))
           [PyStr "m1"] "current_progress");
    first [reflexivity | discriminate].
Defined.

Lemma keeps_disk_ret {A : Type} (a : A) : keeps_disk (ret a).
Proof. intros w. reflexivity. Qed.

Lemma keeps_disk_raise {A : Type} (e : exn) : keeps_disk (@raise A e).
Proof. intros w. reflexivity. Qed.

Lemma keeps_disk_lift {A : Type} (r : result A) : keeps_disk (lift r).
Proof. intros w. reflexivity. Qed.

Lemma keeps_disk_bind {A B : Type} (c : M A) (k : A -> M B) :
  keeps_disk c -> (forall a, keeps_disk (k a)) -> keeps_disk (bindM c k).
Proof.
  intros Hc Hk w. unfold bindM. specialize (Hc w).
  destruct (c w) as [w' [a|e]]; cbn [fst] in *.
  - rewrite Hk. exact Hc.
  - exact Hc.
Qed.

Lemma keeps_disk_get (k : string) : keeps_disk (progress_get k).
Proof.
  intros w. unfold progress_get.
  destruct (user_progress w); try reflexivity.
  destruct (assoc k d); reflexivity.
Qed.

Lemma keeps_disk_set (k : string) (v : pyval) : keeps_disk (progress_set k v).
Proof.
  intros w. unfold progress_set. destruct (user_progress w); reflexivity.
Qed.

Lemma keeps_disk_append (k : string) (x : pyval) : keeps_disk (progress_append k x).
Proof.
  unfold progress_append. apply keeps_disk_bind; [apply keeps_disk_get|].
  intros l. destruct l; first [apply keeps_disk_raise | apply keeps_disk_set].
Qed.

Lemma keeps_disk_lacks (k : string) (x : pyval) : keeps_disk (progress_lacks k x).
Proof.
  unfold progress_lacks. apply keeps_disk_bind; [apply keeps_disk_get|]. intros l.
  apply keeps_disk_bind; [apply keeps_disk_lift|]. intros b. apply keeps_disk_ret.
Qed.

Lemma keeps_disk_add_skills (topics : list pyval) : keeps_disk (add_skills topics).
Proof.
  induction topics as [|t rest IH]; simpl; [apply keeps_disk_ret|].
  apply keeps_disk_bind; [apply keeps_disk_lacks|]. intros fresh.
  apply keeps_disk_bind; [|intros _; exact IH].
  destruct fresh; [apply keeps_disk_append | apply keeps_disk_ret].
Qed.

Lemma keeps_disk_action_part (config : Config) (id : option string) (action : string) :
  keeps_disk (action_part config id action).
Proof.
  unfold action_part.
  destruct (String.eqb action "complete").
  - unfold complete_module.
    apply keeps_disk_bind; [apply keeps_disk_lacks|]. intros fresh.
    destruct fresh; [|apply keeps_disk_ret].
    apply keeps_disk_bind; [apply keeps_disk_append|]. intros _.
    apply keeps_disk_bind.
    + unfold progress_percentage.
      apply keeps_disk_bind; [apply keeps_disk_get|]. intros c.
      apply keeps_disk_bind; [apply keeps_disk_lift|]. intros n.
      apply keeps_disk_bind; [apply keeps_disk_lift|]. intros q.
      apply keeps_disk_ret.
    + intros p. apply keeps_disk_bind; [apply keeps_disk_set|]. intros _.
      apply keeps_disk_bind; [apply keeps_disk_lift|]. intros ts.
      apply keeps_disk_add_skills.
  - destruct (String.eqb action "start"); [apply keeps_disk_set | apply keeps_disk_ret].
Qed.

(** The three ways a call of [update_user_progress] can end. *)
Lemma update_outcomes
    (rt : runtime) (config : Config) (now : string) (id : option string)
    (action : string) (w : world) :
  let out := update_user_progress rt config now id action w in
  (snd out = Ok (confirmation rt id action)
   /\ writable (disk w) = true
   /\ disk (fst out) = written (disk w) (json_dumps rt (user_progress (fst out))))
  \/ (exists e, snd out = Raise e) /\ disk (fst out) = disk w.
Proof.
  intros out. unfold out. rewrite update_unfold.
  pose proof (keeps_disk_action_part config id action w) as D1.
  destruct (action_part config id action w) as [w1 [u|e]] eqn:E1; cbn [fst] in D1.
  - rewrite (bindM_ok _ _ _ _ _ E1).
    pose proof (keeps_disk_append "session_history"
                  (history_entry now id action) w1) as D2.
    destruct (progress_append "session_history" (history_entry now id action) w1)
      as [w2 [u2|e]] eqn:E2; cbn [fst] in D2.
    + rewrite (bindM_ok _ _ _ _ _ E2).
      unfold bindM, persist, save_user_progress, open_write, ret.
      rewrite D2, D1.
      destruct (writable (disk w)) eqn:Ew; cbn [fst snd].
      * left. unfold written. rewrite Ew. repeat split; reflexivity.
      * right. split; [exists OSError; reflexivity | reflexivity].
    + rewrite (bindM_raise _ _ _ _ _ E2). right. cbn [fst snd].
      split; [exists e; reflexivity | rewrite D2; exact D1].
  - rewrite (bindM_raise _ _ _ _ _ E1). right. cbn [fst snd].
    split; [exists e; reflexivity | exact D1].
Qed.

(** X15: a call that returns has returned the confirmation for its module
    id and action, and the file then holds the JSON text of the progress
    record exactly as it is in memory after the call. *)
Theorem returned_means_saved
    (rt : runtime) (config : Config) (now : string) (id : option string)
    (action : string) (w : world) (s : string) :
  snd (update_user_progress rt config now id action w) = Ok s ->
  s = "Progress updated: " ++ action ++ " for module " ++ py_str rt (py_of_id id)
  /\ contents (disk (fst (update_user_progress rt config now id action w)))
     = Some (json_dumps rt
               (user_progress (fst (update_user_progress rt config now id action w)))).
Proof.
  intros Hs.
  destruct (update_outcomes rt config now id action w) as [(H1 & _ & H3)|[[e He] _]].
  - rewrite Hs in H1. injection H1 as ->. split; [reflexivity|].
    rewrite H3. reflexivity.
  - rewrite Hs in He. discriminate.
Qed.

Lemma returned_means_saved_witness :
  contents
    (disk (fst (update_user_progress Reference.rt sample_config
                  "2024-01-01T10:00:00" (Some "qa_ai_integration") "start"
                  fresh_world)))
  = Some (json_dumps Reference.rt
            (user_progress
               (fst (update_user_progress Reference.rt sample_config
                       "2024-01-01T10:00:00" (Some "qa_ai_integration") "start"
                       fresh_world)))).
Proof.
  exact (proj2 (returned_means_saved Reference.rt sample_config
                  "2024-01-01T10:00:00" (Some "qa_ai_integration") "start"
                  fresh_world _ eq_refl)).
Defined.



(** On a well-formed record the action-specific part succeeds and keeps the
    history. *)
Lemma run_action_part
    (config : Config) (id : option string) (action : string)
    (d : pydict) (f : file_state) (cm sk h : list pyval) :
  assoc "completed_modules" d = Some (PyList cm) ->
  assoc "skills_acquired" d = Some (PyList sk) ->
  assoc "session_history" d = Some (PyList h) ->
  (action = "complete" ->
   modules config <> [] /\ topics_iterable (module_of config id) = true) ->
  exists d1,
    action_part config id action (mk d f) = (mk d1 f, Ok tt)
    /\ assoc "session_history" d1 = Some (PyList h)
    /\ (action = "start" -> assoc "current_module" d1 = Some (py_of_id id)).
Proof.
  intros Hcm Hsk Hh Hcfg. unfold action_part.
  destruct (String.eqb action "complete") eqn:Ec.
  - apply String.eqb_eq in Ec. destruct (Hcfg Ec) as [Hm Hit].
    unfold topics_iterable in Hit.
    destruct (py_iter (dict_get_default (module_of config id) "topics" (PyList [])))
      as [ts|e] eqn:Hts; [clear Hit | discriminate].
    destruct (occurs (py_of_id id) cm) eqn:Hocc.
    + exists d. split; [apply (run_complete_again config id d f cm Hcm Hocc)|].
      split; [exact Hh | subst action; discriminate].
    + exists (after_completion config (py_of_id id) cm sk ts d).
      split; [apply (run_complete_fresh config id d f cm sk ts Hcm Hsk Hocc Hm Hts)|].
      split; [|subst action; discriminate].
      unfold after_completion. rewrite !assoc_dict_set_other by discriminate. exact Hh.
  - destruct (String.eqb action "start") eqn:Es.
    + exists (dict_set "current_module" (py_of_id id) d).
      split; [reflexivity|]. split.
      * rewrite assoc_dict_set_other by discriminate. exact Hh.
      * intros _. apply assoc_dict_set_same.
    + exists d. split; [reflexivity|]. split; [exact Hh|].
      intros ->. discriminate.
Qed.

(** X17: when the file cannot be written, a call on a well-formed record
    raises [OSError] after the record in memory has been changed: the
    history has the new entry (and "start" has set [current_module]) while
    the file is as before, so memory and file disagree. *)
Theorem unwritable_file_loses_the_update
    (rt : runtime) (config : Config) (now : string) (id : option string)
    (action : string) (w : world) (h : list pyval) :
  well_formed_progress (user_progress w) = true ->
  field_of "session_history" w = Some (PyList h) ->
  writable (disk w) = false ->
  (action = "complete" ->
   modules config <> [] /\ topics_iterable (module_of config id) = true) ->
  let out := update_user_progress rt config now id action w in
  snd out = Raise OSError
  /\ field_of "session_history" (fst out)
     = Some (PyList (h ++ [history_entry now id action]))
  /\ (action = "start" -> field_of "current_module" (fst out) = Some (py_of_id id))
  /\ disk (fst out) = disk w.
Proof.
  intros Hwf Hh Hw Hcfg out.
  destruct (well_formed_progress_inv _ Hwf)
    as (d & cm & sk & h' & Hd & Hcm & Hsk & Hh').
  destruct w as [up f]. simpl in Hd, Hw. subst up.
  unfold field_of in Hh. simpl in Hh. rewrite Hh' in Hh. injection Hh as ->.
  change {| user_progress := PyDict d; disk := f |} with (mk d f) in *.
  destruct (run_action_part config id action d f cm sk h Hcm Hsk Hh' Hcfg)
    as (d1 & Hrun & Hh1 & Hstart).
  assert (Hout : out = (mk (with_entry (history_entry now id action) h d1) f,
                        Raise OSError)).
  { unfold out. rewrite update_unfold.
    rewrite (bindM_ok _ _ _ _ _ Hrun).
    rewrite (bindM_ok _ _ _ _ _ (run_append d1 f _ h _ Hh1)).
    unfold bindM, persist, save_user_progress, open_write. simpl.
    rewrite Hw. reflexivity. }
  rewrite Hout. cbn [fst snd]. unfold field_of, with_entry. simpl.
  split; [reflexivity|]. split; [apply assoc_dict_set_same|].
  split; [|reflexivity].
  intros Hs. rewrite assoc_dict_set_other by discriminate. exact (Hstart Hs).
Qed.

Lemma unwritable_file_loses_the_update_witness :
  snd (update_user_progress Reference.rt sample_config "2024-01-01T10:00:00"
         (Some "ai_best_practices") "start"
         {| user_progress := default_progress;
            disk := {| contents := None; readable := true; writable := false |} |})
  = Raise OSError
  /\ field_of "current_module"
       (fst (update_user_progress Reference.rt sample_config "2024-01-01T10:00:00"
               (Some "ai_best_practices") "start"
               {| user_progress := default_progress;
                  disk := {| contents := None; readable := true;
                             writable := false |} |}))
     = Some (PyStr "ai_best_practices").
Proof.
  destruct (unwritable_file_loses_the_update Reference.rt sample_config
              "2024-01-01T10:00:00" (Some "ai_best_practices") "start"
              {| user_progress := default_progress;
                 disk := {| contents := None; readable := true;
                            writable := false |} |}
              [] eq_refl eq_refl eq_refl ltac:(discriminate))
    as (H1 & _ & H3 & _).
  split; [exact H1 | exact (H3 eq_refl)].
Defined.

(** X18: after a call that returned, loading the file gives back the
    progress record as it is in memory, provided the file can be read and
    the JSON codec reads back the text it wrote for that record. *)
Theorem load_after_update_agrees
    (rt : runtime) (config : Config) (now : string) (id : option string)
    (action : string) (w : world) (s : string) :
  snd (update_user_progress rt config now id action w) = Ok s ->
  readable (disk w) = true ->
  json_loads rt
    (json_dumps rt (user_progress (fst (update_user_progress rt config now id action w))))
  = Some (user_progress (fst (update_user_progress rt config now id action w))) ->
  load_user_progress rt (disk (fst (update_user_progress rt config now id action w)))
  = user_progress (fst (update_user_progress rt config now id action w)).
Proof.
  intros Hs Hr Hj.
  destruct (update_outcomes rt config now id action w) as [(_ & _ & H3)|[[e He] _]].
  - rewrite H3. unfold load_user_progress, open_read, written. simpl.
    rewrite Hr, Hj. reflexivity.
  - rewrite Hs in He. discriminate.
Qed.

Lemma load_after_update_agrees_witness :
  load_user_progress Reference.rt
    (disk (fst (update_user_progress Reference.rt sample_config
                  "2024-01-01T10:00:00" (Some "programming_with_ai") "start"
                  fresh_world)))
  = user_progress
      (fst (update_user_progress Reference.rt sample_config
              "2024-01-01T10:00:00" (Some "programming_with_ai") "start"
              fresh_world)).
Proof.
  apply (load_after_update_agrees Reference.rt sample_config
           "2024-01-01T10:00:00" (Some "programming_with_ai") "start"
           fresh_world
           "Progress updated: start for module programming_with_ai");
    vm_compute; reflexivity.
Defined.

(** X19: a progress value that is not a dictionary (the file held a JSON
    list, string or number, which loading accepts) makes every call raise
    [TypeError], with memory and file left as they were. *)
Theorem progress_must_be_a_dictionary
    (rt : runtime) (config : Config) (now : string) (id : option string)
    (action : string) (w : world) :
  (forall d, user_progress w <> PyDict d) ->
  update_user_progress rt config now id action w = (w, Raise TypeError).
Proof.
  intros Hnd. rewrite update_unfold. unfold action_part, complete_module.
  destruct w as [up f]. simpl in Hnd.
  destruct up; try (exfalso; apply (Hnd d); reflexivity);
    destruct (String.eqb action "complete"); try reflexivity;
    destruct (String.eqb action "start"); reflexivity.
Qed.

Lemma progress_must_be_a_dictionary_witness :
  update_user_progress Reference.rt sample_config "2024-01-01T10:00:00"
    (Some "m1") "start"
    {| user_progress :=
         load_user_progress Reference.rt
           {| contents := Some "[]"; readable := true; writable := true |};
       disk := {| contents := Some "[]"; readable := true; writable := true |} |}
  = ({| user_progress := PyList [];
        disk := {| contents := Some "[]"; readable := true; writable := true |} |},
     Raise TypeError).
Proof.
  apply (progress_must_be_a_dictionary Reference.rt sample_config
           "2024-01-01T10:00:00" (Some "m1") "start"
           {| user_progress := PyList [];
              disk := {| contents := Some "[]"; readable := true;
                         writable := true |} |}).
  intros d. discriminate.
Defined.

(** X20: a progress dictionary without the key an action needs raises
    [KeyError] naming that key: "complete" needs [completed_modules] first
    and leaves everything as it was; every action needs [session_history],
    and "start" has by then already set [current_module]. *)
Theorem missing_keys_raise_key_error
    (rt : runtime) (config : Config) (now : string) (id : option string)
    (w : world) (d : pydict) :
  user_progress w = PyDict d ->
  (assoc "completed_modules" d = None ->
   update_user_progress rt config now id "complete" w
   = (w, Raise (KeyError "completed_modules")))
  /\ (assoc "session_history" d = None ->
      update_user_progress rt config now id "start" w
      = ({| user_progress := PyDict (dict_set "current_module" (py_of_id id) d);
            disk := disk w |},
         Raise (KeyError "session_history")))
  /\ (assoc "session_history" d = None ->
      forall action, action <> "complete" -> action <> "start" ->
      update_user_progress rt config now id action w
      = (w, Raise (KeyError "session_history"))).
Proof.
  intros Hd. destruct w as [up f]. simpl in Hd. subst up.
  split; [|split].
  - intros Hnone. rewrite update_unfold.
    unfold action_part, complete_module, progress_lacks, progress_get, bindM.
    simpl. rewrite Hnone. reflexivity.
  - intros Hnone. rewrite update_unfold.
    unfold action_part, progress_set, progress_append, progress_get, bindM.
    simpl. rewrite assoc_dict_set_other by discriminate. rewrite Hnone. reflexivity.
  - intros Hnone action n1 n2. rewrite update_unfold.
    apply String.eqb_neq in n1, n2.
    unfold action_part, progress_append, progress_get, bindM.
    rewrite n1, n2. simpl. rewrite Hnone. reflexivity.
Qed.

Lemma missing_keys_raise_key_error_witness :
  update_user_progress Reference.rt sample_config "2024-01-01T10:00:00"
    (Some "m1") "complete" (mk [ ("current_module", PyNone) ] (disk fresh_world))
  = (mk [ ("current_module", PyNone) ] (disk fresh_world),
     Raise (KeyError "completed_modules")).
Proof.
  exact (proj1 (missing_keys_raise_key_error Reference.rt sample_config
                  "2024-01-01T10:00:00" (Some "m1")
                  (mk [ ("current_module", PyNone) ] (disk fresh_world))
                  [ ("current_module", PyNone) ] eq_refl)
           eq_refl).
Defined.

Lemma occurs_strings (t : string) (ss : list string) :
  occurs (PyStr t) (map PyStr ss) = existsb (fun s => String.eqb s t) ss.
Proof.
  unfold occurs. induction ss as [|s ss IH]; simpl; [reflexivity|].
  rewrite IH. reflexivity.
Qed.

Lemma existsb_eqb_In (t : string) (ss : list string) :
  existsb (fun s => String.eqb s t) ss = true <-> In t ss.
Proof.
  rewrite existsb_exists. split.
  - intros [s [Hin He]]. apply String.eqb_eq in He. subst. exact Hin.
  - intros Hin. exists t. split; [exact Hin | apply String.eqb_refl].
Qed.

Lemma merge_skills_strings (ts : list string) :
  forall ss, NoDup ss ->
    exists added,
      merge_skills (map PyStr ss) (map PyStr ts) = map PyStr (ss ++ added)
      /\ NoDup (ss ++ added)
      /\ forall x, In x (ss ++ added) <-> In x ss \/ In x ts.
Proof.
  induction ts as [|t ts IH]; intros ss Hnd; simpl.
  - exists []. rewrite app_nil_r. repeat split; auto.
    intros [H|[]]. exact H.
  - rewrite occurs_strings.
    destruct (existsb (fun s => String.eqb s t) ss) eqn:E.
    + apply existsb_eqb_In in E.
      destruct (IH ss Hnd) as (added & Hm & Hn & Hin).
      exists added. split; [exact Hm|]. split; [exact Hn|].
      intros x. rewrite Hin. split.
      * intros [H|H]; auto.
      * intros [H|[<-|H]]; auto.
    + assert (Hnot : ~ In t ss).
      { intros Hin. apply existsb_eqb_In in Hin. rewrite Hin in E. discriminate. }
      assert (Hnd' : NoDup (ss ++ [t])).
      { apply NoDup_app; [exact Hnd | repeat constructor; intros [] |].
        intros x Hx [<-|[]]. contradiction. }
      destruct (IH (ss ++ [t])%list Hnd') as (added & Hm & Hn & Hin).
      exists (t :: added).
      replace (ss ++ t :: added)%list with ((ss ++ [t]) ++ added)%list
        by (rewrite <- app_assoc; reflexivity).
      split.
      * rewrite <- Hm. rewrite map_app. reflexivity.
      * split; [exact Hn|]. intros x. rewrite Hin, in_app_iff. simpl.
        tauto.
Qed.

Lemma map_PyStr_inj (a b : list string) : map PyStr a = map PyStr b -> a = b.
Proof.
  revert b. induction a as [|x a IH]; intros [|y b] H; try discriminate.
  - reflexivity.
  - simpl in H. injection H as -> H. rewrite (IH b H). reflexivity.
Qed.

(** X21: completing, for the first time, a module that the configuration
    lists under id [s] with the string topics [ts], while the skills are the
    distinct strings [ss], leaves [skills_acquired] a list of distinct strings
    that starts with [ss] and holds exactly the strings of [ss] and [ts]. *)
Theorem skills_stay_distinct_strings
    (rt : runtime) (config : Config) (now : string) (s : string) (m : pydict)
    (w : world) (cm : list pyval) (ss ts : list string) :
  assoc s (modules config) = Some m ->
  assoc "topics" m = Some (PyList (map PyStr ts)) ->
  field_of "completed_modules" w = Some (PyList cm) ->
  occurs (PyStr s) cm = false ->
  field_of "skills_acquired" w = Some (PyList (map PyStr ss)) ->
  NoDup ss ->
  exists added,
    field_of "skills_acquired"
      (fst (update_user_progress rt config now (Some s) "complete" w))
    = Some (PyList (map PyStr (ss ++ added)))
    /\ NoDup (ss ++ added)
    /\ forall x, In x (ss ++ added) <-> In x ss \/ In x ts.
Proof.
  intros Hmod Htopics Hcm Ho Hsk Hnd.
  assert (Hm : modules config <> [])
    by (intros E; rewrite E in Hmod; discriminate).
  assert (Hts : py_iter (dict_get_default (module_of config (Some s)) "topics"
                           (PyList []))
                = Ok (map PyStr ts)).
  { simpl module_of. rewrite Hmod. unfold dict_get_default. rewrite Htopics.
    reflexivity. }
  destruct (merge_skills_strings ts ss Hnd) as (added & Hmerge & Hn & Hin).
  exists added. split; [|split; assumption].
  rewrite update_field by discriminate.
  change (String.eqb "complete" "complete") with true. cbv iota.
  destruct (world_is_mk w _ _ Hcm) as [d [Hw Hd]].
  rewrite Hw in Hsk |- *. unfold field_of in Hsk. simpl in Hsk.
  rewrite (run_complete_fresh config (Some s) d (disk w) cm (map PyStr ss)
             (map PyStr ts) Hd Hsk Ho Hm Hts).
  unfold field_of, after_completion. simpl.
  rewrite assoc_dict_set_same, Hmerge. reflexivity.
Qed.

Lemma skills_stay_distinct_strings_witness :
  let after :=
    fst (update_user_progress Reference.rt sample_config "2024-01-01T10:00:00"
           (Some "ai_best_practices") "complete"
           (mk [ ("completed_modules", PyList [PyStr "programming_with_ai"]);
                 ("skills_acquired",
                   PyList [ PyStr "Quality Metrics"; PyStr "Test Data Generation" ]);
                 ("session_history", PyList []) ]
               (disk fresh_world))) in
  field_of "skills_acquired" after
  = Some (PyList [ PyStr "Quality Metrics"; PyStr "Test Data Generation";
                   PyStr "Prompt Design for QA"; PyStr "Workflow Integration";
                   PyStr "Smart Decision Making"; PyStr "AI Model Selection" ])
  /\ NoDup [ "Quality Metrics"; "Test Data Generation"; "Prompt Design for QA";
             "Workflow Integration"; "Smart Decision Making"; "AI Model Selection" ].
Proof.
  intros after.
  destruct (skills_stay_distinct_strings Reference.rt sample_config
              "2024-01-01T10:00:00" "ai_best_practices"
              (module_record "Best Practices with AI"
                 "Effective and safe AI usage in QA workflows"
                 [ "Prompt Design for QA"; "Workflow Integration";
                   "Smart Decision Making"; "AI Model Selection"; "Quality Metrics" ]
                 true "beginner")
              (mk [ ("completed_modules", PyList [PyStr "programming_with_ai"]);
                    ("skills_acquired",
                      PyList [ PyStr "Quality Metrics"; PyStr "Test Data Generation" ]);
                    ("session_history", PyList []) ]
                  (disk fresh_world))
              [PyStr "programming_with_ai"]
              [ "Quality Metrics"; "Test Data Generation" ]
              [ "Prompt Design for QA"; "Workflow Integration";
                "Smart Decision Making"; "AI Model Selection"; "Quality Metrics" ]
              eq_refl eq_refl eq_refl eq_refl eq_refl)
    as (added & Hskills & Hdistinct & _).
  - repeat constructor; simpl; intuition discriminate.
  - fold after in Hskills.
    assert (Hrun : field_of "skills_acquired" after
                   = Some (PyList (map PyStr
                        [ "Quality Metrics"; "Test Data Generation";
                          "Prompt Design for QA"; "Workflow Integration";
                          "Smart Decision Making"; "AI Model Selection" ])))
      by reflexivity.
    pose proof Hskills as Hmerged.
    rewrite Hrun in Hmerged. injection Hmerged as Hmerged.
    apply (map_PyStr_inj
             [ "Prompt Design for QA"; "Workflow Integration";
               "Smart Decision Making"; "AI Model Selection" ] added) in Hmerged.
    subst added.
    split; [exact Hskills | exact Hdistinct].
Defined.

(** X22: the module id is not checked against the configuration.
    Completing an id that no module has (or no id at all) still appends it
    to [completed_modules] and recomputes the percentage from the longer
    list, while [skills_acquired] stays as it was. *)
Theorem unknown_module_can_be_completed
    (rt : runtime) (config : Config) (now : string) (id : option string)
    (w : world) (cm sk : list pyval) :
  (forall s, id = Some s -> assoc s (modules config) = None) ->
  field_of "completed_modules" w = Some (PyList cm) ->
  occurs (py_of_id id) cm = false ->
  field_of "skills_acquired" w = Some (PyList sk) ->
  modules config <> [] ->
  let w' := fst (update_user_progress rt config now id "complete" w) in
  field_of "completed_modules" w' = Some (PyList (cm ++ [py_of_id id]))
  /\ field_of "current_progress" w'
     = Some (PyFloat (percentage config (S (length cm))))
  /\ field_of "skills_acquired" w' = Some (PyList sk).
Proof.
  intros Hunknown Hcm Ho Hsk Hm w'.
  assert (Hmod : module_of config id = []).
  { destruct id as [s|]; [|reflexivity]. simpl.
    rewrite (Hunknown s eq_refl). reflexivity. }
  destruct (world_is_mk w _ _ Hcm) as [d [Hw Hd]].
  rewrite Hw in Hsk. unfold field_of in Hsk. simpl in Hsk.
  assert (Hrun : forall key, key <> "session_history" ->
            field_of key w'
            = assoc key (after_completion config (py_of_id id) cm sk [] d)).
  { intros key ne. unfold w'. rewrite update_field by exact ne.
    change (String.eqb "complete" "complete") with true. cbv iota. rewrite Hw.
    rewrite (run_complete_fresh config id d (disk w) cm sk [] Hd Hsk Ho Hm
               ltac:(rewrite Hmod; reflexivity)).
    reflexivity. }
  rewrite !Hrun by discriminate. unfold after_completion. simpl merge_skills.
  split; [|split].
  - rewrite !assoc_dict_set_other by discriminate. apply assoc_dict_set_same.
  - rewrite assoc_dict_set_other by discriminate. apply assoc_dict_set_same.
  - apply assoc_dict_set_same.
Qed.

Lemma unknown_module_can_be_completed_witness :
  field_of "completed_modules"
    (fst (update_user_progress Reference.rt sample_config "2024-01-01T10:00:00"
            (Some "no_such_module") "complete" fresh_world))
  = Some (PyList [PyStr "no_such_module"])
  /\ field_of "skills_acquired"
       (fst (update_user_progress Reference.rt sample_config "2024-01-01T10:00:00"
               (Some "no_such_module") "complete" fresh_world))
     = Some (PyList []).
Proof.
  destruct (unknown_module_can_be_completed Reference.rt sample_config
              "2024-01-01T10:00:00" (Some "no_such_module") fresh_world [] [])
    as (H1 & _ & H3).
  - intros s Hs. injection Hs as <-. reflexivity.
  - reflexivity.
  - reflexivity.
  - reflexivity.
  - discriminate.
  - split; [exact H1 | exact H3].
Defined.

(** * The module selector and the progress chart *)

Lemma comprehension_ok {A B : Type} (body : A -> result B) (g : A -> B)
    (items : list A) :
  Forall (fun x => body x = Ok (g x)) items ->
  comprehension body items = Ok (map g items).
Proof.
  intros H. induction H as [|x rest Hx _ IH]; simpl; [reflexivity|].
  rewrite Hx, IH. reflexivity.
Qed.

Lemma comprehension_raises {A B : Type} (body : A -> result B) (e : exn)
    (items : list A) :
  Forall (fun x => body x = Raise e \/ exists y, body x = Ok y) items ->
  Exists (fun x => body x = Raise e) items ->
  comprehension body items = Raise e.
Proof.
  intros Hall Hex. induction Hall as [|x rest Hx _ IH]; [inversion Hex|]. simpl.
  destruct Hx as [Hx|[y Hy]].
  - rewrite Hx. reflexivity.
  - rewrite Hy. cbn [bind]. inversion Hex as [? ? Hh|? ? Ht]; subst.
    + rewrite Hy in Hh. discriminate.
    + rewrite (IH Ht). reflexivity.
Qed.

Lemma comprehension_inv {A B : Type} (body : A -> result B) (items : list A)
    (ys : list B) :
  comprehension body items = Ok ys ->
  Forall2 (fun x y => body x = Ok y) items ys.
Proof.
  revert ys. induction items as [|x rest IH]; intros ys; simpl.
  - intros H. injection H as <-. constructor.
  - destruct (body x) as [y|] eqn:Ex; [|discriminate]. cbn [bind].
    destruct (comprehension body rest) as [ys'|]; [|discriminate]. cbn [bind].
    intros H. injection H as <-. constructor; [exact Ex | apply IH; reflexivity].
Qed.

(** X23: the module selector is all or nothing.  When every module has a
    title it lists the modules in configuration order, each with its own
    title; one module without a title makes the whole call raise
    [KeyError]. *)
Theorem module_list_is_all_or_nothing (config : Config) :
  (Exists (fun entry => assoc "title" (snd entry) = None) (modules config) ->
   get_module_list config = Raise (KeyError "title"))
  /\ (Forall (fun entry => assoc "title" (snd entry) <> None) (modules config) ->
      exists choices,
        get_module_list config = Ok choices
        /\ map fst choices = map fst (modules config)
        /\ Forall2 (fun entry choice => assoc "title" (snd entry) = Some (snd choice))
             (modules config) choices).
Proof.
  unfold get_module_list. split.
  - intros Hex. apply comprehension_raises.
    + apply Forall_forall. intros [id m] _. unfold title_of. simpl.
      destruct (assoc "title" m); [right; eexists; reflexivity | left; reflexivity].
    + apply Exists_exists in Hex. destruct Hex as [[id m] [Hin Hn]].
      apply Exists_exists. exists (id, m). split; [exact Hin|].
      unfold title_of. simpl in *. rewrite Hn. reflexivity.
  - intros Hall. induction Hall as [|[id m] rest Hm _ IH]; simpl.
    + exists []. repeat split; constructor.
    + unfold title_of at 1. simpl in Hm |- *.
      destruct (assoc "title" m) as [t|] eqn:Et; [|contradiction]. cbn [bind].
      destruct IH as (choices & Hc & Hids & Hts). rewrite Hc. cbn [bind].
      exists ((id, t) :: choices). split; [reflexivity|]. split.
      * simpl. rewrite Hids. reflexivity.
      * constructor; [exact Et | exact Hts].
Qed.

Lemma module_list_is_all_or_nothing_witness :
  get_module_list
    {| modules := modules sample_config ++ [ ("untitled", [ ("hands_on", PyBool true) ]) ];
       presentation_templates := [];
       assessment_criteria := [] |}
  = Raise (KeyError "title").
Proof.
  apply (proj1 (module_list_is_all_or_nothing _)).
  do 3 apply Exists_cons_tl. apply Exists_cons_hd. reflexivity.
Defined.

Lemma flags_of_list (cm : list pyval) (ids : list string) :
  comprehension (completion_flag (PyList cm)) ids
  = Ok (map (fun m => if occurs (PyStr m) cm then 1 else 0)%Z ids).
Proof. apply comprehension_ok. apply Forall_forall. intros m _. reflexivity. Qed.

Lemma chart_inv (config : Config) (up : pyval) (cm : list pyval) (c : bar_chart) :
  py_field "completed_modules" up = Some (PyList cm) ->
  get_progress_chart config up = Ok c ->
  bar_y c = map (fun m => if occurs (PyStr m) cm then 1 else 0)%Z
              (map fst (modules config))
  /\ marker_color c = map bar_color (bar_y c)
  /\ Forall2 (fun m t => configured_title config m = Ok t)
       (map fst (modules config)) (bar_x c).
Proof.
  intros Hf. unfold get_progress_chart, completed_or_empty.
  destruct up; try discriminate. simpl in Hf.
  unfold dict_get_default. rewrite Hf. cbn [bind]. rewrite flags_of_list. cbn [bind].
  destruct (comprehension (configured_title config) (map fst (modules config)))
    as [x|] eqn:Ex; [|discriminate]. cbn [bind].
  intros H. injection H as <-. simpl.
  repeat split. apply comprehension_inv. exact Ex.
Qed.



Lemma occurs_id_snoc (m s : string) (cm : list pyval) :
  occurs (PyStr m) (cm ++ [PyStr s]) = occurs (PyStr m) cm || String.eqb s m.
Proof. rewrite occurs_app. simpl. rewrite orb_false_r. reflexivity. Qed.

(** X25: after "complete" for a module id, the chart drawn from the record
    in memory shows a full bar for that id and leaves every other module's
    bar as it was; no bar ever goes back to 0. *)
Theorem chart_after_completion
    (rt : runtime) (config : Config) (now : string) (s : string)
    (w : world) (cm : list pyval) (c : bar_chart) :
  field_of "completed_modules" w = Some (PyList cm) ->
  get_progress_chart config
    (user_progress (fst (update_user_progress rt config now (Some s) "complete" w)))
  = Ok c ->
  bar_y c
  = map (fun m => if String.eqb s m then 1 else if occurs (PyStr m) cm then 1 else 0)%Z
      (map fst (modules config)).
Proof.
  intros Hcm Hc.
  pose proof (completed_after_update rt config now (Some s) "complete" w cm Hcm) as Hf.
  change (String.eqb "complete" "complete") with true in Hf. cbn [andb] in Hf.
  destruct (chart_inv config _ _ c Hf Hc) as (Hy & _ & _).
  rewrite Hy. apply map_ext. intros m. simpl py_of_id.
  destruct (occurs (PyStr s) cm) eqn:Eo; cbn [negb].
  - destruct (String.eqb s m) eqn:E; [|reflexivity].
    apply String.eqb_eq in E. subst m. rewrite Eo. reflexivity.
  - rewrite occurs_id_snoc.
    destruct (occurs (PyStr m) cm); destruct (String.eqb s m); reflexivity.
Qed.

Lemma chart_after_completion_witness :
  exists c,
    get_progress_chart sample_config
      (user_progress
         (fst (update_user_progress Reference.rt sample_config "2024-01-01T10:00:00"
                 (Some "qa_ai_integration") "complete" fresh_world)))
    = Ok c
    /\ bar_y c = [0; 0; 1]%Z.
Proof.
  eexists. split; [reflexivity|].
  exact (chart_after_completion Reference.rt sample_config "2024-01-01T10:00:00"
           "qa_ai_integration" fresh_world [] _ eq_refl eq_refl).
Defined.

(** X26: an action other than "complete" never changes the chart: the
    chart drawn from the record after the call is the chart drawn before
    it, also when the call raises. *)
Theorem chart_unchanged_by_other_actions
    (rt : runtime) (config : Config) (now : string) (id : option string)
    (action : string) (w : world) (v : pyval) :
  field_of "completed_modules" w = Some v ->
  action <> "complete" ->
  get_progress_chart config
    (user_progress (fst (update_user_progress rt config now id action w)))
  = get_progress_chart config (user_progress w).
Proof.
  intros Hv ne.
  assert (Hf : field_of "completed_modules"
                 (fst (update_user_progress rt config now id action w)) = Some v).
  { rewrite update_field by discriminate.
    apply String.eqb_neq in ne. rewrite ne.
    destruct (String.eqb action "start"); [|exact Hv].
    rewrite (preserves_set "completed_modules" "current_module" _
               ltac:(discriminate) w). exact Hv. }
  unfold field_of in Hv, Hf.
  destruct (user_progress (fst (update_user_progress rt config now id action w)));
    try discriminate.
  destruct (user_progress w); try discriminate. simpl in Hv, Hf.
  unfold get_progress_chart, completed_or_empty, dict_get_default.
  rewrite Hv, Hf. reflexivity.
Qed.

Lemma chart_unchanged_by_other_actions_witness :
  get_progress_chart sample_config
    (user_progress
       (fst (update_user_progress Reference.rt sample_config "2024-01-01T10:00:00"
               (Some "qa_ai_integration") "start" fresh_world)))
  = get_progress_chart sample_config (user_progress fresh_world).
Proof.
  apply (chart_unchanged_by_other_actions Reference.rt sample_config
           "2024-01-01T10:00:00" (Some "qa_ai_integration") "start" fresh_world
           (PyList []));
    first [reflexivity | discriminate].
Defined.

